(** * ForestDiscipline (witness-core): the discipline wrapper around the
    Forest model, its forward outputs and its registered Jacobians.

    Source: climateeconomics/sos_wrapping/sos_wrapping_agriculture/forest/forest_disc.py

    Numbers.  The program computes on numpy float64 arrays.  Here a number
    is a rational [Qc] (exact arithmetic, Leibniz equality): every statement
    below is about the algebra of the computation, not about rounding.
    A 1-D numpy array is a [list Qc], a 2-D array a list of rows. *)

From Stdlib Require Import QArith Qcanon.
From stdpp Require Import base option list numbers strings finite gmap.

Local Open Scope Qc_scope.

(** ** numpy arrays *)

Abbreviation vector := (list Qc) (only parsing).
Abbreviation matrix := (list (list Qc)) (only parsing).

(** [M[i][j]]; rows and columns are indexed by year offsets from
    [year_start].  Out of range reads as 0, where numpy raises: a statement
    on the entries of an array says something of the entries the array
    has, and is paired with the shape of the array ([square], below) where
    the entries have to be there. *)
Definition mat_entry (M : matrix) (i j : nat) : Qc :=
  default 0 (M !! i ≫= (.!! j)).

(** [A + B] on 2-D arrays of one shape.  On arrays of different shapes
    numpy broadcasts or raises and this sum truncates: it stands for the
    program's sum only where the operands have one shape
    ([jacobian_registrations_square], below). *)
Definition madd (A B : matrix) : matrix := zip_with (zip_with Qcplus) A B.

(** [A / s] for a scalar [s ≠ 0].  At [s = 0] numpy gives [inf] and [nan]
    ([0 / 0]), which the rationals do not have ([x / 0] is [0] here):
    the theorems on the scaled outputs and on causality assume the scaling
    factors non-zero. *)
Definition mdiv (A : matrix) (s : Qc) : matrix :=
  (λ r : list Qc, (λ x, x / s) <$> r) <$> A.

(** [v / s] on a 1-D array, for [s ≠ 0] as for [mdiv]. *)
Definition vdiv (v : vector) (s : Qc) : vector := (λ x, x / s) <$> v.

(** Causality: nothing above the diagonal. *)
Definition lower_triangular (M : matrix) : Prop :=
  ∀ i j, (i < j)%nat → mat_entry M i j = 0.

Lemma mat_entry_madd_cases A B i j :
  mat_entry (madd A B) i j = mat_entry A i j + mat_entry B i j
  ∨ mat_entry (madd A B) i j = 0.
Proof.
  unfold mat_entry, madd. rewrite lookup_zip_with.
  destruct (A !! i) as [ra|]; simpl; [|by right].
  destruct (B !! i) as [rb|]; simpl; [|by right].
  rewrite lookup_zip_with.
  destruct (ra !! j); simpl; [|by right].
  destruct (rb !! j); simpl; [by left|by right].
Qed.

Lemma mat_entry_mdiv A s i j :
  mat_entry (mdiv A s) i j = mat_entry A i j / s.
Proof.
  unfold mat_entry, mdiv. rewrite list_lookup_fmap.
  destruct (A !! i) as [ra|]; simpl.
  - rewrite list_lookup_fmap. destruct (ra !! j); simpl; [done|].
    unfold Qcdiv. ring.
  - unfold Qcdiv. ring.
Qed.

Lemma lower_triangular_madd A B :
  lower_triangular A → lower_triangular B → lower_triangular (madd A B).
Proof.
  intros HA HB i j Hij.
  destruct (mat_entry_madd_cases A B i j) as [-> | ->]; [|done].
  rewrite HA, HB by done. ring.
Qed.

Lemma lower_triangular_mdiv A s :
  s ≠ 0 → lower_triangular A → lower_triangular (mdiv A s).
Proof.
  intros _ HA i j Hij. rewrite mat_entry_mdiv, HA by done.
  unfold Qcdiv. ring.
Qed.

(** ** pandas DataFrames

    A DataFrame is its ordered list of named columns.  Only the operations
    the discipline uses are modelled; [None] stands for Python's KeyError. *)

Abbreviation DataFrame := (list (string * list Qc)) (only parsing).

(** [df.columns] *)
Definition columns (df : DataFrame) : list string := df.*1.

(** [df[c]] *)
Fixpoint df_get (df : DataFrame) (c : string) : option (list Qc) :=
  match df with
  | [] => None
  | (c', v) :: df' => if decide (c' = c) then Some v else df_get df' c
  end.

(** [df[c] = v]: overwrites the column if it exists, appends it otherwise. *)
Fixpoint df_set (df : DataFrame) (c : string) (v : list Qc) : DataFrame :=
  match df with
  | [] => [(c, v)]
  | (c', v') :: df' =>
      if decide (c' = c) then (c', v) :: df' else (c', v') :: df_set df' c v
  end.

(** [df[[c1, ..., cn]]]: a new frame with the listed columns, in that order. *)
Definition df_select (df : DataFrame) (cols : list string) : option DataFrame :=
  mapM (λ c, pair c <$> df_get df c) cols.

(** ** Inputs of the discipline ([DESC_IN]) *)

(** [wood_techno_dict]: the entries with a role in the surface and biomass
    computations. *)
Record wood_techno := {
  managed_wood_price_per_ha : Qc;
  construction_delay_years : nat;
  years_between_harvest : Qc;
  recycle_part : Qc;
  density_per_ha : Qc;
  mean_density : Qc
}.

(** [inputs_dict = self.get_sosdisc_inputs()].  An investment DataFrame is
    kept as its value column; row [k] is year [year_start + k]. *)
Record sosdisc_inputs := {
  year_start : Z;
  year_end : Z;
  deforestation_investment : list Qc;
  deforestation_cost_per_ha : Qc;
  initial_emissions : Qc;
  co2_per_ha : Qc;
  reforestation_cost_per_ha : Qc;
  reforestation_investment : list Qc;
  wood_techno_dict : wood_techno;
  managed_wood_initial_surface : Qc;
  managed_wood_invest_before_year_start : list Qc;
  managed_wood_investment : list Qc;
  transport_cost : list Qc;
  margin : list Qc;
  initial_unmanaged_forest_surface : Qc;
  initial_protected_forest_surface : Qc;
  scaling_factor_techno_consumption : Qc;
  scaling_factor_techno_production : Qc
}.

(** ** The Forest model as the discipline sees it

    [climateeconomics.core.core_forest.forest_v2.Forest] is not part of the
    sources at hand; the discipline only calls the methods and reads the
    attributes below, so they form the interface it is verified against. *)

(** The 6-tuple returned by each [compute_d_limit_surfaces_d_*_invest], in
    the order the discipline unpacks it. *)
Record limit_gradients := {
  d_cum_umw : matrix;
  d_delta_mw : matrix;
  d_delta_deforestation : matrix;
  d_lc_deforestation : matrix;
  d_lc_reforestation : matrix;
  d_lc_mw : matrix
}.

Class ForestModel (F : Type) := {
  (* self.forest_model.compute(inputs_dict): updates the model in place *)
  compute : sosdisc_inputs → F → F;
  (* attributes read after compute *)
  techno_production : F → DataFrame;
  techno_consumption : F → DataFrame;
  techno_consumption_woratio : F → DataFrame;
  CO2_emitted_df : F → DataFrame;
  forest_surface_df : F → DataFrame;
  managed_wood_df : F → DataFrame;
  biomass_dry_df : F → DataFrame;
  techno_prices : F → DataFrame;
  land_use_required : F → DataFrame;
  CO2_emissions : F → DataFrame;
  forest_lost_capital : F → DataFrame;
  (* gradient methods *)
  compute_d_deforestation_surface_d_invest : F → matrix;
  compute_d_reforestation_surface_d_invest : F → matrix;
  compute_d_mw_surface_d_invest : F → matrix;
  compute_d_limit_surfaces_d_deforestation_invest : F → matrix → limit_gradients;
  compute_d_limit_surfaces_d_reforestation_invest : F → matrix → limit_gradients;
  compute_d_limit_surfaces_d_mw_invest : F → matrix → limit_gradients;
  d_cum : F → matrix → matrix;
  compute_d_CO2_land_emission : F → matrix → matrix;
  compute_d_techno_prod_d_invest : F → matrix → matrix → matrix;
  compute_d_techno_conso_d_invest : F → matrix → matrix;
  compute_d_techno_price_d_invest : F → matrix → matrix → matrix
}.

(** ** Keys of the Jacobian dictionary

    [set_partial_derivative_for_other_types((out_table, out_column),
    (in_table, in_column), value)] files [value] under the pair of
    (table, column) names.  The names the discipline uses are enumerated;
    each constructor stands for the pair written next to it. *)

Inductive output_column :=
  | out_global_forest_surface        (* (Forest.FOREST_SURFACE_DF, 'global_forest_surface') *)
  | out_forest_constraint_evolution  (* (Forest.FOREST_SURFACE_DF, 'forest_constraint_evolution') *)
  | out_land_use_required            (* ('land_use_required', 'Forest (Gha)') *)
  | out_CO2_land_emission            (* ('CO2_land_emission_df', 'emitted_CO2_evol_cumulative') *)
  | out_techno_production            (* ('techno_production', 'biomass_dry (TWh)') *)
  | out_techno_consumption           (* ('techno_consumption', f'{CO2.name} ({mass_unit})') *)
  | out_techno_consumption_woratio   (* ('techno_consumption_woratio', f'{CO2.name} ({mass_unit})') *)
  | out_techno_prices_Forest         (* ('techno_prices', 'Forest') *)
  | out_techno_prices_Forest_wotaxes (* ('techno_prices', 'Forest_wotaxes') *)
  | out_lost_capital_reforestation   (* ('forest_lost_capital', 'reforestation') *)
  | out_lost_capital_deforestation   (* ('forest_lost_capital', 'deforestation') *)
  | out_lost_capital_managed_wood.   (* ('forest_lost_capital', 'managed_wood') *)

Inductive input_column :=
  | in_deforestation_investment  (* (Forest.DEFORESTATION_INVESTMENT, 'investment') *)
  | in_forest_investment         (* (Forest.REFORESTATION_INVESTMENT, 'forest_investment') *)
  | in_managed_wood_investment.  (* ('managed_wood_investment', 'investment') *)

#[global] Instance output_column_eq_dec : EqDecision output_column.
Proof. solve_decision. Defined.

#[global] Instance input_column_eq_dec : EqDecision input_column.
Proof. solve_decision. Defined.

Definition all_outputs : list output_column :=
  [ out_global_forest_surface; out_forest_constraint_evolution;
    out_land_use_required; out_CO2_land_emission; out_techno_production;
    out_techno_consumption; out_techno_consumption_woratio;
    out_techno_prices_Forest; out_techno_prices_Forest_wotaxes;
    out_lost_capital_reforestation; out_lost_capital_deforestation;
    out_lost_capital_managed_wood ].

Definition all_inputs : list input_column :=
  [ in_deforestation_investment; in_forest_investment;
    in_managed_wood_investment ].

#[global, program] Instance output_column_finite : Finite output_column :=
  {| enum := all_outputs |}.
Next Obligation. by apply (bool_decide_unpack _). Qed.
Next Obligation. intros []; set_solver. Qed.

#[global, program] Instance input_column_finite : Finite input_column :=
  {| enum := all_inputs |}.
Next Obligation. by apply (bool_decide_unpack _). Qed.
Next Obligation. intros []; set_solver. Qed.

Abbreviation jac_key := (output_column * input_column)%type (only parsing).
Abbreviation jacobian := (gmap (output_column * input_column) (list (list Qc)))
  (only parsing).

(** [self.set_partial_derivative_for_other_types(y, x, value)] *)
Definition set_partial_derivative_for_other_types
    (y : output_column) (x : input_column) (value : matrix)
    (jac : jacobian) : jacobian :=
  <[(y, x) := value]> jac.

(** ** ForestDiscipline *)

(** [outputs_dict] of [run], one field per key. *)
Record outputs_dict := {
  o_CO2_emitted_detail_df : list (string * list Qc);
  o_forest_detail_surface_df : list (string * list Qc);
  o_forest_surface_df : list (string * list Qc);
  o_CO2_land_emission_df : list (string * list Qc);
  o_managed_wood_df : list (string * list Qc);
  o_biomass_dry_detail_df : list (string * list Qc);
  o_biomass_dry_df : list (string * list Qc);
  o_techno_production : list (string * list Qc);
  o_techno_prices : list (string * list Qc);
  o_techno_consumption : list (string * list Qc);
  o_techno_consumption_woratio : list (string * list Qc);
  o_land_use_required : list (string * list Qc);
  o_CO2_emissions : list (string * list Qc);
  o_forest_lost_capital : list (string * list Qc)
}.

(** The discipline object: the model created by [init_execution], the
    outputs last stored by [store_sos_outputs_values], and the Jacobian
    dictionary filled by [set_partial_derivative_for_other_types]. *)
Record ForestDiscipline (F : Type) := {
  forest_model : F;
  stored_outputs : option outputs_dict;
  jac : gmap (output_column * input_column) (list (list Qc))
}.
Arguments forest_model {F} _.
Arguments stored_outputs {F} _.
Arguments jac {F} _.

Section discipline.
Context {F : Type} `{ForestModel F}.

(** The loop of [run] over [techno_production.columns]:
    every column but ['years'] is divided by the scaling factor. *)
Definition scale_columns (df : DataFrame) (s : Qc) : DataFrame :=
  foldl (λ acc column,
           if decide (column = "years") then acc
           else match df_get acc column with
                | Some values => df_set acc column (vdiv values s)
                | None => acc
                end)
        df (columns df).

(** The loop of [run] over [techno_consumption.columns]: each column of
    [techno_consumption] but ['years'] is divided in [techno_consumption]
    and, under the same name, in [techno_consumption_woratio]. *)
Definition scale_consumption_step (s : Qc)
    (acc : option (DataFrame * DataFrame)) (column : string)
    : option (DataFrame * DataFrame) :=
  '(tc, tcw) ← acc;
  if decide (column = "years") then Some (tc, tcw)
  else
    v ← df_get tc column;
    w ← df_get tcw column;
    Some (df_set tc column (vdiv v s), df_set tcw column (vdiv w s)).

Definition scale_consumption (tc tcw : DataFrame) (s : Qc)
    : option (DataFrame * DataFrame) :=
  foldl (scale_consumption_step s) (Some (tc, tcw)) (columns tc).

(** [ForestDiscipline.run]; [None] is a KeyError. *)
Definition run (inputs_dict : sosdisc_inputs) (self : ForestDiscipline F)
    : option (ForestDiscipline F) :=
  let fm := compute inputs_dict (forest_model self) in
  techno_production0 ← df_select (techno_production fm)
                         ["years"; "biomass_dry (TWh)"];
  let techno_production1 :=
    scale_columns techno_production0
      (scaling_factor_techno_production inputs_dict) in
  '(techno_consumption1, techno_consumption_woratio1) ←
    scale_consumption (techno_consumption fm)
      (techno_consumption_woratio fm)
      (scaling_factor_techno_consumption inputs_dict);
  fs ← df_select (forest_surface_df fm)
         ["years"; "global_forest_surface"; "forest_constraint_evolution"];
  ce ← df_select (CO2_emitted_df fm)
         ["years"; "emitted_CO2_evol_cumulative"];
  bd ← df_select (biomass_dry_df fm)
         ["years"; "price_per_MWh"; "biomass_dry_for_energy (Mt)"];
  Some {| forest_model := fm;
          stored_outputs := Some {|
            o_CO2_emitted_detail_df := CO2_emitted_df fm;
            o_forest_detail_surface_df := forest_surface_df fm;
            o_forest_surface_df := fs;
            o_CO2_land_emission_df := ce;
            o_managed_wood_df := managed_wood_df fm;
            o_biomass_dry_detail_df := biomass_dry_df fm;
            o_biomass_dry_df := bd;
            o_techno_production := techno_production1;
            o_techno_prices := techno_prices fm;
            o_techno_consumption := techno_consumption1;
            o_techno_consumption_woratio := techno_consumption_woratio1;
            o_land_use_required := land_use_required fm;
            o_CO2_emissions := CO2_emissions fm;
            o_forest_lost_capital := forest_lost_capital fm |};
          jac := jac self |}.

(** [ForestDiscipline.compute_sos_jacobian], up to the registrations: the
    calls of [set_partial_derivative_for_other_types] in program order,
    each with its key and its value. *)
Definition jacobian_registrations (inputs_dict : sosdisc_inputs) (fm0 : F)
    : list ((output_column * input_column) * list (list Qc)) :=
  let fm := compute inputs_dict fm0 in
  let scaling_factor_techno_production :=
    scaling_factor_techno_production inputs_dict in
  let scaling_factor_techno_consumption :=
    scaling_factor_techno_consumption inputs_dict in
  (* gradient for surface vs invest *)
  let d_deforestation_surface_d_invest :=
    compute_d_deforestation_surface_d_invest fm in
  let d_reforestation_surface_d_invest :=
    compute_d_reforestation_surface_d_invest fm in
  let d_mw_surface_d_invest := compute_d_mw_surface_d_invest fm in
  (* compute the gradient of the surfaces vs invest at the limit *)
  let lim_defo := compute_d_limit_surfaces_d_deforestation_invest fm
                    d_deforestation_surface_d_invest in
  let lim_refo := compute_d_limit_surfaces_d_reforestation_invest fm
                    d_reforestation_surface_d_invest in
  let lim_mw := compute_d_limit_surfaces_d_mw_invest fm
                  d_mw_surface_d_invest in
  (* compute cumulated surfaces vs deforestation invest *)
  let d_cum_mw_surface_d_deforestation_invest :=
    d_cum fm (d_delta_mw lim_defo) in
  let d_cum_deforestation_surface_d_deforestation_invest :=
    d_cum fm (d_delta_deforestation lim_defo) in
  (* compute cumulated surfaces vs reforestation invest *)
  let d_cum_mw_surface_d_reforestation_invest :=
    d_cum fm (d_delta_mw lim_refo) in
  let d_cum_deforestation_surface_d_reforestation_invest :=
    d_cum fm (d_delta_deforestation lim_refo) in
  let d_cum_reforestation_surface_d_reforestation_invest :=
    d_cum fm d_reforestation_surface_d_invest in
  (* compute cumulated surfaces vs mw invest *)
  let d_cum_mw_surface_d_mw_invest := d_cum fm (d_delta_mw lim_mw) in
  let d_cum_deforestation_surface_d_mw_invest :=
    d_cum fm (d_delta_deforestation lim_mw) in
  (* forest constraint surface vs invest *)
  let d_forest_constraint_d_deforestation_invest :=
    d_cum_deforestation_surface_d_deforestation_invest in
  let d_forest_constraint_d_reforestation_invest :=
    madd d_cum_deforestation_surface_d_reforestation_invest
         d_cum_reforestation_surface_d_reforestation_invest in
  let d_forest_constraint_d_mw_invest :=
    d_cum_deforestation_surface_d_mw_invest in
  (* gradient CO2_land_emission vs invest *)
  let d_CO2_land_emission_d_deforestation_invest :=
    compute_d_CO2_land_emission fm
      d_forest_constraint_d_deforestation_invest in
  let d_CO2_land_emission_d_reforestation_invest :=
    compute_d_CO2_land_emission fm
      d_forest_constraint_d_reforestation_invest in
  let d_CO2_land_emission_d_mw_invest :=
    compute_d_CO2_land_emission fm d_forest_constraint_d_mw_invest in
  (* gradient of techno production vs invest *)
  let d_techno_prod_d_deforestation_invest :=
    compute_d_techno_prod_d_invest fm
      (d_delta_mw lim_defo) (d_delta_deforestation lim_defo) in
  let d_techno_prod_d_reforestation_invest :=
    compute_d_techno_prod_d_invest fm
      (d_delta_mw lim_refo) (d_delta_deforestation lim_refo) in
  let d_techno_prod_d_mw_invest :=
    compute_d_techno_prod_d_invest fm
      (d_delta_mw lim_mw) (d_delta_deforestation lim_mw) in
  (* gradient of techno consumption vs invest *)
  let d_techno_conso_d_deforestation_invest :=
    compute_d_techno_conso_d_invest fm
      d_techno_prod_d_deforestation_invest in
  let d_techno_conso_d_reforestation_invest :=
    compute_d_techno_conso_d_invest fm
      d_techno_prod_d_reforestation_invest in
  let d_techno_conso_d_mw_invest :=
    compute_d_techno_conso_d_invest fm d_techno_prod_d_mw_invest in
  (* gradient of techno prices vs invest *)
  let d_techno_price_d_deforestation_invest :=
    compute_d_techno_price_d_invest fm
      (d_delta_mw lim_defo) (d_delta_deforestation lim_defo) in
  let d_techno_price_d_reforestation_invest :=
    compute_d_techno_price_d_invest fm
      (d_delta_mw lim_refo) (d_delta_deforestation lim_refo) in
  let d_techno_price_d_mw_invest :=
    compute_d_techno_price_d_invest fm
      (d_delta_mw lim_mw) (d_delta_deforestation lim_mw) in
  [ (* global forest surface *)
    ((out_global_forest_surface, in_deforestation_investment),
     madd d_cum_mw_surface_d_deforestation_invest (d_cum_umw lim_defo));
    ((out_global_forest_surface, in_forest_investment),
     madd d_cum_mw_surface_d_reforestation_invest (d_cum_umw lim_refo));
    ((out_global_forest_surface, in_managed_wood_investment),
     madd d_cum_mw_surface_d_mw_invest (d_cum_umw lim_mw));
    (* forest constraint *)
    ((out_forest_constraint_evolution, in_deforestation_investment),
     d_forest_constraint_d_deforestation_invest);
    ((out_forest_constraint_evolution, in_forest_investment),
     d_forest_constraint_d_reforestation_invest);
    ((out_forest_constraint_evolution, in_managed_wood_investment),
     d_forest_constraint_d_mw_invest);
    (* land use required = cum_mw_surface *)
    ((out_land_use_required, in_deforestation_investment),
     d_cum_mw_surface_d_deforestation_invest);
    ((out_land_use_required, in_forest_investment),
     d_cum_mw_surface_d_reforestation_invest);
    ((out_land_use_required, in_managed_wood_investment),
     d_cum_mw_surface_d_mw_invest);
    (* CO2 land emission *)
    ((out_CO2_land_emission, in_deforestation_investment),
     d_CO2_land_emission_d_deforestation_invest);
    ((out_CO2_land_emission, in_forest_investment),
     d_CO2_land_emission_d_reforestation_invest);
    ((out_CO2_land_emission, in_managed_wood_investment),
     d_CO2_land_emission_d_mw_invest);
    (* techno production *)
    ((out_techno_production, in_deforestation_investment),
     mdiv d_techno_prod_d_deforestation_invest
          scaling_factor_techno_production);
    ((out_techno_production, in_forest_investment),
     mdiv d_techno_prod_d_reforestation_invest
          scaling_factor_techno_production);
    ((out_techno_production, in_managed_wood_investment),
     mdiv d_techno_prod_d_mw_invest scaling_factor_techno_production);
    (* techno consumption *)
    ((out_techno_consumption, in_deforestation_investment),
     mdiv d_techno_conso_d_deforestation_invest
          scaling_factor_techno_consumption);
    ((out_techno_consumption, in_forest_investment),
     mdiv d_techno_conso_d_reforestation_invest
          scaling_factor_techno_consumption);
    ((out_techno_consumption, in_managed_wood_investment),
     mdiv d_techno_conso_d_mw_invest scaling_factor_techno_consumption);
    (* techno consumption wo ratio (same as techno_consumption here) *)
    ((out_techno_consumption_woratio, in_deforestation_investment),
     mdiv d_techno_conso_d_deforestation_invest
          scaling_factor_techno_consumption);
    ((out_techno_consumption_woratio, in_forest_investment),
     mdiv d_techno_conso_d_reforestation_invest
          scaling_factor_techno_consumption);
    ((out_techno_consumption_woratio, in_managed_wood_investment),
     mdiv d_techno_conso_d_mw_invest scaling_factor_techno_consumption);
    (* techno prices *)
    ((out_techno_prices_Forest, in_deforestation_investment),
     d_techno_price_d_deforestation_invest);
    ((out_techno_prices_Forest, in_forest_investment),
     d_techno_price_d_reforestation_invest);
    ((out_techno_prices_Forest, in_managed_wood_investment),
     d_techno_price_d_mw_invest);
    (* techno prices wo ratio (same as techno_price here) *)
    ((out_techno_prices_Forest_wotaxes, in_deforestation_investment),
     d_techno_price_d_deforestation_invest);
    ((out_techno_prices_Forest_wotaxes, in_forest_investment),
     d_techno_price_d_reforestation_invest);
    ((out_techno_prices_Forest_wotaxes, in_managed_wood_investment),
     d_techno_price_d_mw_invest);
    (* lost capital vs reforestation investment *)
    ((out_lost_capital_reforestation, in_forest_investment),
     d_lc_reforestation lim_refo);
    ((out_lost_capital_deforestation, in_forest_investment),
     d_lc_deforestation lim_refo);
    ((out_lost_capital_managed_wood, in_forest_investment),
     d_lc_mw lim_refo);
    (* lost capital vs deforestation investment *)
    ((out_lost_capital_reforestation, in_deforestation_investment),
     d_lc_reforestation lim_defo);
    ((out_lost_capital_deforestation, in_deforestation_investment),
     d_lc_deforestation lim_defo);
    ((out_lost_capital_managed_wood, in_deforestation_investment),
     d_lc_mw lim_defo);
    (* lost capital vs managed wood investment *)
    ((out_lost_capital_reforestation, in_managed_wood_investment),
     d_lc_reforestation lim_mw);
    ((out_lost_capital_deforestation, in_managed_wood_investment),
     d_lc_deforestation lim_mw);
    ((out_lost_capital_managed_wood, in_managed_wood_investment),
     d_lc_mw lim_mw) ].

(** Filing a sequence of registrations, first one first. *)
Definition register_all
    (regs : list ((output_column * input_column) * list (list Qc)))
    (j : gmap (output_column * input_column) (list (list Qc)))
    : gmap (output_column * input_column) (list (list Qc)) :=
  foldl (λ acc kv, set_partial_derivative_for_other_types
                     kv.1.1 kv.1.2 kv.2 acc) j regs.

(** [ForestDiscipline.compute_sos_jacobian] *)
Definition compute_sos_jacobian (inputs_dict : sosdisc_inputs)
    (self : ForestDiscipline F) : ForestDiscipline F :=
  {| forest_model := compute inputs_dict (forest_model self);
     stored_outputs := stored_outputs self;
     jac := register_all
              (jacobian_registrations inputs_dict (forest_model self))
              (jac self) |}.
End discipline.

(** ** The Jacobian dictionary after [compute_sos_jacobian] *)

Section registrations.
Context {F : Type} `{ForestModel F}.

Lemma register_all_cons kv regs j :
  register_all (kv :: regs) j
  = register_all regs
      (set_partial_derivative_for_other_types kv.1.1 kv.1.2 kv.2 j).
Proof. reflexivity. Qed.

Lemma register_all_lookup_notin regs j k :
  k ∉ regs.*1 → register_all regs j !! k = j !! k.
Proof.
  revert j. induction regs as [|[[y x] v] regs IH]; intros j Hk; [done|].
  rewrite register_all_cons, IH by set_solver.
  unfold set_partial_derivative_for_other_types; simpl.
  apply lookup_insert_ne. set_solver.
Qed.

Lemma register_all_lookup regs j k v :
  NoDup regs.*1 → (k, v) ∈ regs → register_all regs j !! k = Some v.
Proof.
  revert j. induction regs as [|[[y x] w] regs IH]; intros j Hnd Hin.
  - by apply elem_of_nil in Hin.
  - rewrite fmap_cons in Hnd. apply NoDup_cons in Hnd as [Hnotin Hnd].
    rewrite register_all_cons. apply elem_of_cons in Hin as [Heq|Hin].
    + inversion Heq; subst. rewrite register_all_lookup_notin by done.
      unfold set_partial_derivative_for_other_types; simpl.
      apply lookup_insert_eq.
    + by apply IH.
Qed.

(** The keys registered, in program order: they do not depend on the
    inputs or on the model. *)
Definition registered_keys : list (output_column * input_column) :=
  [ (out_global_forest_surface, in_deforestation_investment);
    (out_global_forest_surface, in_forest_investment);
    (out_global_forest_surface, in_managed_wood_investment);
    (out_forest_constraint_evolution, in_deforestation_investment);
    (out_forest_constraint_evolution, in_forest_investment);
    (out_forest_constraint_evolution, in_managed_wood_investment);
    (out_land_use_required, in_deforestation_investment);
    (out_land_use_required, in_forest_investment);
    (out_land_use_required, in_managed_wood_investment);
    (out_CO2_land_emission, in_deforestation_investment);
    (out_CO2_land_emission, in_forest_investment);
    (out_CO2_land_emission, in_managed_wood_investment);
    (out_techno_production, in_deforestation_investment);
    (out_techno_production, in_forest_investment);
    (out_techno_production, in_managed_wood_investment);
    (out_techno_consumption, in_deforestation_investment);
    (out_techno_consumption, in_forest_investment);
    (out_techno_consumption, in_managed_wood_investment);
    (out_techno_consumption_woratio, in_deforestation_investment);
    (out_techno_consumption_woratio, in_forest_investment);
    (out_techno_consumption_woratio, in_managed_wood_investment);
    (out_techno_prices_Forest, in_deforestation_investment);
    (out_techno_prices_Forest, in_forest_investment);
    (out_techno_prices_Forest, in_managed_wood_investment);
    (out_techno_prices_Forest_wotaxes, in_deforestation_investment);
    (out_techno_prices_Forest_wotaxes, in_forest_investment);
    (out_techno_prices_Forest_wotaxes, in_managed_wood_investment);
    (out_lost_capital_reforestation, in_forest_investment);
    (out_lost_capital_deforestation, in_forest_investment);
    (out_lost_capital_managed_wood, in_forest_investment);
    (out_lost_capital_reforestation, in_deforestation_investment);
    (out_lost_capital_deforestation, in_deforestation_investment);
    (out_lost_capital_managed_wood, in_deforestation_investment);
    (out_lost_capital_reforestation, in_managed_wood_investment);
    (out_lost_capital_deforestation, in_managed_wood_investment);
    (out_lost_capital_managed_wood, in_managed_wood_investment) ].

Lemma jacobian_registrations_keys inputs_dict fm :
  (jacobian_registrations inputs_dict fm).*1 = registered_keys.
Proof. reflexivity. Qed.

Lemma registered_keys_NoDup : NoDup registered_keys.
Proof. apply (bool_decide_unpack _). vm_compute. exact I. Qed.

Lemma jacobian_registrations_NoDup inputs_dict fm :
  NoDup (jacobian_registrations inputs_dict fm).*1.
Proof. rewrite jacobian_registrations_keys. apply registered_keys_NoDup. Qed.

(** What is filed under a key after the call: the value of the only
    registration with that key. *)
Lemma compute_sos_jacobian_lookup inputs_dict self k v :
  (k, v) ∈ jacobian_registrations inputs_dict (forest_model self) →
  jac (compute_sos_jacobian inputs_dict self) !! k = Some v.
Proof.
  intros Hin. unfold compute_sos_jacobian. cbn [jac].
  apply register_all_lookup; [|exact Hin].
  apply jacobian_registrations_NoDup.
Qed.

Lemma compute_sos_jacobian_lookup_inv inputs_dict self k v :
  k ∈ registered_keys →
  jac (compute_sos_jacobian inputs_dict self) !! k = Some v →
  (k, v) ∈ jacobian_registrations inputs_dict (forest_model self).
Proof.
  intros Hk Hl. rewrite <- (jacobian_registrations_keys inputs_dict
                             (forest_model self)) in Hk.
  apply list_elem_of_fmap in Hk as [[k' v'] [-> Hin]]. cbn [fst] in *.
  rewrite (compute_sos_jacobian_lookup _ _ _ _ Hin) in Hl.
  inversion Hl; subst. exact Hin.
Qed.

(** Every (output, input) pair is registered. *)
Lemma registered_keys_total k : k ∈ registered_keys.
Proof.
  apply (bool_decide_unpack _).
  destruct k as [[] []]; vm_compute; exact I.
Qed.
End registrations.

(** The registration made at position [n] of the program is what the
    dictionary holds under its key afterwards. *)
Lemma compute_sos_jacobian_at {F : Type} `{ForestModel F}
    (n : nat) inputs_dict (self : ForestDiscipline F) k v :
  jacobian_registrations inputs_dict (forest_model self) !! n = Some (k, v) →
  jac (compute_sos_jacobian inputs_dict self) !! k = Some v.
Proof.
  intros Hn. apply compute_sos_jacobian_lookup.
  by apply list_elem_of_lookup_2 with n.
Qed.

Ltac jac_at n :=
  erewrite (compute_sos_jacobian_at n) by (cbv zeta; reflexivity).

(** C9.  Whatever the investment series and whatever the model state, the
    Jacobian filed for the CO2 column of [techno_consumption_woratio] is the
    one filed for the CO2 column of [techno_consumption], and the Jacobian
    filed for [techno_prices] ['Forest_wotaxes'] is the one filed for
    [techno_prices] ['Forest']; this holds with respect to each of the
    three investment inputs, and all four entries are present. *)
Theorem woratio_and_wotaxes_jacobians_equal {F : Type} `{ForestModel F}
    (inputs_dict : sosdisc_inputs) (self : ForestDiscipline F)
    (x : input_column) :
  jac (compute_sos_jacobian inputs_dict self)
    !! (out_techno_consumption_woratio, x)
  = jac (compute_sos_jacobian inputs_dict self) !! (out_techno_consumption, x)
  ∧ jac (compute_sos_jacobian inputs_dict self)
      !! (out_techno_prices_Forest_wotaxes, x)
    = jac (compute_sos_jacobian inputs_dict self)
        !! (out_techno_prices_Forest, x)
  ∧ is_Some (jac (compute_sos_jacobian inputs_dict self)
               !! (out_techno_consumption, x))
  ∧ is_Some (jac (compute_sos_jacobian inputs_dict self)
               !! (out_techno_prices_Forest, x)).
Proof.
  destruct x.
  - jac_at 18%nat. jac_at 15%nat. jac_at 24%nat. jac_at 21%nat. eauto.
  - jac_at 19%nat. jac_at 16%nat. jac_at 25%nat. jac_at 22%nat. eauto.
  - jac_at 20%nat. jac_at 17%nat. jac_at 26%nat. jac_at 23%nat. eauto.
Qed.

(** ** Facts on DataFrames and on the scaling loops of [run] *)

Lemma df_get_set_eq (df : list (string * list Qc)) c v :
  df_get (df_set df c v) c = Some v.
Proof.
  induction df as [|[c' v'] df IH]; simpl.
  - by rewrite decide_True.
  - destruct (decide (c' = c)) as [->|Hne]; simpl.
    + by rewrite decide_True.
    + by rewrite decide_False.
Qed.

Lemma df_get_set_ne (df : list (string * list Qc)) c c' v :
  c ≠ c' → df_get (df_set df c v) c' = df_get df c'.
Proof.
  intros Hne. induction df as [|[c0 v0] df IH]; simpl.
  - by rewrite decide_False.
  - destruct (decide (c0 = c)) as [->|Hne0]; simpl.
    + by rewrite !decide_False.
    + by rewrite IH.
Qed.

Lemma columns_df_set_in (df : list (string * list Qc)) c v :
  c ∈ columns df → columns (df_set df c v) = columns df.
Proof.
  unfold columns. induction df as [|[c0 v0] df IH]; simpl; intros Hin.
  - by apply elem_of_nil in Hin.
  - destruct (decide (c0 = c)) as [->|Hne]; simpl; [done|].
    f_equal. apply IH. apply elem_of_cons in Hin as [?|?]; [congruence|done].
Qed.

Lemma df_get_is_Some (df : list (string * list Qc)) c :
  is_Some (df_get df c) ↔ c ∈ columns df.
Proof.
  unfold columns. induction df as [|[c0 v0] df IH]; simpl.
  - split; [by intros [? ?]|by intros ?%elem_of_nil].
  - destruct (decide (c0 = c)) as [->|Hne].
    + split; [intros _; apply elem_of_cons; by left|eauto].
    + rewrite IH. split; [intros ?; apply elem_of_cons; by right|].
      intros [?|?]%elem_of_cons; [congruence|done].
Qed.

(** How one column reads after the scaling: divided, except ['years']. *)
Definition scaled (s : Qc) (c : string) (v : list Qc) : list Qc :=
  if decide (c = "years") then v else vdiv v s.

Section scaling.
Context {F : Type} `{ForestModel F}.

Lemma scale_consumption_None s l :
  foldl (scale_consumption_step s) None l = None.
Proof. induction l; simpl; auto. Qed.

Lemma scaled_years s v : scaled s "years" v = v.
Proof. reflexivity. Qed.

Lemma scaled_other s c v : c ≠ "years" → scaled s c v = vdiv v s.
Proof. intros Hc. unfold scaled. by rewrite decide_False. Qed.

Lemma scale_consumption_fold s l :
  NoDup l →
  ∀ tc tcw tc' tcw',
    foldl (scale_consumption_step s) (Some (tc, tcw)) l = Some (tc', tcw') →
    ∀ c,
      (c ∈ l → df_get tc' c = scaled s c <$> df_get tc c
               ∧ df_get tcw' c = scaled s c <$> df_get tcw c)
      ∧ (c ∉ l → df_get tc' c = df_get tc c
                 ∧ df_get tcw' c = df_get tcw c).
Proof.
  induction 1 as [|col l Hnotin Hnd IH]; intros tc tcw tc' tcw' Hfold c.
  - simpl in Hfold. inversion Hfold; subst. split; [|done].
    by intros ?%elem_of_nil.
  - cbn [foldl scale_consumption_step mbind option_bind] in Hfold.
    destruct (decide (col = "years")) as [->|Hny].
    + specialize (IH _ _ _ _ Hfold c) as [IHin IHout]. split.
      * intros [->|Hin]%elem_of_cons; [|by apply IHin].
        destruct (IHout Hnotin) as [-> ->].
        split.
        -- destruct (df_get tc "years"); simpl; [|done].
           by rewrite scaled_years.
        -- destruct (df_get tcw "years"); simpl; [|done].
           by rewrite scaled_years.
      * intros Hc. apply IHout. set_solver.
    + destruct (df_get tc col) as [v|] eqn:Hv;
        cbn [mbind option_bind] in Hfold;
        [|by rewrite scale_consumption_None in Hfold].
      destruct (df_get tcw col) as [w|] eqn:Hw;
        cbn [mbind option_bind] in Hfold;
        [|by rewrite scale_consumption_None in Hfold].
      specialize (IH _ _ _ _ Hfold c) as [IHin IHout]. split.
      * intros [->|Hin]%elem_of_cons.
        -- destruct (IHout Hnotin) as [-> ->].
           rewrite !df_get_set_eq, Hv, Hw. simpl.
           by rewrite !scaled_other.
        -- destruct (IHin Hin) as [-> ->].
           assert (col ≠ c) by (intros ->; done).
           by rewrite !df_get_set_ne.
      * intros Hc. destruct IHout as [-> ->]; [set_solver|].
        assert (col ≠ c) by set_solver.
        by rewrite !df_get_set_ne.
Qed.

(** After the loop over [techno_consumption.columns], every column of
    either frame that is named in [techno_consumption] reads as the
    model's column divided by the factor (['years'] is left alone). *)
Lemma scale_consumption_spec tc tcw s tc' tcw' c :
  NoDup (columns tc) →
  scale_consumption tc tcw s = Some (tc', tcw') →
  c ∈ columns tc →
  df_get tc' c = scaled s c <$> df_get tc c
  ∧ df_get tcw' c = scaled s c <$> df_get tcw c.
Proof.
  intros Hnd Hs Hc.
  by apply (scale_consumption_fold s _ Hnd _ _ _ _ Hs c).
Qed.

Lemma scale_columns_production (y p : list Qc) s :
  scale_columns [("years", y); ("biomass_dry (TWh)", p)] s
  = [("years", y); ("biomass_dry (TWh)", vdiv p s)].
Proof. reflexivity. Qed.

Lemma df_select_two (df : list (string * list Qc)) a b r :
  df_select df [a; b] = Some r →
  ∃ va vb, df_get df a = Some va ∧ df_get df b = Some vb
           ∧ r = [(a, va); (b, vb)].
Proof.
  unfold df_select. simpl. intros Hr.
  destruct (df_get df a) as [va|]; simpl in Hr; [|done].
  destruct (df_get df b) as [vb|]; simpl in Hr; [|done].
  inversion Hr. eauto.
Qed.
End scaling.

(** ** The Jacobians of the scaled outputs *)

Section reported.
Context {F : Type} `{ForestModel F}.

(** The limit gradients [compute_sos_jacobian] computes for input [x]. *)
Definition limit_surfaces (inputs_dict : sosdisc_inputs) (fm0 : F)
    (x : input_column) : limit_gradients :=
  let fm := compute inputs_dict fm0 in
  match x with
  | in_deforestation_investment =>
      compute_d_limit_surfaces_d_deforestation_invest fm
        (compute_d_deforestation_surface_d_invest fm)
  | in_forest_investment =>
      compute_d_limit_surfaces_d_reforestation_invest fm
        (compute_d_reforestation_surface_d_invest fm)
  | in_managed_wood_investment =>
      compute_d_limit_surfaces_d_mw_invest fm
        (compute_d_mw_surface_d_invest fm)
  end.

(** [d_techno_prod_d_<x>_invest] and [d_techno_conso_d_<x>_invest]: the
    model's gradients of its own (unscaled) production and consumption
    series. *)
Definition d_techno_prod_d_invest (inputs_dict : sosdisc_inputs) (fm0 : F)
    (x : input_column) : list (list Qc) :=
  compute_d_techno_prod_d_invest (compute inputs_dict fm0)
    (d_delta_mw (limit_surfaces inputs_dict fm0 x))
    (d_delta_deforestation (limit_surfaces inputs_dict fm0 x)).

Definition d_techno_conso_d_invest (inputs_dict : sosdisc_inputs) (fm0 : F)
    (x : input_column) : list (list Qc) :=
  compute_d_techno_conso_d_invest (compute inputs_dict fm0)
    (d_techno_prod_d_invest inputs_dict fm0 x).

Lemma scaled_jacobians inputs_dict (self : ForestDiscipline F) x :
  jac (compute_sos_jacobian inputs_dict self) !! (out_techno_production, x)
  = Some (mdiv (d_techno_prod_d_invest inputs_dict (forest_model self) x)
               (scaling_factor_techno_production inputs_dict))
  ∧ jac (compute_sos_jacobian inputs_dict self)
      !! (out_techno_consumption, x)
    = Some (mdiv (d_techno_conso_d_invest inputs_dict (forest_model self) x)
                 (scaling_factor_techno_consumption inputs_dict))
  ∧ jac (compute_sos_jacobian inputs_dict self)
      !! (out_techno_consumption_woratio, x)
    = Some (mdiv (d_techno_conso_d_invest inputs_dict (forest_model self) x)
                 (scaling_factor_techno_consumption inputs_dict)).
Proof.
  destruct x.
  - jac_at 12%nat. jac_at 15%nat. jac_at 18%nat. done.
  - jac_at 13%nat. jac_at 16%nat. jac_at 19%nat. done.
  - jac_at 14%nat. jac_at 17%nat. jac_at 20%nat. done.
Qed.

End reported.

(** ** Causality of the registered Jacobians *)

Definition limits_causal (l : limit_gradients) : Prop :=
  lower_triangular (d_cum_umw l) ∧ lower_triangular (d_delta_mw l)
  ∧ lower_triangular (d_delta_deforestation l)
  ∧ lower_triangular (d_lc_deforestation l)
  ∧ lower_triangular (d_lc_reforestation l)
  ∧ lower_triangular (d_lc_mw l).

(** What the discipline relies on from the model's gradient methods: the
    three surface gradients are lower-triangular, and every method that
    maps gradients to gradients keeps them lower-triangular. *)
Record causal_model {F : Type} `{ForestModel F} (fm : F) : Prop := {
  causal_deforestation_surface :
    lower_triangular (compute_d_deforestation_surface_d_invest fm);
  causal_reforestation_surface :
    lower_triangular (compute_d_reforestation_surface_d_invest fm);
  causal_mw_surface :
    lower_triangular (compute_d_mw_surface_d_invest fm);
  causal_limit_deforestation D :
    lower_triangular D →
    limits_causal (compute_d_limit_surfaces_d_deforestation_invest fm D);
  causal_limit_reforestation D :
    lower_triangular D →
    limits_causal (compute_d_limit_surfaces_d_reforestation_invest fm D);
  causal_limit_mw D :
    lower_triangular D →
    limits_causal (compute_d_limit_surfaces_d_mw_invest fm D);
  causal_d_cum D : lower_triangular D → lower_triangular (d_cum fm D);
  causal_CO2_land_emission D :
    lower_triangular D → lower_triangular (compute_d_CO2_land_emission fm D);
  causal_techno_prod D1 D2 :
    lower_triangular D1 → lower_triangular D2 →
    lower_triangular (compute_d_techno_prod_d_invest fm D1 D2);
  causal_techno_conso D :
    lower_triangular D →
    lower_triangular (compute_d_techno_conso_d_invest fm D);
  causal_techno_price D1 D2 :
    lower_triangular D1 → lower_triangular D2 →
    lower_triangular (compute_d_techno_price_d_invest fm D1 D2)
}.

Section causality.
Context {F : Type} `{ForestModel F}.

Lemma limits_causal_d_cum_umw l :
  limits_causal l → lower_triangular (d_cum_umw l).
Proof. by intros (? & ? & ? & ? & ? & ?). Qed.
Lemma limits_causal_d_delta_mw l :
  limits_causal l → lower_triangular (d_delta_mw l).
Proof. by intros (? & ? & ? & ? & ? & ?). Qed.
Lemma limits_causal_d_delta_deforestation l :
  limits_causal l → lower_triangular (d_delta_deforestation l).
Proof. by intros (? & ? & ? & ? & ? & ?). Qed.
Lemma limits_causal_d_lc_deforestation l :
  limits_causal l → lower_triangular (d_lc_deforestation l).
Proof. by intros (? & ? & ? & ? & ? & ?). Qed.
Lemma limits_causal_d_lc_reforestation l :
  limits_causal l → lower_triangular (d_lc_reforestation l).
Proof. by intros (? & ? & ? & ? & ? & ?). Qed.
Lemma limits_causal_d_lc_mw l :
  limits_causal l → lower_triangular (d_lc_mw l).
Proof. by intros (? & ? & ? & ? & ? & ?). Qed.

Create HintDb causal discriminated.
Hint Resolve lower_triangular_madd lower_triangular_mdiv
  limits_causal_d_cum_umw limits_causal_d_delta_mw
  limits_causal_d_delta_deforestation limits_causal_d_lc_deforestation
  limits_causal_d_lc_reforestation limits_causal_d_lc_mw
  causal_deforestation_surface causal_reforestation_surface
  causal_mw_surface causal_limit_deforestation causal_limit_reforestation
  causal_limit_mw causal_d_cum causal_CO2_land_emission causal_techno_prod
  causal_techno_conso causal_techno_price : causal.

Lemma jacobian_registrations_causal inputs_dict fm0 :
  scaling_factor_techno_production inputs_dict ≠ 0 →
  scaling_factor_techno_consumption inputs_dict ≠ 0 →
  causal_model (compute inputs_dict fm0) →
  Forall (λ kv, lower_triangular kv.2)
         (jacobian_registrations inputs_dict fm0).
Proof.
  intros Hp Hs Hc. unfold jacobian_registrations. cbv zeta.
  repeat (apply Forall_cons_2; [cbn [snd]; eauto 30 with causal|]).
  apply Forall_nil_2.
Qed.
End causality.

(** * The Forest model, from the specification

    The sources at hand do not contain the Forest model.  The definitions
    of this part follow the specification (sections 3 and 4) and use the
    frame and column names the discipline reads. *)

(** ** More array operations *)

Definition vget (r : list Qc) (j : nat) : Qc := default 0 (r !! j).

Definition vadd (a b : list Qc) : list Qc := zip_with Qcplus a b.

Definition vzeros (n : nat) : list Qc := replicate n 0.

(** [np.zeros((n, n))] and [np.identity(n) * c]. *)
Definition mzeros (n : nat) : list (list Qc) := replicate n (vzeros n).

Definition mdiag (n : nat) (c : Qc) : list (list Qc) :=
  (λ i, (λ j, if decide (i = j) then c else 0) <$> seq 0 n) <$> seq 0 n.

(** [c * D], [-D], and [w[:, None] * D] (row [i] times [w[i]]). *)
Definition mscale (c : Qc) (D : list (list Qc)) : list (list Qc) :=
  (λ r : list Qc, Qcmult c <$> r) <$> D.

Definition mopp (D : list (list Qc)) : list (list Qc) :=
  (λ r : list Qc, Qcopp <$> r) <$> D.

Definition mrow_scale (w : list Qc) (D : list (list Qc)) : list (list Qc) :=
  zip_with (λ wi (r : list Qc), Qcmult wi <$> r) w D.

(** The running sum over rows ([np.cumsum(D, axis=0)]), i.e. the product of
    the lower-triangular matrix of ones with [D]; [acc] is the sum so far. *)
Fixpoint running_sum (acc : list Qc) (D : list (list Qc)) : list (list Qc) :=
  match D with
  | [] => []
  | r :: D' => vadd acc r :: running_sum (vadd acc r) D'
  end.

(** Rows moved down by [lag] years: row [i] of the result is row [i - lag]
    of [D], and the first [lag] rows are zero. *)
Definition shift_rows (lag : nat) (D : list (list Qc)) : list (list Qc) :=
  take (length D) (replicate lag (vzeros (length D)) ++ D).

Lemma mat_entry_row (M : list (list Qc)) i j :
  mat_entry M i j = match M !! i with Some r => vget r j | None => 0 end.
Proof. unfold mat_entry, vget. by destruct (M !! i). Qed.

Lemma vget_vzeros n j : vget (vzeros n) j = 0.
Proof.
  unfold vget, vzeros. destruct (replicate n 0 !! j) eqn:E; [|done].
  by apply lookup_replicate in E as [-> _].
Qed.

Lemma vget_vadd_zero a b j :
  vget a j = 0 → vget b j = 0 → vget (vadd a b) j = 0.
Proof.
  unfold vget, vadd. rewrite lookup_zip_with.
  destruct (a !! j); simpl; [|done]. destruct (b !! j); simpl; [|done].
  intros -> ->. ring.
Qed.

Lemma vget_opp_zero a j : vget a j = 0 → vget (Qcopp <$> a) j = 0.
Proof.
  unfold vget. rewrite list_lookup_fmap.
  destruct (a !! j); simpl; [|done]. intros ->. ring.
Qed.

Lemma vget_scale_zero c a j : vget a j = 0 → vget (Qcmult c <$> a) j = 0.
Proof.
  unfold vget. rewrite list_lookup_fmap.
  destruct (a !! j); simpl; [|done]. intros ->. ring.
Qed.

Lemma mat_entry_mzeros n i j : mat_entry (mzeros n) i j = 0.
Proof.
  rewrite mat_entry_row. unfold mzeros.
  destruct (replicate n (vzeros n) !! i) eqn:E; [|done].
  apply lookup_replicate in E as [-> _]. apply vget_vzeros.
Qed.

Lemma mat_entry_mdiag n c i j :
  mat_entry (mdiag n c) i j
  = if decide (i = j ∧ (i < n)%nat) then c else 0.
Proof.
  rewrite mat_entry_row. unfold mdiag, vget.
  rewrite list_lookup_fmap.
  destruct (seq 0 n !! i) as [i'|] eqn:Ei; simpl.
  - apply lookup_seq in Ei as [-> Hi]. simpl.
    rewrite list_lookup_fmap.
    destruct (seq 0 n !! j) as [j'|] eqn:Ej; simpl.
    + apply lookup_seq in Ej as [-> Hj]. simpl.
      destruct (decide (i = j)); [by rewrite decide_True|].
      rewrite decide_False; [done|]. by intros [? _].
    + rewrite decide_False; [done|]. intros [-> _].
      apply lookup_seq_ge in Ej || apply lookup_ge_None in Ej.
      rewrite length_seq in Ej. lia.
  - rewrite decide_False; [done|]. intros [_ Hi].
    apply lookup_ge_None in Ei. rewrite length_seq in Ei. lia.
Qed.

Lemma mat_entry_mscale c D i j :
  mat_entry (mscale c D) i j = c * mat_entry D i j.
Proof.
  unfold mat_entry, mscale. rewrite list_lookup_fmap.
  destruct (D !! i) as [r|]; simpl; [|ring].
  rewrite list_lookup_fmap. destruct (r !! j); simpl; [done|ring].
Qed.

Lemma mat_entry_mopp D i j : mat_entry (mopp D) i j = - mat_entry D i j.
Proof.
  unfold mat_entry, mopp. rewrite list_lookup_fmap.
  destruct (D !! i) as [r|]; simpl; [|ring].
  rewrite list_lookup_fmap. destruct (r !! j); simpl; [done|ring].
Qed.

Lemma mat_entry_mrow_scale_zero w D i j :
  mat_entry D i j = 0 → mat_entry (mrow_scale w D) i j = 0.
Proof.
  rewrite !mat_entry_row. unfold mrow_scale. rewrite lookup_zip_with.
  destruct (w !! i); simpl; [|done]. destruct (D !! i); simpl; [|done].
  apply vget_scale_zero.
Qed.

Lemma mat_entry_shift_rows lag D i j :
  mat_entry (shift_rows lag D) i j
  = if decide ((lag ≤ i)%nat ∧ (i < length D)%nat)
    then mat_entry D (i - lag) j else 0.
Proof.
  rewrite !mat_entry_row. unfold shift_rows.
  destruct (decide (i < length D)%nat) as [Hi|Hi].
  - rewrite lookup_take_lt by done.
    destruct (decide (lag ≤ i)%nat) as [Hl|Hl].
    + rewrite decide_True by done.
      rewrite lookup_app_r by (rewrite length_replicate; lia).
      by rewrite length_replicate.
    + rewrite decide_False by (intros [? ?]; lia).
      rewrite lookup_app_l by (rewrite length_replicate; lia).
      rewrite lookup_replicate_2 by lia. apply vget_vzeros.
  - rewrite decide_False by (intros [? ?]; lia).
    by rewrite lookup_take_ge by lia.
Qed.

(** A column stays zero through the running sum as long as it is zero in
    the summed rows. *)
Lemma running_sum_zero_prefix j m D : ∀ acc,
  vget acc j = 0 →
  (∀ k, (k < m)%nat → mat_entry D k j = 0) →
  ∀ k, (k < m)%nat → mat_entry (running_sum acc D) k j = 0.
Proof.
  revert m. induction D as [|r D IH]; intros m acc Hacc HD k Hk; [done|].
  assert (vget (vadd acc r) j = 0) as Hacc'.
  { apply vget_vadd_zero; [done|].
    specialize (HD 0%nat). rewrite mat_entry_row in HD. simpl in HD.
    apply HD. lia. }
  destruct k as [|k]; simpl.
  - by rewrite mat_entry_row.
  - rewrite mat_entry_row. simpl. rewrite <- mat_entry_row.
    apply (IH (pred m)); [done| |lia].
    intros k' Hk'. specialize (HD (S k')).
    rewrite mat_entry_row in HD. simpl in HD. rewrite mat_entry_row.
    apply HD. lia.
Qed.

(** ** Surface Evolution Engine (specification 4.2) *)

Module ForestSpec.

(** The three investments of one year. *)
Record year_investment := {
  deforestation_invest : Qc;
  reforestation_invest : Qc;
  managed_wood_invest : Qc
}.

(** The per-hectare conversion costs. *)
Record surface_costs := {
  cost_deforestation : Qc;
  cost_reforestation : Qc;
  cost_managed_wood : Qc
}.

(** Modelled from the spec: [SurfaceState] (section 3), one per year, of the
    Forest model that is missing from the sources: the category stocks, the
    deltas of the year, [global_forest_surface], and whether the year is
    saturated (its deforestation request met the unmanaged-forest floor). *)
Record surface_state := {
  deforested_delta : Qc;
  reforested_delta : Qc;
  managed_wood_delta : Qc;
  deforested_cumulative : Qc;
  reforested_cumulative : Qc;
  managed_wood_cumulative : Qc;
  unmanaged_forest : Qc;
  protected_forest : Qc;
  global_forest_surface : Qc;
  saturated : bool
}.

(** Modelled from the spec: the initial stocks of the missing Forest model
    (4.2: "seeded from externally supplied initial stocks"). *)
Definition initial_surface (unmanaged protected mw : Qc) : surface_state :=
  {| deforested_delta := 0; reforested_delta := 0; managed_wood_delta := 0;
     deforested_cumulative := 0; reforested_cumulative := 0;
     managed_wood_cumulative := mw;
     unmanaged_forest := unmanaged; protected_forest := protected;
     global_forest_surface := unmanaged + protected + mw + 0 - 0;
     saturated := false |}.

(** Modelled from the spec: one year of the missing Forest model's surface
    state machine (4.2).  Investment over per-hectare cost is the surface
    asked for.  "Deforestation depletes unmanaged forest first; once
    exhausted, further deforestation investment has no further physical
    effect": the deforested surface of the year is the request capped by
    the unmanaged forest left, so "unmanaged_forest [is] never negative".
    "Managed-wood and reforested surfaces accumulate monotonically."
    "global_forest_surface = unmanaged + protected + managed_wood_cumulative
    + reforested_cumulative − deforested_cumulative." *)
Definition surface_step (c : surface_costs) (s : surface_state)
    (inv : year_investment) : surface_state :=
  let requested := deforestation_invest inv / cost_deforestation c in
  let d_defo :=
    if decide (requested ≤ unmanaged_forest s) then requested
    else unmanaged_forest s in
  let d_refo := reforestation_invest inv / cost_reforestation c in
  let d_mw := managed_wood_invest inv / cost_managed_wood c in
  let unmanaged' := unmanaged_forest s - d_defo in
  let defo' := deforested_cumulative s + d_defo in
  let refo' := reforested_cumulative s + d_refo in
  let mw' := managed_wood_cumulative s + d_mw in
  {| deforested_delta := d_defo; reforested_delta := d_refo;
     managed_wood_delta := d_mw;
     deforested_cumulative := defo'; reforested_cumulative := refo';
     managed_wood_cumulative := mw';
     unmanaged_forest := unmanaged'; protected_forest := protected_forest s;
     global_forest_surface :=
       unmanaged' + protected_forest s + mw' + refo' - defo';
     saturated := bool_decide (unmanaged_forest s ≤ requested) |}.

(** Modelled from the spec: the missing Forest model's surface series, one
    state per year of the horizon (4.2: "sequential per-year state
    machine"). *)
Fixpoint surface_evolution (c : surface_costs) (s : surface_state)
    (invs : list year_investment) : list surface_state :=
  match invs with
  | [] => []
  | inv :: rest =>
      surface_step c s inv :: surface_evolution c (surface_step c s inv) rest
  end.

(** Modelled from the spec: the saturation-aware local derivative of the
    yearly deforested surface with respect to deforestation investment, of
    the missing Forest model (4.2, 9: "model the derivative operator as
    parameterized by that boundary").  [D] is the derivative of the surface
    asked for; [acc] is the derivative of the cumulated deforested surface
    up to the previous year.  An unsaturated year deforests what it asks
    for.  A saturated year deforests what is left, [initial stock −
    cumulated], whose derivative is [−acc]; from then on the cumulated
    derivative is zero. *)
Fixpoint limit_rows (sat : list bool) (D : list (list Qc)) (acc : list Qc)
    : list (list Qc) :=
  match sat, D with
  | s :: sat', r :: D' =>
      let row := if s : bool then Qcopp <$> acc else r in
      row :: limit_rows sat' D' (vadd acc row)
  | _, _ => []
  end.

Lemma surface_evolution_length c s invs :
  length (surface_evolution c s invs) = length invs.
Proof. revert s. induction invs; intros; simpl; auto. Qed.

(** A column of the limited derivative stays zero as long as every
    unsaturated year has a zero there in [D]. *)
Lemma limit_rows_zero_prefix j m sat D : ∀ acc,
  vget acc j = 0 →
  (∀ k, (k < m)%nat → sat !! k = Some false → mat_entry D k j = 0) →
  ∀ k, (k < m)%nat → mat_entry (limit_rows sat D acc) k j = 0.
Proof.
  revert m D. induction sat as [|s sat IH]; intros m D acc Hacc HD k Hk;
    [done|].
  destruct D as [|r D]; [done|].
  set (row := if s then Qcopp <$> acc else r).
  assert (vget row j = 0) as Hrow.
  { subst row. destruct s; [by apply vget_opp_zero|].
    specialize (HD 0%nat). rewrite mat_entry_row in HD. simpl in HD.
    apply HD; [lia|done]. }
  destruct k as [|k]; cbn [limit_rows]; rewrite mat_entry_row; simpl.
  - done.
  - rewrite <- mat_entry_row. apply (IH (pred m)); [|intros k' Hk' Hs|lia].
    + by apply vget_vadd_zero.
    + specialize (HD (S k')). rewrite !mat_entry_row in *. simpl in HD.
      apply HD; [lia|done].
Qed.

(** *** Saturation is permanent *)

Definition with_deforestation (x : Qc) (inv : year_investment)
    : year_investment :=
  {| deforestation_invest := x;
     reforestation_invest := reforestation_invest inv;
     managed_wood_invest := managed_wood_invest inv |}.

Lemma Qcdiv_nonneg (a c : Qc) : 0 ≤ a → 0 < c → 0 ≤ a / c.
Proof.
  intros Ha Hc. unfold Qcdiv. apply Qcmult_nonneg_nonneg; [done|].
  apply Qclt_le_weak. by apply Qcinv_pos.
Qed.

(** With nothing left to deforest, a year deforests nothing, whatever
    (non-negative) amount is invested. *)
Lemma surface_step_exhausted c s inv :
  0 < cost_deforestation c → 0 ≤ deforestation_invest inv →
  unmanaged_forest s = 0 →
  deforested_delta (surface_step c s inv) = 0
  ∧ saturated (surface_step c s inv) = true.
Proof.
  intros Hc Hinv Hu. unfold surface_step. cbn [deforested_delta saturated].
  rewrite Hu.
  pose proof (Qcdiv_nonneg _ _ Hinv Hc) as Hreq. split.
  - destruct (decide _) as [Hle|]; [|done]. by apply Qcle_antisym.
  - by apply bool_decide_eq_true.
Qed.

Lemma surface_step_exhausted_unmanaged c s inv :
  0 < cost_deforestation c → 0 ≤ deforestation_invest inv →
  unmanaged_forest s = 0 →
  unmanaged_forest (surface_step c s inv) = 0.
Proof.
  intros Hc Hinv Hu.
  destruct (surface_step_exhausted c s inv Hc Hinv Hu) as [Hd _].
  unfold surface_step in *. cbn [deforested_delta unmanaged_forest] in *.
  rewrite Hd, Hu. ring.
Qed.

Lemma surface_step_exhausted_indep c s inv x :
  0 < cost_deforestation c → 0 ≤ deforestation_invest inv → 0 ≤ x →
  unmanaged_forest s = 0 →
  surface_step c s (with_deforestation x inv) = surface_step c s inv.
Proof.
  intros Hc Hinv Hx Hu.
  destruct (surface_step_exhausted c s inv Hc Hinv Hu) as [Hd Hs].
  destruct (surface_step_exhausted c s (with_deforestation x inv) Hc Hx Hu)
    as [Hd' Hs'].
  unfold surface_step in *.
  cbn [deforested_delta saturated reforestation_invest managed_wood_invest
       with_deforestation] in *.
  rewrite Hd, Hd', Hs, Hs'. reflexivity.
Qed.

Definition nonneg_deforestation (invs : list year_investment) : Prop :=
  Forall (λ inv, 0 ≤ deforestation_invest inv) invs.

Lemma surface_evolution_exhausted c invs : ∀ s,
  0 < cost_deforestation c → nonneg_deforestation invs →
  unmanaged_forest s = 0 →
  Forall (λ s', unmanaged_forest s' = 0 ∧ deforested_delta s' = 0
                ∧ saturated s' = true)
         (surface_evolution c s invs).
Proof.
  induction invs as [|inv invs IH]; intros s Hc Hnn Hu; [constructor|].
  apply Forall_cons in Hnn as [Hinv Hnn]. cbn [surface_evolution].
  pose proof (surface_step_exhausted_unmanaged c s inv Hc Hinv Hu) as Hu'.
  destruct (surface_step_exhausted c s inv Hc Hinv Hu) as [Hd Hs].
  apply Forall_cons_2; [done|]. by apply IH.
Qed.

Lemma surface_evolution_alter_exhausted c x invs : ∀ s y,
  0 < cost_deforestation c → nonneg_deforestation invs → 0 ≤ x →
  unmanaged_forest s = 0 →
  surface_evolution c s (alter (with_deforestation x) y invs)
  = surface_evolution c s invs.
Proof.
  induction invs as [|inv invs IH]; intros s y Hc Hnn Hx Hu; [done|].
  apply Forall_cons in Hnn as [Hinv Hnn].
  pose proof (surface_step_exhausted_unmanaged c s inv Hc Hinv Hu) as Hu'.
  destruct y as [|y]; cbn [alter list_alter surface_evolution].
  - by rewrite surface_step_exhausted_indep.
  - f_equal. by apply IH.
Qed.

(** Once the unmanaged forest is exhausted (year [Y0]), changing the
    deforestation investment of a later year changes no surface at all. *)
Lemma surface_evolution_alter_after c x invs : ∀ s Y0 y s0,
  0 < cost_deforestation c → nonneg_deforestation invs → 0 ≤ x →
  surface_evolution c s invs !! Y0 = Some s0 →
  unmanaged_forest s0 = 0 → (Y0 < y)%nat →
  surface_evolution c s (alter (with_deforestation x) y invs)
  = surface_evolution c s invs.
Proof.
  induction invs as [|inv invs IH]; intros s Y0 y s0 Hc Hnn Hx HY0 Hu Hlt;
    [done|].
  apply Forall_cons in Hnn as [Hinv Hnn].
  destruct y as [|y]; [lia|]. cbn [alter list_alter surface_evolution].
  f_equal. destruct Y0 as [|Y0]; cbn [surface_evolution] in HY0.
  - inversion HY0; subst s0. by apply surface_evolution_alter_exhausted.
  - apply (IH _ Y0 y s0); auto. lia.
Qed.

Lemma surface_evolution_saturated_after c invs : ∀ s Y0 y s0,
  0 < cost_deforestation c → nonneg_deforestation invs →
  surface_evolution c s invs !! Y0 = Some s0 →
  unmanaged_forest s0 = 0 → (Y0 < y)%nat →
  saturated <$> surface_evolution c s invs !! y ≠ Some false.
Proof.
  induction invs as [|inv invs IH]; intros s Y0 y s0 Hc Hnn HY0 Hu Hlt;
    [done|].
  apply Forall_cons in Hnn as [Hinv Hnn].
  destruct y as [|y]; [lia|]. cbn [surface_evolution].
  destruct Y0 as [|Y0]; cbn [surface_evolution] in HY0; simpl.
  - inversion HY0; subst s0.
    pose proof (surface_evolution_exhausted c invs _ Hc Hnn Hu) as Hall.
    rewrite Forall_lookup in Hall.
    destruct (surface_evolution c (surface_step c s inv) invs !! y)
      as [sy|] eqn:Ey; simpl; [|done].
    destruct (Hall _ _ Ey) as (_ & _ & ->). done.
  - apply (IH _ Y0 y s0); auto. lia.
Qed.

(** ** The other engines (specification 4.3 to 4.6) *)

(** Constants the specification leaves to the caller ("externally supplied
    parameters"): the calorific value, the share of biomass used for
    energy, the CO2 taken up per unit of production, the unit cost of each
    biomass source, the default price, and the label of the CO2 column
    ([f'{CO2.name} ({mass_unit})'] in the discipline). *)
Record constants := {
  calorific_value : Qc;
  percentage_for_energy : Qc;
  CO2_from_production : Qc;
  managed_wood_unit_cost : Qc;
  deforestation_unit_cost : Qc;
  default_price : Qc;
  CO2_column : string
}.

(** Modelled from the spec: the state of the missing Forest model after
    [compute]: the horizon, what the gradient methods need from the forward
    pass, and the frames the discipline reads. *)
Record forest_state := {
  horizon : nat;
  fs_inputs : sosdisc_inputs;
  surfaces : list surface_state;
  total_mass : list Qc;
  blended : list Qc;
  f_techno_production : list (string * list Qc);
  f_techno_consumption : list (string * list Qc);
  f_techno_consumption_woratio : list (string * list Qc);
  f_CO2_emitted_df : list (string * list Qc);
  f_forest_surface_df : list (string * list Qc);
  f_managed_wood_df : list (string * list Qc);
  f_biomass_dry_df : list (string * list Qc);
  f_techno_prices : list (string * list Qc);
  f_land_use_required : list (string * list Qc);
  f_CO2_emissions : list (string * list Qc);
  f_forest_lost_capital : list (string * list Qc)
}.

Definition investments (i : sosdisc_inputs) : list year_investment :=
  zip_with (λ (dr : Qc * Qc) m,
              {| deforestation_invest := dr.1; reforestation_invest := dr.2;
                 managed_wood_invest := m |})
           (zip (deforestation_investment i) (reforestation_investment i))
           (managed_wood_investment i).

Definition costs_of (i : sosdisc_inputs) : surface_costs :=
  {| cost_deforestation := deforestation_cost_per_ha i;
     cost_reforestation := reforestation_cost_per_ha i;
     cost_managed_wood := managed_wood_price_per_ha (wood_techno_dict i) |}.

(** [np.cumsum] seeded with [init]. *)
Fixpoint cumsum_from (init : Qc) (v : list Qc) : list Qc :=
  match v with
  | [] => []
  | x :: v' => (init + x) :: cumsum_from (init + x) v'
  end.

(** Modelled from the spec: the Biomass Production Engine's lag of the
    missing Forest model (4.4).  "Mass produced in year Y derives from
    managed-wood committed construction_delay years earlier"; "during the
    first construction_delay years, harvested mass derives from externally
    supplied pre-horizon investment history".  Entry [y] of the history is
    the investment of year [year_start − construction_delay + y]. *)
Definition committed_investment (delay : nat) (history invest : list Qc)
    (y : nat) : Qc :=
  if decide (y < delay)%nat then vget history y else vget invest (y - delay).

(** Modelled from the spec: biomass mass per hectare harvested, as the
    discipline's own [mw_initial_production] combines the entries of
    [wood_techno_dict] (density per hectare times mean density, over the
    years between harvests and the non-recycled part). *)
Definition mass_per_ha (w : wood_techno) : Qc :=
  density_per_ha w * mean_density w / years_between_harvest w
  / (1 - recycle_part w).

(** Modelled from the spec: mass produced from managed wood in year [y] by
    the missing Forest model (4.4). *)
Definition managed_wood_mass_at (i : sosdisc_inputs) (y : nat) : Qc :=
  committed_investment (construction_delay_years (wood_techno_dict i))
    (managed_wood_invest_before_year_start i) (managed_wood_investment i) y
  / managed_wood_price_per_ha (wood_techno_dict i)
  * mass_per_ha (wood_techno_dict i).

(** Modelled from the spec: mass from the surface deforested in the year
    ("deforested surface (immediate)", 4.4). *)
Definition deforestation_mass_of (i : sosdisc_inputs) (s : surface_state)
    : Qc :=
  deforested_delta s * (density_per_ha (wood_techno_dict i)
                        * mean_density (wood_techno_dict i)).

(** Modelled from the spec: the Cost/Price Engine of the missing Forest
    model (4.5): the mass-weighted blend of the two unit costs; a year with
    zero total mass takes the price carried from the year before (the
    default to begin with). *)
Fixpoint blended_price (k : constants) (carried : Qc)
    (mw defo : list Qc) : list Qc :=
  match mw, defo with
  | m :: mw', d :: defo' =>
      let p := if decide (m + d = 0) then carried
               else (m * managed_wood_unit_cost k
                     + d * deforestation_unit_cost k) / (m + d) in
      p :: blended_price k p mw' defo'
  | _, _ => []
  end.

(** Modelled from the spec: the Lost-Capital Engine of the missing Forest
    model (4.6): "proportional to overlap between cumulative managed-wood
    and cumulative deforestation, scaled by capital cost per hectare". *)
Definition overlap (s : surface_state) : Qc :=
  if decide (deforested_cumulative s ≤ managed_wood_cumulative s)
  then deforested_cumulative s else managed_wood_cumulative s.

Definition years_column (i : sosdisc_inputs) (n : nat) : list Qc :=
  (λ k : nat, Qc_of_Z (year_start i + Z.of_nat k)) <$> seq 0 n.

(** Modelled from the spec: [Forest.compute] of the missing Forest model:
    every series is rebuilt from the inputs (3: "all state recomputed fully
    per invocation from full input series").  [forest_constraint_evolution]
    is the sum of the cumulated deforested and reforested surfaces, as the
    discipline's comment on its gradient says. *)
Definition forest_compute (k : constants) (i : sosdisc_inputs)
    : forest_state :=
  let invs := investments i in
  let n := length invs in
  let w := wood_techno_dict i in
  let ss := surface_evolution (costs_of i)
              (initial_surface (initial_unmanaged_forest_surface i)
                 (initial_protected_forest_surface i)
                 (managed_wood_initial_surface i)) invs in
  let years := years_column i n in
  let mw_mass := managed_wood_mass_at i <$> seq 0 n in
  let defo_mass := deforestation_mass_of i <$> ss in
  let mass := vadd mw_mass defo_mass in
  let mass_energy := Qcmult (percentage_for_energy k) <$> mass in
  let energy := Qcmult (calorific_value k) <$> mass_energy in
  let blend := blended_price k (default_price k) mw_mass defo_mass in
  let price_per_ton := vadd (vadd blend (transport_cost i)) (margin i) in
  let price_per_MWh := (λ p, p / calorific_value k) <$> price_per_ton in
  let d_co2_defo := (λ s, deforested_delta s * co2_per_ha i) <$> ss in
  let d_co2_refo := (λ s, - (reforested_delta s * co2_per_ha i)) <$> ss in
  let d_co2 := vadd d_co2_defo d_co2_refo in
  let consumption := Qcmult (CO2_from_production k) <$> energy in
  {| horizon := n;
     fs_inputs := i;
     surfaces := ss;
     total_mass := mass;
     blended := blend;
     f_techno_production :=
       [("years", years); ("biomass_dry (TWh)", energy)];
     f_techno_consumption := [("years", years); (CO2_column k, consumption)];
     f_techno_consumption_woratio :=
       [("years", years); (CO2_column k, consumption)];
     f_CO2_emitted_df :=
       [("years", years);
        ("delta_CO2_deforestation", d_co2_defo);
        ("delta_CO2_reforestation", d_co2_refo);
        ("delta_CO2_emitted", d_co2);
        ("emitted_CO2_evol_cumulative",
         cumsum_from (initial_emissions i) d_co2)];
     f_forest_surface_df :=
       [("years", years);
        ("delta_deforestation_surface", deforested_delta <$> ss);
        ("deforestation_surface", deforested_cumulative <$> ss);
        ("delta_reforestation_surface", reforested_delta <$> ss);
        ("reforestation_surface", reforested_cumulative <$> ss);
        ("unmanaged_forest", unmanaged_forest <$> ss);
        ("protected_forest_surface", protected_forest <$> ss);
        ("global_forest_surface", global_forest_surface <$> ss);
        ("forest_constraint_evolution",
         (λ s, deforested_cumulative s + reforested_cumulative s) <$> ss)];
     f_managed_wood_df :=
       [("years", years);
        ("delta_surface", managed_wood_delta <$> ss);
        ("cumulative_surface", managed_wood_cumulative <$> ss);
        ("biomass_production (Mt)", mw_mass)];
     f_biomass_dry_df :=
       [("years", years);
        ("price_per_ton", price_per_ton);
        ("price_per_MWh", price_per_MWh);
        ("biomass_dry_for_energy (Mt)", mass_energy);
        ("deforestation_for_energy",
         Qcmult (percentage_for_energy k) <$> defo_mass)];
     f_techno_prices :=
       [("years", years); ("Forest", price_per_MWh);
        ("Forest_wotaxes", price_per_MWh)];
     f_land_use_required :=
       [("years", years); ("Forest (Gha)", managed_wood_cumulative <$> ss)];
     f_CO2_emissions :=
       [("years", years); ("Forest", replicate n (CO2_from_production k))];
     f_forest_lost_capital :=
       [("years", years);
        ("reforestation", vzeros n);
        ("managed_wood",
         (λ s, overlap s * managed_wood_price_per_ha w) <$> ss);
        ("deforestation", vzeros n)] |}.

(** Modelled from the spec: the gradient methods of the missing Forest model
    (4.2 to 4.7).  Surfaces: investment over cost, so the local derivative
    is the constant [1 / cost] on the diagonal; the deforested surface is
    then limited by saturation ([limit_rows]); cumulated surfaces are running
    sums; the unmanaged forest loses what is deforested.  Lost capital:
    the overlap formula differentiated (the smaller of the two cumulated
    surfaces carries the derivative). *)
Definition cumulate (fs : forest_state) (D : list (list Qc))
    : list (list Qc) :=
  running_sum (vzeros (horizon fs)) D.

Definition limit_deforestation (fs : forest_state) (D : list (list Qc))
    : limit_gradients :=
  let n := horizon fs in
  let dd := limit_rows (saturated <$> surfaces fs) D (vzeros n) in
  let dc := cumulate fs dd in
  let price := managed_wood_price_per_ha (wood_techno_dict (fs_inputs fs)) in
  {| d_cum_umw := mopp dc;
     d_delta_mw := mzeros n;
     d_delta_deforestation := dd;
     d_lc_deforestation := mzeros n;
     d_lc_reforestation := mzeros n;
     d_lc_mw :=
       mrow_scale
         ((λ s, if decide (deforested_cumulative s
                           ≤ managed_wood_cumulative s)
                then price else 0) <$> surfaces fs) dc |}.

Definition limit_reforestation (fs : forest_state) (D : list (list Qc))
    : limit_gradients :=
  let n := horizon fs in
  {| d_cum_umw := mzeros n; d_delta_mw := mzeros n;
     d_delta_deforestation := mzeros n; d_lc_deforestation := mzeros n;
     d_lc_reforestation := mzeros n; d_lc_mw := mzeros n |}.

Definition limit_managed_wood (fs : forest_state) (D : list (list Qc))
    : limit_gradients :=
  let n := horizon fs in
  let price := managed_wood_price_per_ha (wood_techno_dict (fs_inputs fs)) in
  {| d_cum_umw := mzeros n; d_delta_mw := D;
     d_delta_deforestation := mzeros n; d_lc_deforestation := mzeros n;
     d_lc_reforestation := mzeros n;
     d_lc_mw :=
       mrow_scale
         ((λ s, if decide (deforested_cumulative s
                           ≤ managed_wood_cumulative s)
                then 0 else price) <$> surfaces fs) (cumulate fs D) |}.

(** Modelled from the spec: gradient of the production of the missing
    Forest model (4.4): "shifted-diagonal operator (each output year depends
    on exactly one input year, offset by the lag) composed with the
    upstream surface derivative", plus the immediate deforestation part. *)
Definition production_gradient (k : constants) (fs : forest_state)
    (D_mw D_defo : list (list Qc)) : list (list Qc) :=
  let w := wood_techno_dict (fs_inputs fs) in
  let to_energy := percentage_for_energy k * calorific_value k in
  madd (shift_rows (construction_delay_years w)
          (mscale (mass_per_ha w * to_energy) D_mw))
       (mscale (density_per_ha w * mean_density w * to_energy) D_defo).

(** Modelled from the spec: gradient of the price of the missing Forest
    model (4.5): "quotient-rule combination of production Jacobians and
    weighting shares": the blend [N / M] has derivative [(cost − blend) / M]
    in the mass of each source. *)
Definition price_gradient (k : constants) (fs : forest_state)
    (D_mw D_defo : list (list Qc)) : list (list Qc) :=
  let w := wood_techno_dict (fs_inputs fs) in
  let share cost :=
    zip_with (λ p M, (cost - p) / M / calorific_value k)
             (blended fs) (total_mass fs) in
  madd (mrow_scale (share (managed_wood_unit_cost k))
          (shift_rows (construction_delay_years w)
             (mscale (mass_per_ha w) D_mw)))
       (mrow_scale (share (deforestation_unit_cost k))
          (mscale (density_per_ha w * mean_density w) D_defo)).

(** The missing Forest class, as an instance of the interface the
    discipline uses. *)
Definition spec_forest (k : constants) : ForestModel forest_state :=
  {| compute := λ i _, forest_compute k i;
     techno_production := f_techno_production;
     techno_consumption := f_techno_consumption;
     techno_consumption_woratio := f_techno_consumption_woratio;
     CO2_emitted_df := f_CO2_emitted_df;
     forest_surface_df := f_forest_surface_df;
     managed_wood_df := f_managed_wood_df;
     biomass_dry_df := f_biomass_dry_df;
     techno_prices := f_techno_prices;
     land_use_required := f_land_use_required;
     CO2_emissions := f_CO2_emissions;
     forest_lost_capital := f_forest_lost_capital;
     compute_d_deforestation_surface_d_invest := λ fs,
       mdiag (horizon fs) (1 / deforestation_cost_per_ha (fs_inputs fs));
     compute_d_reforestation_surface_d_invest := λ fs,
       mdiag (horizon fs) (1 / reforestation_cost_per_ha (fs_inputs fs));
     compute_d_mw_surface_d_invest := λ fs,
       mdiag (horizon fs)
         (1 / managed_wood_price_per_ha (wood_techno_dict (fs_inputs fs)));
     compute_d_limit_surfaces_d_deforestation_invest := limit_deforestation;
     compute_d_limit_surfaces_d_reforestation_invest := limit_reforestation;
     compute_d_limit_surfaces_d_mw_invest := limit_managed_wood;
     d_cum := cumulate;
     compute_d_CO2_land_emission := λ fs D,
       mscale (co2_per_ha (fs_inputs fs)) D;
     compute_d_techno_prod_d_invest := production_gradient k;
     compute_d_techno_conso_d_invest := λ fs D,
       mscale (CO2_from_production k) D;
     compute_d_techno_price_d_invest := price_gradient k |}.

(** *** The gradient methods of the model are causal *)

Lemma lower_triangular_mzeros n : lower_triangular (mzeros n).
Proof. intros i j _. apply mat_entry_mzeros. Qed.

Lemma lower_triangular_mdiag n c : lower_triangular (mdiag n c).
Proof.
  intros i j Hij. rewrite mat_entry_mdiag.
  rewrite decide_False; [done|]. intros [-> _]. lia.
Qed.

Lemma lower_triangular_mscale c D :
  lower_triangular D → lower_triangular (mscale c D).
Proof. intros HD i j Hij. rewrite mat_entry_mscale, HD by done. ring. Qed.

Lemma lower_triangular_mopp D :
  lower_triangular D → lower_triangular (mopp D).
Proof. intros HD i j Hij. rewrite mat_entry_mopp, HD by done. ring. Qed.

Lemma lower_triangular_mrow_scale w D :
  lower_triangular D → lower_triangular (mrow_scale w D).
Proof. intros HD i j Hij. apply mat_entry_mrow_scale_zero. by apply HD. Qed.

Lemma lower_triangular_shift_rows lag D :
  lower_triangular D → lower_triangular (shift_rows lag D).
Proof.
  intros HD i j Hij. rewrite mat_entry_shift_rows.
  destruct (decide _); [|done]. apply HD. lia.
Qed.

Lemma lower_triangular_running_sum n D :
  lower_triangular D → lower_triangular (running_sum (vzeros n) D).
Proof.
  intros HD i j Hij.
  apply (running_sum_zero_prefix j j); [apply vget_vzeros| |done].
  intros k Hk. by apply HD.
Qed.

Lemma lower_triangular_limit_rows sat n D :
  lower_triangular D → lower_triangular (limit_rows sat D (vzeros n)).
Proof.
  intros HD i j Hij.
  apply (limit_rows_zero_prefix j j); [apply vget_vzeros| |done].
  intros k Hk _. by apply HD.
Qed.

Lemma limits_causal_zeros n :
  limits_causal
    {| d_cum_umw := mzeros n; d_delta_mw := mzeros n;
       d_delta_deforestation := mzeros n; d_lc_deforestation := mzeros n;
       d_lc_reforestation := mzeros n; d_lc_mw := mzeros n |}.
Proof. repeat split; apply lower_triangular_mzeros. Qed.

Create HintDb spec_causal discriminated.
#[local] Hint Resolve lower_triangular_mzeros lower_triangular_mdiag
  lower_triangular_mscale lower_triangular_mopp lower_triangular_mrow_scale
  lower_triangular_shift_rows lower_triangular_running_sum
  lower_triangular_limit_rows lower_triangular_madd : spec_causal.

(** Every gradient method of the model is causal, in whatever state. *)
Lemma spec_forest_causal (k : constants) (fs : forest_state) :
  @causal_model forest_state (spec_forest k) fs.
Proof.
  split; cbn [spec_forest compute_d_deforestation_surface_d_invest
              compute_d_reforestation_surface_d_invest
              compute_d_mw_surface_d_invest
              compute_d_limit_surfaces_d_deforestation_invest
              compute_d_limit_surfaces_d_reforestation_invest
              compute_d_limit_surfaces_d_mw_invest d_cum
              compute_d_CO2_land_emission compute_d_techno_prod_d_invest
              compute_d_techno_conso_d_invest
              compute_d_techno_price_d_invest].
  - apply lower_triangular_mdiag.
  - apply lower_triangular_mdiag.
  - apply lower_triangular_mdiag.
  - intros D HD. unfold limit_deforestation, limits_causal, cumulate.
    cbn [d_cum_umw d_delta_mw d_delta_deforestation d_lc_deforestation
         d_lc_reforestation d_lc_mw].
    repeat split; auto 6 with spec_causal.
  - intros D _. apply limits_causal_zeros.
  - intros D HD. unfold limit_managed_wood, limits_causal, cumulate.
    cbn [d_cum_umw d_delta_mw d_delta_deforestation d_lc_deforestation
         d_lc_reforestation d_lc_mw].
    repeat split; auto 6 with spec_causal.
  - intros D HD. unfold cumulate. auto with spec_causal.
  - intros D HD. auto with spec_causal.
  - intros D1 D2 H1 H2. unfold production_gradient.
    auto 6 with spec_causal.
  - intros D HD. auto with spec_causal.
  - intros D1 D2 H1 H2. unfold price_gradient. auto 6 with spec_causal.
Qed.

(** *** Saturation in the registered Jacobians *)

(** Column [y] of [M] is identically zero. *)
Definition zero_column (y : nat) (M : list (list Qc)) : Prop :=
  ∀ i, mat_entry M i y = 0.

Lemma zero_column_mzeros y n : zero_column y (mzeros n).
Proof. intros i. apply mat_entry_mzeros. Qed.

Lemma zero_column_madd y A B :
  zero_column y A → zero_column y B → zero_column y (madd A B).
Proof.
  intros HA HB i.
  destruct (mat_entry_madd_cases A B i y) as [-> | ->]; [|done].
  rewrite HA, HB. ring.
Qed.

Lemma zero_column_mdiv y A c : zero_column y A → zero_column y (mdiv A c).
Proof. intros HA i. rewrite mat_entry_mdiv, HA. unfold Qcdiv. ring. Qed.

Lemma zero_column_mscale y c D : zero_column y D → zero_column y (mscale c D).
Proof. intros HD i. rewrite mat_entry_mscale, HD. ring. Qed.

Lemma zero_column_mopp y D : zero_column y D → zero_column y (mopp D).
Proof. intros HD i. rewrite mat_entry_mopp, HD. ring. Qed.

Lemma zero_column_mrow_scale y w D :
  zero_column y D → zero_column y (mrow_scale w D).
Proof. intros HD i. apply mat_entry_mrow_scale_zero, HD. Qed.

Lemma zero_column_shift_rows y lag D :
  zero_column y D → zero_column y (shift_rows lag D).
Proof.
  intros HD i. rewrite mat_entry_shift_rows. destruct (decide _); [|done].
  apply HD.
Qed.

Lemma zero_column_running_sum y n D :
  zero_column y D → zero_column y (running_sum (vzeros n) D).
Proof.
  intros HD i.
  apply (running_sum_zero_prefix y (S i)); [apply vget_vzeros| |lia].
  intros k _. apply HD.
Qed.

Lemma zero_column_limit_rows y sat n D :
  (∀ k, sat !! k = Some false → mat_entry D k y = 0) →
  zero_column y (limit_rows sat D (vzeros n)).
Proof.
  intros HD i.
  apply (limit_rows_zero_prefix y (S i)); [apply vget_vzeros| |lia].
  intros k _. apply HD.
Qed.

(** [inputs_dict] with another deforestation investment series. *)
Definition set_deforestation_investment (v : list Qc) (i : sosdisc_inputs)
    : sosdisc_inputs :=
  {| year_start := year_start i; year_end := year_end i;
     deforestation_investment := v;
     deforestation_cost_per_ha := deforestation_cost_per_ha i;
     initial_emissions := initial_emissions i;
     co2_per_ha := co2_per_ha i;
     reforestation_cost_per_ha := reforestation_cost_per_ha i;
     reforestation_investment := reforestation_investment i;
     wood_techno_dict := wood_techno_dict i;
     managed_wood_initial_surface := managed_wood_initial_surface i;
     managed_wood_invest_before_year_start :=
       managed_wood_invest_before_year_start i;
     managed_wood_investment := managed_wood_investment i;
     transport_cost := transport_cost i; margin := margin i;
     initial_unmanaged_forest_surface := initial_unmanaged_forest_surface i;
     initial_protected_forest_surface := initial_protected_forest_surface i;
     scaling_factor_techno_consumption :=
       scaling_factor_techno_consumption i;
     scaling_factor_techno_production :=
       scaling_factor_techno_production i |}.

Lemma investments_insert (i : sosdisc_inputs) (y : nat) (x : Qc) :
  investments
    (set_deforestation_investment (<[y := x]> (deforestation_investment i)) i)
  = alter (with_deforestation x) y (investments i).
Proof.
  unfold investments, set_deforestation_investment.
  cbn [deforestation_investment reforestation_investment
       managed_wood_investment].
  generalize (deforestation_investment i) (reforestation_investment i)
             (managed_wood_investment i) y.
  induction l as [|d l IH]; intros [|r l0] [|m l1] y0;
    try (destruct y0; reflexivity).
  destruct y0 as [|y0]; cbn; [reflexivity|]. f_equal. apply IH.
Qed.

Lemma investments_nonneg (i : sosdisc_inputs) :
  Forall (λ v, 0 ≤ v) (deforestation_investment i) →
  nonneg_deforestation (investments i).
Proof.
  unfold investments, nonneg_deforestation.
  generalize (deforestation_investment i) (reforestation_investment i)
             (managed_wood_investment i).
  induction l as [|d l IH]; intros [|r l0] [|m l1] Hnn; try constructor.
  - by apply Forall_cons_1 in Hnn as [? _].
  - apply IH. by apply Forall_cons_1 in Hnn as [_ ?].
Qed.

Lemma surfaces_forest_compute (k : constants) (i : sosdisc_inputs) :
  surfaces (forest_compute k i)
  = surface_evolution (costs_of i)
      (initial_surface (initial_unmanaged_forest_surface i)
         (initial_protected_forest_surface i)
         (managed_wood_initial_surface i))
      (investments i).
Proof. reflexivity. Qed.

(** After the year the unmanaged forest is exhausted, the limited
    derivative of the deforested surface has nothing in the column of a
    later year. *)
Lemma saturated_zero_column (k : constants) (i : sosdisc_inputs)
    (Y0 y : nat) (s0 : surface_state) :
  0 < deforestation_cost_per_ha i →
  Forall (λ v, 0 ≤ v) (deforestation_investment i) →
  surfaces (forest_compute k i) !! Y0 = Some s0 →
  unmanaged_forest s0 = 0 → (Y0 < y)%nat →
  ∀ n c,
    zero_column y
      (limit_rows (saturated <$> surfaces (forest_compute k i))
                  (mdiag n c) (vzeros n)).
Proof.
  intros Hc Hnn HY0 Hu Hlt n c. apply zero_column_limit_rows. intros r Hr.
  rewrite mat_entry_mdiag. rewrite decide_False; [done|]. intros [-> _].
  rewrite list_lookup_fmap, surfaces_forest_compute in Hr.
  rewrite surfaces_forest_compute in HY0.
  revert Hr.
  apply (surface_evolution_saturated_after (costs_of i) (investments i)
           _ Y0 y s0); auto using investments_nonneg.
Qed.

Create HintDb zero_col discriminated.
#[local] Hint Resolve zero_column_mzeros zero_column_madd zero_column_mdiv
  zero_column_mscale zero_column_mopp zero_column_mrow_scale
  zero_column_shift_rows zero_column_running_sum : zero_col.

(** What [compute_sos_jacobian] files with respect to the deforestation
    investment has a zero column wherever the limited derivative of the
    deforested surface has one. *)
Lemma deforestation_registrations_zero_column (k : constants)
    (i : sosdisc_inputs) (fm0 : forest_state) (y : nat) :
  (∀ n c,
     zero_column y
       (limit_rows (saturated <$> surfaces (forest_compute k i))
                   (mdiag n c) (vzeros n))) →
  Forall (λ kv, kv.1.2 = in_deforestation_investment → zero_column y kv.2)
         (@jacobian_registrations forest_state (spec_forest k) i fm0).
Proof.
  intros Hdd. unfold jacobian_registrations. cbv zeta.
  cbn [spec_forest compute compute_d_deforestation_surface_d_invest
       compute_d_reforestation_surface_d_invest
       compute_d_mw_surface_d_invest
       compute_d_limit_surfaces_d_deforestation_invest
       compute_d_limit_surfaces_d_reforestation_invest
       compute_d_limit_surfaces_d_mw_invest d_cum
       compute_d_CO2_land_emission compute_d_techno_prod_d_invest
       compute_d_techno_conso_d_invest compute_d_techno_price_d_invest].
  unfold limit_deforestation, production_gradient, price_gradient, cumulate.
  cbn [d_cum_umw d_delta_mw d_delta_deforestation d_lc_deforestation
       d_lc_reforestation d_lc_mw].
  repeat (apply Forall_cons_2;
          [cbn [fst snd];
           first [ intros Hx; discriminate Hx
                 | intros _; auto 12 with zero_col ]|]).
  apply Forall_nil_2.
Qed.

Lemma surfaces_after_saturation (k : constants) (i : sosdisc_inputs)
    (Y0 y : nat) (s0 : surface_state) (x : Qc) :
  0 < deforestation_cost_per_ha i →
  Forall (λ v, 0 ≤ v) (deforestation_investment i) →
  0 ≤ x →
  surfaces (forest_compute k i) !! Y0 = Some s0 →
  unmanaged_forest s0 = 0 → (Y0 < y)%nat →
  surfaces (forest_compute k
              (set_deforestation_investment
                 (<[y := x]> (deforestation_investment i)) i))
  = surfaces (forest_compute k i).
Proof.
  intros Hc Hnn Hx HY0 Hu Hlt. rewrite !surfaces_forest_compute in *.
  rewrite investments_insert.
  apply (surface_evolution_alter_after (costs_of i) x (investments i)
           _ Y0 y s0); auto using investments_nonneg.
Qed.

Lemma horizon_forest_compute (k : constants) (i : sosdisc_inputs) :
  horizon (forest_compute k i) = length (investments i).
Proof. reflexivity. Qed.

Lemma forest_surface_df_forest_compute (k : constants) (i : sosdisc_inputs) :
  f_forest_surface_df (forest_compute k i)
  = let ss := surfaces (forest_compute k i) in
    [("years", years_column i (horizon (forest_compute k i)));
     ("delta_deforestation_surface", deforested_delta <$> ss);
     ("deforestation_surface", deforested_cumulative <$> ss);
     ("delta_reforestation_surface", reforested_delta <$> ss);
     ("reforestation_surface", reforested_cumulative <$> ss);
     ("unmanaged_forest", unmanaged_forest <$> ss);
     ("protected_forest_surface", protected_forest <$> ss);
     ("global_forest_surface", global_forest_surface <$> ss);
     ("forest_constraint_evolution",
      (λ s, deforested_cumulative s + reforested_cumulative s) <$> ss)].
Proof. reflexivity. Qed.

End ForestSpec.

Import ForestSpec.

(** C1.  In the model of the specification: let the deforestation
    investments be non-negative, the cost per hectare positive, and the
    unmanaged forest be exhausted at year [Y0] (index in the horizon).  Then,
    for any later year [y > Y0], replacing the deforestation investment of
    year [y] by any non-negative [x] leaves every surface of every year
    unchanged (so no additional deforested surface), the whole surface
    frame included; and column [y] of every Jacobian that
    [compute_sos_jacobian] files with respect to the deforestation
    investment, the surface outputs ([global_forest_surface],
    [forest_constraint_evolution], [land_use_required]) among them, is
    identically zero. *)
Theorem saturation_zeroes_surface_and_jacobian_column
    (k : constants) (i : sosdisc_inputs)
    (self : ForestDiscipline forest_state)
    (Y0 y : nat) (s0 : surface_state) (x : Qc) :
  0 < deforestation_cost_per_ha i →
  Forall (λ v, 0 ≤ v) (deforestation_investment i) →
  0 ≤ x →
  surfaces (forest_compute k i) !! Y0 = Some s0 →
  unmanaged_forest s0 = 0 →
  (Y0 < y)%nat →
  surfaces (forest_compute k
              (set_deforestation_investment
                 (<[y := x]> (deforestation_investment i)) i))
  = surfaces (forest_compute k i)
  ∧ f_forest_surface_df
      (forest_compute k
         (set_deforestation_investment
            (<[y := x]> (deforestation_investment i)) i))
    = f_forest_surface_df (forest_compute k i)
  ∧ (∀ (out : output_column) (J : list (list Qc)) (row : nat),
       jac (@compute_sos_jacobian forest_state (spec_forest k) i self)
         !! (out, in_deforestation_investment) = Some J →
       mat_entry J row y = 0).
Proof.
  intros Hc Hnn Hx HY0 Hu Hlt.
  pose proof (surfaces_after_saturation k i Y0 y s0 x Hc Hnn Hx HY0 Hu Hlt)
    as Hs.
  split; [done|split].
  - rewrite !forest_surface_df_forest_compute. cbv zeta. rewrite Hs.
    rewrite !horizon_forest_compute, investments_insert, length_alter.
    reflexivity.
  - intros out J row HJ.
    apply compute_sos_jacobian_lookup_inv in HJ;
      [|apply registered_keys_total].
    pose proof (deforestation_registrations_zero_column k i
                  (forest_model self) y
                  (saturated_zero_column k i Y0 y s0 Hc Hnn HY0 Hu Hlt))
      as Hall.
    rewrite Forall_forall in Hall. by apply (Hall _ HJ).
Qed.

(** ** The shape of the gradients of the model *)

(** An [n] by [n] array. *)
Definition square (n : nat) (M : list (list Qc)) : Prop :=
  length M = n ∧ Forall (λ r : list Qc, length r = n) M.

Lemma length_vadd (a b : list Qc) (n : nat) :
  length a = n → length b = n → length (vadd a b) = n.
Proof. intros Ha Hb. unfold vadd. rewrite length_zip_with. lia. Qed.

Lemma square_mzeros n : square n (mzeros n).
Proof.
  unfold square, mzeros, vzeros. split; [apply length_replicate|].
  apply Forall_replicate, length_replicate.
Qed.

Lemma square_mdiag n c : square n (mdiag n c).
Proof.
  unfold square, mdiag. split; [by rewrite length_fmap, length_seq|].
  apply Forall_fmap, Forall_forall. intros i _. simpl.
  by rewrite length_fmap, length_seq.
Qed.

Lemma square_fmap (f : Qc → Qc) n D :
  square n D → square n ((λ r : list Qc, f <$> r) <$> D).
Proof.
  intros [Hl Hr]. split; [by rewrite length_fmap|].
  apply Forall_fmap. eapply Forall_impl; [exact Hr|].
  intros r Hlen. simpl. by rewrite length_fmap.
Qed.

Lemma square_mscale n c D : square n D → square n (mscale c D).
Proof. apply square_fmap. Qed.

Lemma square_mopp n D : square n D → square n (mopp D).
Proof. apply square_fmap. Qed.

Lemma square_mdiv n D s : square n D → square n (mdiv D s).
Proof. apply (square_fmap (λ x, x / s)). Qed.

Lemma square_madd n A B : square n A → square n B → square n (madd A B).
Proof.
  intros [HlA HrA] [HlB HrB]. unfold madd. split.
  - rewrite length_zip_with. lia.
  - apply Forall_forall. intros r Hr.
    apply elem_of_lookup_zip_with in Hr as (i & ra & rb & -> & Ha & Hb).
    rewrite length_zip_with.
    rewrite Forall_forall in HrA, HrB.
    rewrite (HrA ra), (HrB rb); [lia| |]; by eapply list_elem_of_lookup_2.
Qed.

Lemma square_mrow_scale n w D :
  length w = n → square n D → square n (mrow_scale w D).
Proof.
  intros Hw [Hl Hr]. unfold mrow_scale. split.
  - rewrite length_zip_with. lia.
  - apply Forall_forall. intros r Hin.
    apply elem_of_lookup_zip_with in Hin as (i & wi & rd & -> & _ & Hd).
    rewrite length_fmap. rewrite Forall_forall in Hr.
    apply Hr. by eapply list_elem_of_lookup_2.
Qed.

Lemma square_shift_rows n lag D : square n D → square n (shift_rows lag D).
Proof.
  intros [Hl Hr]. unfold shift_rows. rewrite Hl. split.
  - rewrite length_take, length_app, length_replicate. lia.
  - apply Forall_take, Forall_app. split; [|done].
    apply Forall_replicate. unfold vzeros. apply length_replicate.
Qed.

Lemma running_sum_shape n D : ∀ acc,
  length acc = n → Forall (λ r : list Qc, length r = n) D →
  length (running_sum acc D) = length D
  ∧ Forall (λ r : list Qc, length r = n) (running_sum acc D).
Proof.
  induction D as [|r D IH]; intros acc Hacc Hr; [done|].
  apply Forall_cons_1 in Hr as [Hr0 Hr]. simpl in *.
  assert (length (vadd acc r) = n) as Hsum by by apply length_vadd.
  destruct (IH (vadd acc r)) as [IH1 IH2]; [done|done|].
  split; [by rewrite IH1|]. by apply Forall_cons_2.
Qed.

Lemma square_running_sum n D :
  square n D → square n (running_sum (vzeros n) D).
Proof.
  intros [Hl Hr].
  destruct (running_sum_shape n D (vzeros n)) as [H1 H2];
    [apply length_replicate|done|].
  split; [by rewrite H1|done].
Qed.

Lemma limit_rows_shape n sat : ∀ D acc,
  length acc = n → Forall (λ r : list Qc, length r = n) D →
  length sat = length D →
  length (limit_rows sat D acc) = length D
  ∧ Forall (λ r : list Qc, length r = n) (limit_rows sat D acc).
Proof.
  induction sat as [|s sat IH]; intros [|r D] acc Hacc Hr Hlen;
    try done.
  apply Forall_cons_1 in Hr as [Hr0 Hr]. cbn [limit_rows].
  set (row := if s then Qcopp <$> acc else r).
  assert (length row = n) as Hrow.
  { subst row. destruct s; [by rewrite length_fmap|done]. }
  assert (length (vadd acc row) = n) as Hsum by by apply length_vadd.
  destruct (IH D (vadd acc row)) as [IH1 IH2];
    [done|done|simpl in Hlen; lia|].
  split; [simpl; by rewrite IH1|]. by apply Forall_cons_2.
Qed.

Lemma square_limit_rows n sat D :
  length sat = n → square n D → square n (limit_rows sat D (vzeros n)).
Proof.
  intros Hsat [Hl Hr].
  destruct (limit_rows_shape n sat D (vzeros n)) as [H1 H2];
    [apply length_replicate|done|lia|].
  split; [by rewrite H1|done].
Qed.

Lemma length_blended_price (k : constants) (n : nat) : ∀ mw defo carried,
  length mw = n → length defo = n →
  length (blended_price k carried mw defo) = n.
Proof.
  induction n as [|n IH]; intros [|m mw] [|d defo] carried Hm Hd;
    try done.
  cbn [blended_price]. simpl. f_equal. apply IH; simpl in *; lia.
Qed.

Lemma length_surfaces (k : constants) (i : sosdisc_inputs) :
  length (surfaces (forest_compute k i)) = horizon (forest_compute k i).
Proof. cbn [forest_compute surfaces horizon]. apply surface_evolution_length. Qed.

Lemma length_total_mass (k : constants) (i : sosdisc_inputs) :
  length (total_mass (forest_compute k i)) = horizon (forest_compute k i).
Proof.
  cbn [forest_compute total_mass horizon]. apply length_vadd.
  - by rewrite length_fmap, length_seq.
  - by rewrite length_fmap, surface_evolution_length.
Qed.

Lemma length_blended (k : constants) (i : sosdisc_inputs) :
  length (blended (forest_compute k i)) = horizon (forest_compute k i).
Proof.
  cbn [forest_compute blended horizon]. apply length_blended_price.
  - by rewrite length_fmap, length_seq.
  - by rewrite length_fmap, surface_evolution_length.
Qed.

Lemma length_share (k : constants) (i : sosdisc_inputs) (f : Qc → Qc → Qc) :
  length (zip_with f (blended (forest_compute k i))
            (total_mass (forest_compute k i)))
  = horizon (forest_compute k i).
Proof. rewrite length_zip_with, length_blended, length_total_mass. lia. Qed.

Lemma length_fmap_surfaces {A} (k : constants) (i : sosdisc_inputs)
    (f : surface_state → A) :
  length (f <$> surfaces (forest_compute k i)) = horizon (forest_compute k i).
Proof. rewrite length_fmap. apply length_surfaces. Qed.

Create HintDb shape discriminated.
#[local] Hint Resolve square_mzeros square_mdiag square_mscale square_mopp
  square_mdiv square_madd square_mrow_scale square_shift_rows
  square_running_sum square_limit_rows length_share length_fmap_surfaces
  : shape.

(** Every array [compute_sos_jacobian] files is [horizon] by [horizon]:
    the sums of the discipline add arrays of one shape. *)
Lemma jacobian_registrations_square (k : constants) (i : sosdisc_inputs)
    (fm0 : forest_state) :
  Forall (λ kv, square (horizon (forest_compute k i)) kv.2)
         (@jacobian_registrations forest_state (spec_forest k) i fm0).
Proof.
  unfold jacobian_registrations. cbv zeta.
  cbn [spec_forest compute compute_d_deforestation_surface_d_invest
       compute_d_reforestation_surface_d_invest
       compute_d_mw_surface_d_invest
       compute_d_limit_surfaces_d_deforestation_invest
       compute_d_limit_surfaces_d_reforestation_invest
       compute_d_limit_surfaces_d_mw_invest d_cum
       compute_d_CO2_land_emission compute_d_techno_prod_d_invest
       compute_d_techno_conso_d_invest compute_d_techno_price_d_invest].
  unfold limit_deforestation, limit_reforestation, limit_managed_wood,
    production_gradient, price_gradient, cumulate.
  cbn [d_cum_umw d_delta_mw d_delta_deforestation d_lc_deforestation
       d_lc_reforestation d_lc_mw].
  generalize (length_share k i) (@length_fmap_surfaces bool k i)
             (@length_fmap_surfaces Qc k i).
  generalize (forest_compute k i). intros fs Hshare Hsat Hw.
  repeat (apply Forall_cons_2; [cbn [fst snd]; auto 12 with shape|]).
  apply Forall_nil_2.
Qed.


(** * The discipline's class attributes and the defaults of [DESC_IN] *)

(** A float literal of the source, as the rational it is written as. *)
Definition float (n : Z) (d : positive) : Qc := Q2Qc (n # d).

Definition construction_delay : nat := 3.
Definition wood_density : Qc := float 600 1.
Definition residues_density : Qc := float 200 1.
Definition residue_density_m3_per_ha : Qc := float 465 10.
Definition wood_density_m3_per_ha : Qc := float 96 1.

(** The class attribute [wood_techno_dict], for the entries kept in
    [wood_techno]. *)
Definition default_wood_techno_dict : wood_techno :=
  let density := residue_density_m3_per_ha + wood_density_m3_per_ha in
  let wood_percentage := wood_density_m3_per_ha / density in
  let residue_percentage := residue_density_m3_per_ha / density in
  {| managed_wood_price_per_ha := float 13047 1;
     construction_delay_years := construction_delay;
     years_between_harvest := float 25 1;
     recycle_part := float 52 100;
     density_per_ha := density;
     mean_density := wood_percentage * wood_density
                     + residue_percentage * residues_density |}.

(** [invest_before_year_start]: ['past_years'] is
    [np.arange(-construction_delay, 0)]. *)
Definition invest_before_year_start : list (string * list Qc) :=
  [("past_years",
    (λ k : nat, Qc_of_Z (Z.of_nat k - Z.of_nat construction_delay))
      <$> seq 0 construction_delay);
   ("investment",
    [float 1135081 1000000; float 1135081 1000000; float 1135081 1000000])].

(** Inputs with every default of [DESC_IN]; the three investment series,
    the transport and margin schedules and the initial unmanaged forest are
    given. *)
Definition default_inputs (ys ye : Z)
    (deforestation reforestation managed_wood transport margins : list Qc)
    (unmanaged : Qc) : sosdisc_inputs :=
  {| year_start := ys; year_end := ye;
     deforestation_investment := deforestation;
     deforestation_cost_per_ha := float 8000 1;
     initial_emissions := float (-76) 10;
     co2_per_ha := float 4000 1;
     reforestation_cost_per_ha := float 13800 1;
     reforestation_investment := reforestation;
     wood_techno_dict := default_wood_techno_dict;
     managed_wood_initial_surface := float 115 100;
     managed_wood_invest_before_year_start :=
       default [] (df_get invest_before_year_start "investment");
     managed_wood_investment := managed_wood;
     transport_cost := transport; margin := margins;
     initial_unmanaged_forest_surface := unmanaged;
     initial_protected_forest_surface := float 4 1 * float 21 100;
     scaling_factor_techno_consumption := float 1000 1;
     scaling_factor_techno_production := float 1000 1 |}.

(** * Worked instances *)

(** Values for the constants the sources at hand do not give. *)
Definition example_constants : constants :=
  {| calorific_value := float 336 100;
     percentage_for_energy := float 48 100;
     CO2_from_production := - (float 425 1000 * float 4401 100 / float 12 1);
     managed_wood_unit_cost := float 100 1;
     deforestation_unit_cost := float 60 1;
     default_price := float 80 1;
     CO2_column := "CO2 (Mt)" |}.

(** Four years, 2020 to 2023; deforestation asks for one unit of surface a
    year of an unmanaged forest of two, which is exhausted at the end of
    2021. *)
Definition four_years : sosdisc_inputs :=
  default_inputs 2020 2023
    (replicate 4 (float 8000 1)) (replicate 4 (float 1380 1))
    (replicate 4 (float 13047 10)) (replicate 4 (float 76 10))
    (replicate 4 (float 11 10)) (float 2 1).

(** The model as [init_execution] leaves it: built, nothing computed. *)
Definition Forest (param : sosdisc_inputs) : forest_state :=
  {| horizon := 0; fs_inputs := param; surfaces := []; total_mass := [];
     blended := [];
     f_techno_production := []; f_techno_consumption := [];
     f_techno_consumption_woratio := []; f_CO2_emitted_df := [];
     f_forest_surface_df := []; f_managed_wood_df := [];
     f_biomass_dry_df := []; f_techno_prices := [];
     f_land_use_required := []; f_CO2_emissions := [];
     f_forest_lost_capital := [] |}.

Definition init_execution (param : sosdisc_inputs)
    : ForestDiscipline forest_state :=
  {| forest_model := Forest param; stored_outputs := None; jac := ∅ |}.

(** A discipline object that has already served another study. *)
Definition used_discipline : ForestDiscipline forest_state :=
  @compute_sos_jacobian forest_state (spec_forest example_constants)
    (default_inputs 2020 2021 [float 5 1; 0] [0; float 7 1] [0; 0]
       [0; 0] [0; 0] (float 1 1))
    (init_execution four_years).

(** ** The theorems at these instances *)

Lemma saturation_zeroes_surface_and_jacobian_column_witness :
  surfaces (forest_compute example_constants
              (set_deforestation_investment
                 (<[2%nat := float 20000 1]>
                    (deforestation_investment four_years)) four_years))
  = surfaces (forest_compute example_constants four_years)
  ∧ f_forest_surface_df
      (forest_compute example_constants
         (set_deforestation_investment
            (<[2%nat := float 20000 1]>
               (deforestation_investment four_years)) four_years))
    = f_forest_surface_df (forest_compute example_constants four_years)
  ∧ (∀ (out : output_column) (J : list (list Qc)) (row : nat),
       jac (@compute_sos_jacobian forest_state
              (spec_forest example_constants) four_years
              (init_execution four_years))
         !! (out, in_deforestation_investment) = Some J →
       mat_entry J row 2 = 0).
Proof.
  eapply (saturation_zeroes_surface_and_jacobian_column example_constants
            four_years (init_execution four_years) 1 2 _ (float 20000 1)).
  - by vm_compute.
  - repeat constructor; by vm_compute.
  - by vm_compute.
  - reflexivity.
  - apply (bool_decide_unpack _). vm_compute. exact I.
  - lia.
Defined.


(** * The lag of the biomass production (specification 4.4) *)

(** [inputs_dict] with another managed-wood investment series. *)
Definition set_managed_wood_investment (v : list Qc) (i : sosdisc_inputs)
    : sosdisc_inputs :=
  {| year_start := year_start i; year_end := year_end i;
     deforestation_investment := deforestation_investment i;
     deforestation_cost_per_ha := deforestation_cost_per_ha i;
     initial_emissions := initial_emissions i;
     co2_per_ha := co2_per_ha i;
     reforestation_cost_per_ha := reforestation_cost_per_ha i;
     reforestation_investment := reforestation_investment i;
     wood_techno_dict := wood_techno_dict i;
     managed_wood_initial_surface := managed_wood_initial_surface i;
     managed_wood_invest_before_year_start :=
       managed_wood_invest_before_year_start i;
     managed_wood_investment := v;
     transport_cost := transport_cost i; margin := margin i;
     initial_unmanaged_forest_surface := initial_unmanaged_forest_surface i;
     initial_protected_forest_surface := initial_protected_forest_surface i;
     scaling_factor_techno_consumption :=
       scaling_factor_techno_consumption i;
     scaling_factor_techno_production :=
       scaling_factor_techno_production i |}.

(** The column ['biomass_production (Mt)'] of [managed_wood_df] after
    [compute]: the mass produced from managed wood, year by year. *)
Definition managed_wood_production (k : constants) (i : sosdisc_inputs)
    : list Qc :=
  default [] (df_get (f_managed_wood_df (forest_compute k i))
                     "biomass_production (Mt)").

Lemma managed_wood_production_eq (k : constants) (i : sosdisc_inputs) :
  managed_wood_production k i
  = managed_wood_mass_at i <$> seq 0 (horizon (forest_compute k i)).
Proof. reflexivity. Qed.

Lemma length_investments (i : sosdisc_inputs) :
  length (investments i)
  = ((length (deforestation_investment i)
      `min` length (reforestation_investment i))
     `min` length (managed_wood_investment i))%nat.
Proof.
  unfold investments. rewrite length_zip_with, length_zip_with. reflexivity.
Qed.

Lemma vget_fmap_seq (f : nat → Qc) (n y : nat) :
  (y < n)%nat → vget (f <$> seq 0 n) y = f y.
Proof.
  intros Hy. unfold vget. rewrite list_lookup_fmap, lookup_seq_lt by done.
  reflexivity.
Qed.

Lemma vget_insert_ne (v : list Qc) (j y : nat) (x : Qc) :
  j ≠ y → vget (<[y := x]> v) j = vget v j.
Proof. intros Hne. unfold vget. by rewrite list_lookup_insert_ne. Qed.

(** C5.  In the model of the specification, for every year [y] of the
    horizon: the mass produced from managed wood in year [y] is the
    investment committed [construction_delay] years earlier, over the price
    per hectare, times the mass per hectare, where the committed investment
    is entry [y] of the pre-horizon history during the first
    [construction_delay] years and entry [y - construction_delay] of the
    managed-wood investment afterwards.  Hence any other managed-wood
    investment series (of the same length) that agrees on that one entry
    gives the same mass, with no condition at all during the first
    [construction_delay] years; and, the delay being positive, the
    investment of year [y] itself never matters.  In the discipline,
    [construction_delay] is 3, it is the delay of the default
    [wood_techno_dict], and both columns of the default
    [invest_before_year_start] have that length. *)
Theorem biomass_lags_by_construction_delay
    (k : constants) (i : sosdisc_inputs) (y : nat) :
  (y < horizon (forest_compute k i))%nat →
  vget (managed_wood_production k i) y
  = (if decide (y < construction_delay_years (wood_techno_dict i))%nat
     then vget (managed_wood_invest_before_year_start i) y
     else vget (managed_wood_investment i)
               (y - construction_delay_years (wood_techno_dict i)))
    / managed_wood_price_per_ha (wood_techno_dict i)
    * mass_per_ha (wood_techno_dict i)
  ∧ (∀ invest' : list Qc,
       length invest' = length (managed_wood_investment i) →
       ((construction_delay_years (wood_techno_dict i) ≤ y)%nat →
        vget invest' (y - construction_delay_years (wood_techno_dict i))
        = vget (managed_wood_investment i)
               (y - construction_delay_years (wood_techno_dict i))) →
       vget (managed_wood_production k
               (set_managed_wood_investment invest' i)) y
       = vget (managed_wood_production k i) y)
  ∧ (∀ x : Qc,
       (0 < construction_delay_years (wood_techno_dict i))%nat →
       vget (managed_wood_production k
               (set_managed_wood_investment
                  (<[y := x]> (managed_wood_investment i)) i)) y
       = vget (managed_wood_production k i) y)
  ∧ construction_delay = 3%nat
  ∧ construction_delay_years default_wood_techno_dict = construction_delay
  ∧ length <$> df_get invest_before_year_start "investment"
    = Some construction_delay
  ∧ length <$> df_get invest_before_year_start "past_years"
    = Some construction_delay.
Proof.
  intros Hy.
  assert (∀ invest' : list Qc,
            length invest' = length (managed_wood_investment i) →
            ((construction_delay_years (wood_techno_dict i) ≤ y)%nat →
             vget invest' (y - construction_delay_years (wood_techno_dict i))
             = vget (managed_wood_investment i)
                    (y - construction_delay_years (wood_techno_dict i))) →
            vget (managed_wood_production k
                    (set_managed_wood_investment invest' i)) y
            = vget (managed_wood_production k i) y) as Hdep.
  { intros invest' Hlen Hsame.
    rewrite !managed_wood_production_eq.
    rewrite horizon_forest_compute in Hy.
    assert (horizon (forest_compute k (set_managed_wood_investment invest' i))
            = horizon (forest_compute k i)) as Hh.
    { rewrite !horizon_forest_compute, !length_investments.
      cbn [set_managed_wood_investment deforestation_investment
           reforestation_investment managed_wood_investment].
      by rewrite Hlen. }
    rewrite Hh, horizon_forest_compute, !vget_fmap_seq by done.
    unfold managed_wood_mass_at, committed_investment.
    cbn [set_managed_wood_investment wood_techno_dict
         managed_wood_invest_before_year_start managed_wood_investment].
    destruct (decide _) as [Hlt|Hge]; [reflexivity|].
    rewrite Hsame by lia. reflexivity. }
  split; [|split; [exact Hdep|split]].
  - rewrite managed_wood_production_eq, vget_fmap_seq by done. reflexivity.
  - intros x Hpos. apply Hdep; [by rewrite length_insert|].
    intros Hle. apply vget_insert_ne. lia.
  - repeat split; reflexivity.
Qed.

Lemma biomass_lags_by_construction_delay_witness :
  vget (managed_wood_production example_constants four_years) 3
  = vget (managed_wood_investment four_years) 0
    / managed_wood_price_per_ha default_wood_techno_dict
    * mass_per_ha default_wood_techno_dict
  ∧ vget (managed_wood_production example_constants four_years) 3 ≠ 0
  ∧ vget (managed_wood_production example_constants four_years) 2
    = float 1135081 1000000
      / managed_wood_price_per_ha default_wood_techno_dict
      * mass_per_ha default_wood_techno_dict.
Proof.
  split; [|split].
  - refine (proj1 (biomass_lags_by_construction_delay example_constants
                     four_years 3 _)).
    vm_compute. lia.
  - apply (proj1 (bool_decide_eq_false _)). vm_compute. reflexivity.
  - refine (proj1 (biomass_lags_by_construction_delay example_constants
                     four_years 2 _)).
    vm_compute. lia.
Defined.

(** * The example of the specification (section 8) *)

(** Constant deforestation investment 10 a year over [n] years from 2020,
    no reforestation and no managed-wood investment, the default cost of
    8000 per hectare, an initial unmanaged forest of 1. *)
Definition constant_deforestation (n : nat) : sosdisc_inputs :=
  default_inputs 2020 (2020 + Z.of_nat n - 1)
    (replicate n (float 10 1)) (replicate n 0) (replicate n 0)
    (replicate n 0) (replicate n 0) (float 1 1).

(** Horizon 2020 to 2030. *)
Definition example_2020_2030 : sosdisc_inputs := constant_deforestation 11.

(** The lower-triangular matrix with [c] on and below the diagonal. *)
Definition lower_ones (n : nat) (c : Qc) : list (list Qc) :=
  (λ r : nat, (λ j : nat, if decide (j ≤ r)%nat then c else 0) <$> seq 0 n)
    <$> seq 0 n.

Lemma example_2020_2030_surfaces (k : constants) :
  deforested_cumulative <$> surfaces (forest_compute k example_2020_2030)
  = (λ n : nat, float (Z.of_nat n + 1) 800) <$> seq 0 11
  ∧ saturated <$> surfaces (forest_compute k example_2020_2030)
    = replicate 11 false.
Proof.
  rewrite surfaces_forest_compute.
  split; apply (bool_decide_unpack _); vm_compute; exact I.
Qed.

Lemma example_2020_2030_jacobian (k : constants)
    (self : ForestDiscipline forest_state) :
  jac (@compute_sos_jacobian forest_state (spec_forest k)
         example_2020_2030 self)
    !! (out_forest_constraint_evolution, in_deforestation_investment)
  = Some (lower_ones 11 (float 1 8000)).
Proof. jac_at 3%nat. reflexivity. Qed.

(** ** Any horizon: growth by 10/8000 a year up to the unmanaged stock

    Surfaces of the example are multiples of the yearly request
    [10 / 8000 = 1 / 800]; [units z] is [z] such requests. *)
Definition units (z : Z) : Qc := Qc_of_Z z * float 1 800.

Lemma units_le (a b : Z) : units a ≤ units b ↔ (a ≤ b)%Z.
Proof.
  unfold units. rewrite <- Qcmult_le_mono_pos_r by by vm_compute.
  symmetry. apply Z2Qc_inj_le.
Qed.

Lemma units_add (a b : Z) : units a + units b = units (a + b).
Proof. unfold units. rewrite Z2Qc_inj_add. ring. Qed.

Lemma units_sub (a b : Z) : units a - units b = units (a - b).
Proof. unfold units. rewrite Z2Qc_inj_sub. ring. Qed.

Lemma units_float (z : Z) : units z = float z 800.
Proof.
  unfold units, float. apply Qc_is_canon.
  unfold Qcmult. cbn [this Q2Qc]. rewrite !Qred_correct.
  unfold Qeq. cbn. lia.
Qed.

(** One year of the example: [m] requests have been served so far. *)
Lemma constant_step (c : surface_costs) (s : surface_state)
    (inv : year_investment) (m : Z) :
  cost_deforestation c = float 8000 1 →
  deforestation_invest inv = float 10 1 →
  (0 ≤ m ≤ 800)%Z →
  unmanaged_forest s = units (800 - m) →
  deforested_cumulative s = units m →
  unmanaged_forest (surface_step c s inv) = units (800 - Z.min (m + 1) 800)
  ∧ deforested_cumulative (surface_step c s inv) = units (Z.min (m + 1) 800)
  ∧ saturated (surface_step c s inv) = bool_decide (799 ≤ m)%Z.
Proof.
  intros Hc Hinv Hm Hu Hd. unfold surface_step.
  cbn [unmanaged_forest deforested_cumulative saturated].
  rewrite Hc, Hinv, Hu, Hd.
  assert (float 10 1 / float 8000 1 = units 1) as ->
    by (apply (bool_decide_unpack _); vm_compute; exact I).
  split; [|split].
  - destruct (decide (units 1 ≤ units (800 - m))) as [Hle|Hgt].
    + rewrite units_le in Hle. rewrite units_sub. apply (f_equal units). lia.
    + rewrite units_le in Hgt. rewrite units_sub. apply (f_equal units). lia.
  - destruct (decide (units 1 ≤ units (800 - m))) as [Hle|Hgt].
    + rewrite units_le in Hle. rewrite units_add. apply (f_equal units). lia.
    + rewrite units_le in Hgt. rewrite units_add. apply (f_equal units). lia.
  - apply bool_decide_ext. rewrite units_le. lia.
Qed.

Lemma constant_evolution (c : surface_costs) (invs : list year_investment) :
  cost_deforestation c = float 8000 1 →
  Forall (λ inv, deforestation_invest inv = float 10 1) invs →
  ∀ (m : Z) (s : surface_state) (j : nat) (s' : surface_state),
    (0 ≤ m ≤ 800)%Z →
    unmanaged_forest s = units (800 - m) →
    deforested_cumulative s = units m →
    surface_evolution c s invs !! j = Some s' →
    deforested_cumulative s' = units (Z.min (m + Z.of_nat j + 1) 800)
    ∧ unmanaged_forest s'
      = units (800 - Z.min (m + Z.of_nat j + 1) 800)
    ∧ saturated s' = bool_decide (799 ≤ m + Z.of_nat j)%Z.
Proof.
  intros Hc Hall. induction Hall as [|inv invs Hinv Hall IH];
    intros m s j s' Hm Hu Hd Hj; [done|].
  destruct (constant_step c s inv m Hc Hinv Hm Hu Hd) as (Hu' & Hd' & Hs').
  destruct j as [|j]; cbn [surface_evolution] in Hj.
  - inversion Hj; subst s'. rewrite Hu', Hd', Hs'.
    replace (m + Z.of_nat 0 + 1)%Z with (m + 1)%Z by lia.
    split; [done|split; [done|]]. apply bool_decide_ext. lia.
  - cbn in Hj.
    destruct (IH (Z.min (m + 1) 800) _ j s' ltac:(lia) Hu' Hd' Hj)
      as (Hd'' & Hu'' & Hs'').
    rewrite Hd'', Hu'', Hs''.
    replace (Z.min (Z.min (m + 1) 800 + Z.of_nat j + 1) 800)
      with (Z.min (m + Z.of_nat (S j) + 1) 800) by lia.
    split; [done|split; [done|]]. apply bool_decide_ext. lia.
Qed.

Lemma investments_constant (n : nat) :
  investments (constant_deforestation n)
  = replicate n {| deforestation_invest := float 10 1;
                   reforestation_invest := 0; managed_wood_invest := 0 |}.
Proof.
  unfold investments, constant_deforestation, default_inputs.
  cbn [deforestation_investment reforestation_investment
       managed_wood_investment].
  induction n as [|n IH]; [reflexivity|]. cbn. f_equal. exact IH.
Qed.

Lemma constant_deforestation_states (k : constants) (n j : nat)
    (s' : surface_state) :
  surfaces (forest_compute k (constant_deforestation n)) !! j = Some s' →
  deforested_cumulative s' = units (Z.min (Z.of_nat j + 1) 800)
  ∧ unmanaged_forest s' = units (800 - Z.min (Z.of_nat j + 1) 800)
  ∧ saturated s' = bool_decide (799 ≤ j)%nat.
Proof.
  rewrite surfaces_forest_compute, investments_constant. intros Hj.
  set (s0 := initial_surface _ _ _) in Hj.
  assert (unmanaged_forest s0 = units (800 - 0)) as Hu0
    by (apply (bool_decide_unpack _); vm_compute; exact I).
  assert (deforested_cumulative s0 = units 0) as Hd0
    by (apply (bool_decide_unpack _); vm_compute; exact I).
  assert (Forall (λ inv, deforestation_invest inv = float 10 1)
            (replicate n {| deforestation_invest := float 10 1;
                            reforestation_invest := 0;
                            managed_wood_invest := 0 |})) as Hall
    by (by apply Forall_replicate).
  destruct (constant_evolution (costs_of (constant_deforestation n)) _
              eq_refl Hall 0 s0 j s' ltac:(lia) Hu0 Hd0 Hj)
    as (Hd & Hu & Hs).
  rewrite Hd, Hu, Hs. replace (0 + Z.of_nat j + 1)%Z with (Z.of_nat j + 1)%Z
    by lia.
  split; [done|split; [done|]]. apply bool_decide_ext. lia.
Qed.

(** In a saturated year the cumulated derivative is zero: the year
    deforests what is left, so the cumulated surface is the initial stock. *)
Lemma running_sum_limit_rows_saturated (sat : list bool) :
  ∀ (D : list (list Qc)) (acc : list Qc) (r j : nat),
    sat !! r ≠ Some false →
    mat_entry (running_sum acc (limit_rows sat D acc)) r j = 0.
Proof.
  induction sat as [|s sat IH]; intros D acc r j Hr; [done|].
  destruct D as [|d D]; [done|]. cbn [limit_rows running_sum].
  rewrite mat_entry_row. destruct r as [|r]; cbn [lookup list_lookup].
  - destruct s; [|done]. unfold vget, vadd.
    rewrite lookup_zip_with, list_lookup_fmap.
    destruct (acc !! j); simpl; [ring|done].
  - rewrite <- mat_entry_row. apply IH. exact Hr.
Qed.

Lemma constant_deforestation_jacobian (k : constants) (n : nat)
    (self : ForestDiscipline forest_state) (J : list (list Qc))
    (r c : nat) :
  jac (@compute_sos_jacobian forest_state (spec_forest k)
         (constant_deforestation n) self)
    !! (out_forest_constraint_evolution, in_deforestation_investment)
  = Some J →
  (799 ≤ r ∨ 799 < c)%nat → mat_entry J r c = 0.
Proof.
  intros HJ Hrc.
  erewrite (compute_sos_jacobian_at 3) in HJ by (cbv zeta; reflexivity).
  injection HJ as <-.
  cbn [spec_forest compute d_cum
       compute_d_limit_surfaces_d_deforestation_invest
       compute_d_deforestation_surface_d_invest].
  unfold cumulate, limit_deforestation. cbn [d_delta_deforestation].
  assert (∀ j, (saturated <$> surfaces
                  (forest_compute k (constant_deforestation n))) !! j
               = Some false → (j < 799)%nat) as Hunsat.
  { intros j Hj. rewrite list_lookup_fmap in Hj.
    destruct (surfaces (forest_compute k (constant_deforestation n)) !! j)
      as [s'|] eqn:Es; [|done].
    destruct (constant_deforestation_states k n j s' Es) as (_ & _ & Hs).
    simpl in Hj. rewrite Hs in Hj. injection Hj as Hj.
    apply bool_decide_eq_false in Hj. lia. }
  destruct (decide (799 ≤ r)%nat) as [Hr|Hr].
  - apply running_sum_limit_rows_saturated. intros Hf.
    apply Hunsat in Hf. lia.
  - assert (799 < c)%nat as Hc by lia.
    apply zero_column_running_sum, zero_column_limit_rows.
    intros j Hj. apply Hunsat in Hj. rewrite mat_entry_mdiag.
    rewrite decide_False; [done|]. lia.
Qed.

(** C4.  In the model of the specification, with the horizon 2020 to 2030,
    a deforestation investment of 10 every year, no other investment, the
    default cost of 8000 per hectare and an unmanaged forest of 1: the
    column ['deforestation_surface'] (the cumulated deforested surface) is
    [(n + 1) * 10 / 8000] for the year of index [n], that is [10 / 8000] in
    2020 and [10 / 8000] more each year; no year of this horizon is
    saturated (the surface reaches [11 / 800] in 2030), and the Jacobian
    filed for the cumulated deforested surface with respect to the
    deforestation investment is [1 / 8000] on and below the diagonal and
    zero above.  Over a horizon of any length with the same inputs, the
    cumulated deforested surface of the year of index [j] is
    [(j + 1) / 800] up to index 799, where it reaches 1, and 1 ever
    after; the years from index 799 on are the saturated ones; and in that
    Jacobian every row from index 799 on and every column after index 799
    is zero. *)
Theorem constant_deforestation_example (k : constants)
    (self : ForestDiscipline forest_state) :
  df_get (f_forest_surface_df (forest_compute k example_2020_2030))
         "deforestation_surface"
  = Some ((λ n : nat, float (Z.of_nat n + 1) 800) <$> seq 0 11)
  ∧ float 10 1 / deforestation_cost_per_ha example_2020_2030 = float 1 800
  ∧ saturated <$> surfaces (forest_compute k example_2020_2030)
    = replicate 11 false
  ∧ jac (@compute_sos_jacobian forest_state (spec_forest k)
           example_2020_2030 self)
      !! (out_forest_constraint_evolution, in_deforestation_investment)
    = Some (lower_ones 11 (float 1 8000))
  ∧ (∀ (n j : nat) (s' : surface_state),
       surfaces (forest_compute k (constant_deforestation n)) !! j = Some s' →
       deforested_cumulative s'
       = (if decide (j < 800)%nat then float (Z.of_nat j + 1) 800 else 1)
       ∧ saturated s' = bool_decide (799 ≤ j)%nat)
  ∧ (∀ (n : nat) (J : list (list Qc)) (r c : nat),
       jac (@compute_sos_jacobian forest_state (spec_forest k)
              (constant_deforestation n) self)
         !! (out_forest_constraint_evolution, in_deforestation_investment)
       = Some J →
       (799 ≤ r ∨ 799 < c)%nat → mat_entry J r c = 0).
Proof.
  destruct (example_2020_2030_surfaces k) as [Hcum Hsat].
  split; [|split; [|split; [|split; [|split]]]].
  - transitivity
      (Some (deforested_cumulative
               <$> surfaces (forest_compute k example_2020_2030)));
      [reflexivity|]. by rewrite Hcum.
  - apply (bool_decide_unpack _). vm_compute. exact I.
  - exact Hsat.
  - apply example_2020_2030_jacobian.
  - intros n j s' Hj.
    destruct (constant_deforestation_states k n j s' Hj) as (Hd & _ & Hs).
    split; [|exact Hs]. rewrite Hd, units_float.
    destruct (decide (j < 800)%nat) as [Hlt|Hge].
    + f_equal. lia.
    + replace (Z.min (Z.of_nat j + 1) 800) with 800%Z by lia.
      apply (bool_decide_unpack _). vm_compute. exact I.
  - intros n J r c. apply constant_deforestation_jacobian.
Qed.

(** * Further properties of the discipline *)

(** ** When [run] raises a KeyError *)

Lemma df_select_is_Some (df : list (string * list Qc)) (cols : list string) :
  is_Some (df_select df cols) ↔ cols ⊆ columns df.
Proof.
  unfold df_select. rewrite mapM_is_Some, Forall_forall.
  split; intros Hall c Hc; specialize (Hall c Hc).
  - apply df_get_is_Some. destruct Hall as [r Hr]. simpl in Hr.
    destruct (df_get df c); [eauto|done].
  - apply df_get_is_Some in Hall as [v Hv]. simpl. rewrite Hv. eauto.
Qed.

Section scaling_loop.
Context {F : Type} `{ForestModel F}.

(** The loop over [techno_consumption.columns] goes through exactly when
    every column it divides is also a column of
    [techno_consumption_woratio]; it never changes the column names of
    either frame. *)
Lemma scale_consumption_fold_is_Some (s : Qc) (l : list string) :
  ∀ tc tcw : list (string * list Qc),
    l ⊆ columns tc →
    (is_Some (foldl (scale_consumption_step s) (Some (tc, tcw)) l)
     ↔ ∀ c, c ∈ l → c ≠ "years" → c ∈ columns tcw).
Proof.
  induction l as [|col l IH]; intros tc tcw Hl.
  - simpl. split; [intros _ c Hc; by apply elem_of_nil in Hc|eauto].
  - assert (col ∈ columns tc) as Hcol by (apply Hl; left).
    assert (l ⊆ columns tc) as Hl' by (intros c Hc; apply Hl; by right).
    cbn [foldl scale_consumption_step mbind option_bind].
    destruct (decide (col = "years")) as [->|Hny].
    + rewrite (IH tc tcw Hl'). split; intros Hall c Hc Hne.
      * apply elem_of_cons in Hc as [->|Hc]; [done|by apply Hall].
      * apply Hall; [by right|done].
    + apply df_get_is_Some in Hcol as [v Hv]. rewrite Hv.
      cbn [mbind option_bind].
      destruct (df_get tcw col) as [w|] eqn:Hw; cbn [mbind option_bind].
      * assert (col ∈ columns tcw) as Hcolw
          by (apply df_get_is_Some; rewrite Hw; eauto).
        rewrite IH; [|rewrite columns_df_set_in;
                       [done|apply df_get_is_Some; rewrite Hv; eauto]].
        rewrite (columns_df_set_in tcw col _ Hcolw).
        split; intros Hall c Hc Hne.
        -- apply elem_of_cons in Hc as [->|Hc]; [done|by apply Hall].
        -- apply Hall; [by right|done].
      * rewrite scale_consumption_None. split.
        -- by intros [? ?].
        -- intros Hall. exfalso.
           assert (col ∈ columns tcw) as Hin by (apply Hall; [left|done]).
           apply df_get_is_Some in Hin as [w Hw']. congruence.
Qed.

Lemma scale_consumption_is_Some (tc tcw : list (string * list Qc)) (s : Qc) :
  is_Some (scale_consumption tc tcw s)
  ↔ ∀ c, c ∈ columns tc → c ≠ "years" → c ∈ columns tcw.
Proof. by apply scale_consumption_fold_is_Some. Qed.

Lemma scale_consumption_fold_columns (s : Qc) (l : list string) :
  ∀ tc tcw tc' tcw' : list (string * list Qc),
    foldl (scale_consumption_step s) (Some (tc, tcw)) l = Some (tc', tcw') →
    columns tc' = columns tc ∧ columns tcw' = columns tcw.
Proof.
  induction l as [|col l IH]; intros tc tcw tc' tcw' Hfold.
  - simpl in Hfold. by inversion Hfold.
  - cbn [foldl scale_consumption_step mbind option_bind] in Hfold.
    destruct (decide (col = "years")) as [->|Hny]; [by apply IH|].
    destruct (df_get tc col) as [v|] eqn:Hv; cbn [mbind option_bind] in Hfold;
      [|by rewrite scale_consumption_None in Hfold].
    destruct (df_get tcw col) as [w|] eqn:Hw;
      cbn [mbind option_bind] in Hfold;
      [|by rewrite scale_consumption_None in Hfold].
    destruct (IH _ _ _ _ Hfold) as [-> ->].
    rewrite !columns_df_set_in; [done| |];
      apply df_get_is_Some; eauto.
Qed.
End scaling_loop.

(** X1.  [run] goes through (raises no KeyError) exactly when the frames
    of the model hold the columns it reads: ['years'] and
    ['biomass_dry (TWh)'] in [techno_production]; in
    [techno_consumption_woratio], every column of [techno_consumption]
    other than ['years']; ['years'], ['global_forest_surface'] and
    ['forest_constraint_evolution'] in [forest_surface_df]; ['years'] and
    ['emitted_CO2_evol_cumulative'] in [CO2_emitted_df]; ['years'],
    ['price_per_MWh'] and ['biomass_dry_for_energy (Mt)'] in
    [biomass_dry_df].  (Frames with pairwise distinct column names, as the
    frame model reads a name at its first column.) *)
Theorem run_succeeds_iff_columns_present {F : Type} `{ForestModel F}
    (inputs_dict : sosdisc_inputs) (self : ForestDiscipline F) :
  is_Some (run inputs_dict self)
  ↔ ["years"; "biomass_dry (TWh)"]
      ⊆ columns (techno_production (compute inputs_dict (forest_model self)))
    ∧ (∀ c,
         c ∈ columns (techno_consumption
                        (compute inputs_dict (forest_model self))) →
         c ≠ "years" →
         c ∈ columns (techno_consumption_woratio
                        (compute inputs_dict (forest_model self))))
    ∧ ["years"; "global_forest_surface"; "forest_constraint_evolution"]
        ⊆ columns (forest_surface_df
                     (compute inputs_dict (forest_model self)))
    ∧ ["years"; "emitted_CO2_evol_cumulative"]
        ⊆ columns (CO2_emitted_df (compute inputs_dict (forest_model self)))
    ∧ ["years"; "price_per_MWh"; "biomass_dry_for_energy (Mt)"]
        ⊆ columns (biomass_dry_df (compute inputs_dict (forest_model self))).
Proof.
  unfold run. set (fm := compute inputs_dict (forest_model self)).
  rewrite <- !df_select_is_Some.
  rewrite <- (scale_consumption_is_Some _ _
                (scaling_factor_techno_consumption inputs_dict)).
  destruct (df_select (techno_production fm) _) as [tp|];
    cbn [mbind option_bind];
    [|split; [by intros [? ?]|by intros ([? ?] & _)]].
  destruct (scale_consumption _ _ _) as [[tc' tcw']|];
    cbn [mbind option_bind];
    [|split; [by intros [? ?]|by intros (_ & [? ?] & _)]].
  destruct (df_select (forest_surface_df fm) _) as [fs|];
    cbn [mbind option_bind];
    [|split; [by intros [? ?]|by intros (_ & _ & [? ?] & _)]].
  destruct (df_select (CO2_emitted_df fm) _) as [ce|];
    cbn [mbind option_bind];
    [|split; [by intros [? ?]|by intros (_ & _ & _ & [? ?] & _)]].
  destruct (df_select (biomass_dry_df fm) _) as [bd|];
    cbn [mbind option_bind];
    [|split; [by intros [? ?]|by intros (_ & _ & _ & _ & [? ?])]].
  split; [intros _; repeat split; eauto|eauto].
Qed.

Section run_inversion.
Context {F : Type} `{ForestModel F}.

(** What a successful [run] returns, piece by piece. *)
Lemma run_Some_inv (inputs_dict : sosdisc_inputs)
    (self self' : ForestDiscipline F) :
  run inputs_dict self = Some self' →
  let fm := compute inputs_dict (forest_model self) in
  ∃ tp tc' tcw' fs ce bd,
    df_select (techno_production fm) ["years"; "biomass_dry (TWh)"] = Some tp
    ∧ scale_consumption (techno_consumption fm)
        (techno_consumption_woratio fm)
        (scaling_factor_techno_consumption inputs_dict) = Some (tc', tcw')
    ∧ df_select (forest_surface_df fm)
        ["years"; "global_forest_surface"; "forest_constraint_evolution"]
      = Some fs
    ∧ df_select (CO2_emitted_df fm) ["years"; "emitted_CO2_evol_cumulative"]
      = Some ce
    ∧ df_select (biomass_dry_df fm)
        ["years"; "price_per_MWh"; "biomass_dry_for_energy (Mt)"] = Some bd
    ∧ self' =
      {| forest_model := fm;
         stored_outputs := Some {|
           o_CO2_emitted_detail_df := CO2_emitted_df fm;
           o_forest_detail_surface_df := forest_surface_df fm;
           o_forest_surface_df := fs;
           o_CO2_land_emission_df := ce;
           o_managed_wood_df := managed_wood_df fm;
           o_biomass_dry_detail_df := biomass_dry_df fm;
           o_biomass_dry_df := bd;
           o_techno_production :=
             scale_columns tp (scaling_factor_techno_production inputs_dict);
           o_techno_prices := techno_prices fm;
           o_techno_consumption := tc';
           o_techno_consumption_woratio := tcw';
           o_land_use_required := land_use_required fm;
           o_CO2_emissions := CO2_emissions fm;
           o_forest_lost_capital := forest_lost_capital fm |};
         jac := jac self |}.
Proof.
  intros Hrun fm. unfold run in Hrun. fold fm in Hrun.
  destruct (df_select (techno_production fm) _) as [tp|];
    cbn [mbind option_bind] in Hrun; [|done].
  destruct (scale_consumption _ _ _) as [[tc' tcw']|];
    cbn [mbind option_bind] in Hrun; [|done].
  destruct (df_select (forest_surface_df fm) _) as [fs|];
    cbn [mbind option_bind] in Hrun; [|done].
  destruct (df_select (CO2_emitted_df fm) _) as [ce|];
    cbn [mbind option_bind] in Hrun; [|done].
  destruct (df_select (biomass_dry_df fm) _) as [bd|];
    cbn [mbind option_bind] in Hrun; [|done].
  inversion Hrun. by exists tp, tc', tcw', fs, ce, bd.
Qed.
End run_inversion.

(** X2.  The scaling loop of [run] keeps the column names of
    [techno_consumption] and of [techno_consumption_woratio], in their
    order, and leaves ['years'] as it is in both.  In
    [techno_consumption_woratio] it divides the columns that
    [techno_consumption] has too, and only those: a column that
    [techno_consumption] does not have is stored as the model gave it,
    not divided by [scaling_factor_techno_consumption]. *)
Theorem scaling_loop_keeps_names_and_skips_unshared_columns
    {F : Type} `{ForestModel F}
    (inputs_dict : sosdisc_inputs) (self self' : ForestDiscipline F)
    (outs : outputs_dict) :
  NoDup (columns (techno_consumption
                    (compute inputs_dict (forest_model self)))) →
  run inputs_dict self = Some self' →
  stored_outputs self' = Some outs →
  columns (o_techno_consumption outs)
  = columns (techno_consumption (compute inputs_dict (forest_model self)))
  ∧ columns (o_techno_consumption_woratio outs)
    = columns (techno_consumption_woratio
                 (compute inputs_dict (forest_model self)))
  ∧ df_get (o_techno_consumption outs) "years"
    = df_get (techno_consumption (compute inputs_dict (forest_model self)))
             "years"
  ∧ df_get (o_techno_consumption_woratio outs) "years"
    = df_get (techno_consumption_woratio
                (compute inputs_dict (forest_model self))) "years"
  ∧ (∀ c,
       c ∈ columns (techno_consumption
                      (compute inputs_dict (forest_model self))) →
       c ≠ "years" →
       df_get (o_techno_consumption_woratio outs) c
       = (λ v, vdiv v (scaling_factor_techno_consumption inputs_dict))
           <$> df_get (techno_consumption_woratio
                         (compute inputs_dict (forest_model self))) c)
  ∧ (∀ c,
       c ∉ columns (techno_consumption
                      (compute inputs_dict (forest_model self))) →
       df_get (o_techno_consumption_woratio outs) c
       = df_get (techno_consumption_woratio
                   (compute inputs_dict (forest_model self))) c).
Proof.
  intros Hnd Hrun Hout.
  destruct (run_Some_inv inputs_dict self self' Hrun)
    as (tp & tc' & tcw' & fs & ce & bd & _ & Hsc & _ & _ & _ & ->).
  cbn [stored_outputs] in Hout. inversion Hout; subst outs; clear Hout.
  cbn [o_techno_consumption o_techno_consumption_woratio].
  set (fm := compute inputs_dict (forest_model self)) in *.
  destruct (scale_consumption_fold_columns _ _ _ _ _ _ Hsc) as [Hc1 Hc2].
  pose proof (scale_consumption_fold _ _ Hnd _ _ _ _ Hsc) as Hfold.
  assert (∀ (df : list (string * list Qc)),
            scaled (scaling_factor_techno_consumption inputs_dict) "years"
              <$> df_get df "years" = df_get df "years") as Hyears.
  { intros df. by destruct (df_get df "years"). }
  split; [done|split; [done|split; [|split; [|split]]]].
  - destruct (Hfold "years") as [Hin Hnotin].
    destruct (decide ("years" ∈ columns (techno_consumption fm))) as [Hy|Hy].
    + destruct (Hin Hy) as [-> _]. apply Hyears.
    + by destruct (Hnotin Hy) as [-> _].
  - destruct (Hfold "years") as [Hin Hnotin].
    destruct (decide ("years" ∈ columns (techno_consumption fm))) as [Hy|Hy].
    + destruct (Hin Hy) as [_ ->]. apply Hyears.
    + by destruct (Hnotin Hy) as [_ ->].
  - intros c Hc Hne. destruct (Hfold c) as [Hin _].
    destruct (Hin Hc) as [_ ->].
    destruct (df_get (techno_consumption_woratio fm) c); simpl; [|done].
    by rewrite scaled_other.
  - intros c Hc. destruct (Hfold c) as [_ Hnotin].
    by destruct (Hnotin Hc) as [_ ->].
Qed.

(** ** A stand-in for the model that only carries its frames

    It lets the discipline run on frames given by hand; its gradient
    methods return empty arrays. *)
Record model_frames := {
  mf_techno_production : list (string * list Qc);
  mf_techno_consumption : list (string * list Qc);
  mf_techno_consumption_woratio : list (string * list Qc);
  mf_CO2_emitted_df : list (string * list Qc);
  mf_forest_surface_df : list (string * list Qc);
  mf_managed_wood_df : list (string * list Qc);
  mf_biomass_dry_df : list (string * list Qc);
  mf_techno_prices : list (string * list Qc);
  mf_land_use_required : list (string * list Qc);
  mf_CO2_emissions : list (string * list Qc);
  mf_forest_lost_capital : list (string * list Qc)
}.

Definition no_limit_gradients : limit_gradients :=
  {| d_cum_umw := []; d_delta_mw := []; d_delta_deforestation := [];
     d_lc_deforestation := []; d_lc_reforestation := []; d_lc_mw := [] |}.

Definition frames_only : ForestModel model_frames :=
  {| compute := λ _ fm, fm;
     techno_production := mf_techno_production;
     techno_consumption := mf_techno_consumption;
     techno_consumption_woratio := mf_techno_consumption_woratio;
     CO2_emitted_df := mf_CO2_emitted_df;
     forest_surface_df := mf_forest_surface_df;
     managed_wood_df := mf_managed_wood_df;
     biomass_dry_df := mf_biomass_dry_df;
     techno_prices := mf_techno_prices;
     land_use_required := mf_land_use_required;
     CO2_emissions := mf_CO2_emissions;
     forest_lost_capital := mf_forest_lost_capital;
     compute_d_deforestation_surface_d_invest := λ _, [];
     compute_d_reforestation_surface_d_invest := λ _, [];
     compute_d_mw_surface_d_invest := λ _, [];
     compute_d_limit_surfaces_d_deforestation_invest :=
       λ _ _, no_limit_gradients;
     compute_d_limit_surfaces_d_reforestation_invest :=
       λ _ _, no_limit_gradients;
     compute_d_limit_surfaces_d_mw_invest := λ _ _, no_limit_gradients;
     d_cum := λ _ D, D;
     compute_d_CO2_land_emission := λ _ D, D;
     compute_d_techno_prod_d_invest := λ _ _ _, [];
     compute_d_techno_conso_d_invest := λ _ D, D;
     compute_d_techno_price_d_invest := λ _ _ _, [] |}.

(** Two years of frames; [techno_consumption_woratio] has a column
    ['wood (Mt)'] that [techno_consumption] has not. *)
Definition two_years_frames : model_frames :=
  let years := [float 2020 1; float 2021 1] in
  {| mf_techno_production :=
       [("years", years); ("biomass_dry (TWh)", [float 3000 1; float 6000 1])];
     mf_techno_consumption :=
       [("years", years); ("CO2 (Mt)", [float 500 1; float 700 1])];
     mf_techno_consumption_woratio :=
       [("years", years); ("CO2 (Mt)", [float 500 1; float 700 1]);
        ("wood (Mt)", [float 40 1; float 50 1])];
     mf_CO2_emitted_df :=
       [("years", years); ("emitted_CO2_evol_cumulative", [0; float 1 1])];
     mf_forest_surface_df :=
       [("years", years); ("global_forest_surface", [float 4 1; float 4 1]);
        ("forest_constraint_evolution", [0; 0])];
     mf_managed_wood_df := [("years", years)];
     mf_biomass_dry_df :=
       [("years", years); ("price_per_MWh", [float 50 1; float 51 1]);
        ("biomass_dry_for_energy (Mt)", [float 1 1; float 2 1])];
     mf_techno_prices := [("years", years)];
     mf_land_use_required := [("years", years)];
     mf_CO2_emissions := [("years", years)];
     mf_forest_lost_capital := [("years", years)] |}.

Definition two_years_discipline : ForestDiscipline model_frames :=
  {| forest_model := two_years_frames; stored_outputs := None; jac := ∅ |}.

Lemma scaling_loop_keeps_names_and_skips_unshared_columns_witness :
  ∃ (self' : ForestDiscipline model_frames) (outs : outputs_dict),
    @run model_frames frames_only four_years two_years_discipline
    = Some self'
    ∧ stored_outputs self' = Some outs
    ∧ columns (o_techno_consumption_woratio outs)
      = ["years"; "CO2 (Mt)"; "wood (Mt)"]
    ∧ df_get (o_techno_consumption_woratio outs) "wood (Mt)"
      = Some [float 40 1; float 50 1]
    ∧ df_get (o_techno_consumption_woratio outs) "CO2 (Mt)"
      = Some [float 1 2; float 7 10].
Proof.
  eexists _, _. split; [reflexivity|]. split; [reflexivity|].
  edestruct (@scaling_loop_keeps_names_and_skips_unshared_columns
               model_frames frames_only four_years two_years_discipline)
    as (_ & Hcols & _ & _ & Hdiv & Hskip).
  - apply (bool_decide_unpack _). vm_compute. exact I.
  - reflexivity.
  - reflexivity.
  - split; [exact Hcols|]. split.
    + rewrite (Hskip "wood (Mt)"); [reflexivity|].
      apply (bool_decide_unpack _). vm_compute. exact I.
    + rewrite (Hdiv "CO2 (Mt)");
        [|apply (bool_decide_unpack _); vm_compute; exact I|discriminate].
      apply (bool_decide_unpack _). vm_compute. exact I.
Defined.

(** ** The scaled outputs and their Jacobians *)




(** ** What the Jacobian dictionary holds after [compute_sos_jacobian] *)

Lemma all_pairs_length :
  length (enum (output_column * input_column)) = 36%nat.
Proof. reflexivity. Qed.

(** X3.  After [compute_sos_jacobian] the dictionary holds a Jacobian for
    every one of the twelve output columns with respect to every one of
    the three investment inputs, and nothing else: 36 entries, whatever it
    held before the call. *)
Theorem compute_sos_jacobian_fills_all_pairs {F : Type} `{ForestModel F}
    (inputs_dict : sosdisc_inputs) (self : ForestDiscipline F) :
  (∀ k : output_column * input_column,
     is_Some (jac (compute_sos_jacobian inputs_dict self) !! k))
  ∧ size (jac (compute_sos_jacobian inputs_dict self)) = 36%nat.
Proof.
  assert (∀ k : output_column * input_column,
            is_Some (jac (compute_sos_jacobian inputs_dict self) !! k))
    as Hall.
  { intros k.
    pose proof (registered_keys_total k) as Hk.
    rewrite <- (jacobian_registrations_keys inputs_dict (forest_model self))
      in Hk.
    apply list_elem_of_fmap in Hk as [[k' v] [-> Hin]].
    exists v. by apply compute_sos_jacobian_lookup. }
  split; [exact Hall|].
  rewrite <- size_dom, <- all_pairs_length.
  rewrite <- (size_list_to_set (C := gset (output_column * input_column)))
    by apply NoDup_enum.
  f_equal. apply set_eq. intros k. split; intros _.
  - apply elem_of_list_to_set, elem_of_enum.
  - by apply elem_of_dom.
Qed.


(** X5.  For each investment input, the Jacobian filed for
    ['emitted_CO2_evol_cumulative'] is the model's
    [compute_d_CO2_land_emission] of the Jacobian filed for
    ['forest_constraint_evolution'] with respect to the same input. *)
Theorem CO2_jacobian_is_gradient_of_constraint_jacobian
    {F : Type} `{ForestModel F}
    (inputs_dict : sosdisc_inputs) (self : ForestDiscipline F)
    (x : input_column) :
  ∃ C : list (list Qc),
    jac (compute_sos_jacobian inputs_dict self)
      !! (out_forest_constraint_evolution, x) = Some C
    ∧ jac (compute_sos_jacobian inputs_dict self)
        !! (out_CO2_land_emission, x)
      = Some (compute_d_CO2_land_emission
                (compute inputs_dict (forest_model self)) C).
Proof.
  destruct x; eexists; split.
  - jac_at 3%nat. reflexivity.
  - jac_at 9%nat. reflexivity.
  - jac_at 4%nat. reflexivity.
  - jac_at 10%nat. reflexivity.
  - jac_at 5%nat. reflexivity.
  - jac_at 11%nat. reflexivity.
Qed.

(** * Post-processing: [get_chart_filter_list], [get_post_processing_list] *)

(** Python exceptions. *)
Inductive exn :=
  | KeyError (key : string)
  | UnboundLocalError (name : string)
  | AttributeError
  | TypeError
  | ValueError.

(** A computation returns a value ([inr]) or raises ([inl]);
    [let! x := m in k] runs [m], passes its exception on, and otherwise
    goes on with [k]. *)
Notation "'let!' x ':=' m 'in' k" :=
  (match m with inl e => inl e | inr x => k end)
  (at level 200, x name, m at level 100, k at level 200,
   format "'[v' 'let!'  x  ':='  m  'in' '/' k ']'").

(** The chart classes of the framework, as the data the discipline puts in
    them: [ChartFilter(name, filter_values, selected_values, filter_key)],
    [InstanciatedSeries(abscissa, ordinate, series_name, display_type)],
    [TwoAxesInstanciatedChart(abscissa_axis_name,
    primary_ordinate_axis_name, chart_name=, stacked_bar=)] with the series
    added to it. *)
Record ChartFilter := {
  cf_name : string;
  filter_values : list string;
  selected_values : list string;
  filter_key : string
}.

Record InstanciatedSeries := {
  abscissa : list Qc;
  ordinate : list Qc;
  series_name : string;
  display_type : string
}.

Record TwoAxesInstanciatedChart := {
  abscissa_axis_name : string;
  primary_ordinate_axis_name : string;
  chart_name : string;
  stacked_bar : bool;
  series : list InstanciatedSeries
}.

Definition new_TwoAxesInstanciatedChart (x y name : string) (stacked : bool)
    : TwoAxesInstanciatedChart :=
  {| abscissa_axis_name := x; primary_ordinate_axis_name := y;
     chart_name := name; stacked_bar := stacked; series := [] |}.

(** [chart.add_series(s)] and [chart.series.append(s)]. *)
Definition add_series (chart : TwoAxesInstanciatedChart)
    (s : InstanciatedSeries) : TwoAxesInstanciatedChart :=
  {| abscissa_axis_name := abscissa_axis_name chart;
     primary_ordinate_axis_name := primary_ordinate_axis_name chart;
     chart_name := chart_name chart; stacked_bar := stacked_bar chart;
     series := series chart ++ [s] |}.

(** [df[c]] as a computation: a KeyError names the missing column. *)
Definition column (df : list (string * list Qc)) (c : string)
    : exn + list Qc :=
  match df_get df c with Some v => inr v | None => inl (KeyError c) end.

(** [v * c] for a scalar [c]. *)
Definition times (v : list Qc) (c : Qc) : list Qc := (λ x, x * c) <$> v.

Definition FOREST_CHARTS : string := "Forest chart".

(** [ForestDiscipline.get_chart_filter_list] *)
Definition get_chart_filter_list : list ChartFilter :=
  let chart_list := [FOREST_CHARTS] in
  [ {| cf_name := "Charts filter"; filter_values := chart_list;
       selected_values := chart_list; filter_key := "charts" |} ].

(** The loop of [get_post_processing_list] over [chart_filters]: the local
    [chart_list] is assigned only when a filter has the key ['charts'];
    [None] is the unassigned local. *)
Definition select_chart_list (chart_filters : option (list ChartFilter))
    : option (list string) :=
  match chart_filters with
  | None => None
  | Some filters =>
      foldl (λ chart_list chart_filter,
               if decide (filter_key chart_filter = "charts")
               then Some (selected_values chart_filter) else chart_list)
            None filters
  end.

Section post_processing.
(** What the sources at hand do not give: the name
    [Forest.FOREST_DETAIL_SURFACE_DF], the stored frames
    ([get_sosdisc_outputs], [get_sosdisc_inputs]), the display constants of
    [InstanciatedSeries], [BiomassDry]'s calorific value, and the [+] of
    numpy and pandas on two arrays, on an array and a Series, and on two
    Series. *)
Variable FOREST_DETAIL_SURFACE_DF : string.
Variables get_sosdisc_outputs get_sosdisc_inputs
  : string → list (string * list Qc).
Variables BAR_DISPLAY LINES_DISPLAY : string.
Variable biomass_cal_val : Qc.
Variables ndarray_add ndarray_add_series series_add
  : list Qc → list Qc → exn + list Qc.

(** [ForestDiscipline.get_post_processing_list] *)
Definition get_post_processing_list
    (chart_filters : option (list ChartFilter))
    : exn + list TwoAxesInstanciatedChart :=
  let instanciated_charts := [] in
  let chart_list := select_chart_list chart_filters in
  let forest_surface_df := get_sosdisc_outputs FOREST_DETAIL_SURFACE_DF in
  let managed_wood_df := get_sosdisc_outputs "managed_wood_df" in
  let! chart_list :=
    match chart_list with
    | Some l => inr l
    | None => inl (UnboundLocalError "chart_list")
    end in
  if decide (FOREST_CHARTS ∈ chart_list) then
    let! years := column forest_surface_df "years" in
    let! c := column forest_surface_df "delta_reforestation_surface" in
    let delta_reforestation := times c (float 1000 1) in
    let! c := column forest_surface_df "reforestation_surface" in
    let reforestation := times c (float 1000 1) in
    let! c := column forest_surface_df "delta_deforestation_surface" in
    let delta_deforestation := times c (float 1000 1) in
    let! c := column forest_surface_df "deforestation_surface" in
    let deforestation := times c (float 1000 1) in
    let! c := column managed_wood_df "delta_surface" in
    let delta_managed_wood_surface := times c (float 1000 1) in
    let! c := column managed_wood_df "cumulative_surface" in
    let managed_wood_surface := times c (float 1000 1) in
    let! c := column forest_surface_df "delta_global_forest_surface" in
    let delta_global := times c (float 1000 1) in
    let! c := column forest_surface_df "global_forest_surface" in
    let global_surface := times c (float 1000 1) in
    let! c := column forest_surface_df "unmanaged_forest" in
    let unmanaged_forest := times c (float 1000 1) in
    let! c := column forest_surface_df "protected_forest_surface" in
    let protected_forest := times c (float 1000 1) in
    (* invests graph *)
    let forest_investment_df := get_sosdisc_inputs "forest_investment" in
    let managed_wood_investment_df :=
      get_sosdisc_inputs "managed_wood_investment" in
    let deforestation_investment_df :=
      get_sosdisc_inputs "deforestation_investment" in
    let new_chart :=
      new_TwoAxesInstanciatedChart "years" "Investments [G$]"
        "Investments in forests activities" true in
    let! forest_investment :=
      column forest_investment_df "forest_investment" in
    let! managed_wood_investment :=
      column managed_wood_investment_df "investment" in
    let! deforestation_investment :=
      column deforestation_investment_df "investment" in
    let forest_investment_series :=
      {| abscissa := years; ordinate := forest_investment;
         series_name := "Reforestation invests";
         display_type := BAR_DISPLAY |} in
    let managed_wood_investment_series :=
      {| abscissa := years; ordinate := managed_wood_investment;
         series_name := "Managed wood invests";
         display_type := BAR_DISPLAY |} in
    let deforestation_investment_series :=
      {| abscissa := years; ordinate := deforestation_investment;
         series_name := "Deforestation invests";
         display_type := BAR_DISPLAY |} in
    let new_chart := add_series new_chart deforestation_investment_series in
    let new_chart := add_series new_chart forest_investment_series in
    let new_chart := add_series new_chart managed_wood_investment_series in
    let instanciated_charts := instanciated_charts ++ [new_chart] in
    (* forest evolution year by year chart *)
    let new_chart :=
      new_TwoAxesInstanciatedChart "years"
        "Yearly delta of forest surface evolution [Mha / year]"
        "Yearly delta of forest surface evolution" true in
    let deforested_series :=
      {| abscissa := years; ordinate := delta_deforestation;
         series_name := "Deforestation"; display_type := "bar" |} in
    let forested_series :=
      {| abscissa := years; ordinate := delta_reforestation;
         series_name := "Reforestation"; display_type := "bar" |} in
    let total_series :=
      {| abscissa := years; ordinate := delta_global;
         series_name := "Global forest surface";
         display_type := LINES_DISPLAY |} in
    let managed_wood_series :=
      {| abscissa := years; ordinate := delta_managed_wood_surface;
         series_name := "Managed wood"; display_type := "bar" |} in
    let new_chart := add_series new_chart deforested_series in
    let new_chart := add_series new_chart total_series in
    let new_chart := add_series new_chart forested_series in
    let instanciated_charts := instanciated_charts ++ [new_chart] in
    (* forest cumulative evolution chart *)
    let new_chart :=
      new_TwoAxesInstanciatedChart "years" "Forest surface evolution [Mha]"
        "Global forest surface evolution" true in
    let deforested_series :=
      {| abscissa := years; ordinate := deforestation;
         series_name := "Deforested surface"; display_type := "bar" |} in
    let forested_series :=
      {| abscissa := years; ordinate := reforestation;
         series_name := "Reforested surface"; display_type := "bar" |} in
    let total_series :=
      {| abscissa := years; ordinate := global_surface;
         series_name := "Forest surface evolution";
         display_type := LINES_DISPLAY |} in
    let managed_wood_series :=
      {| abscissa := years; ordinate := managed_wood_surface;
         series_name := "Managed wood"; display_type := "bar" |} in
    let unmanaged_forest_series :=
      {| abscissa := years; ordinate := unmanaged_forest;
         series_name := "Unmanaged forest"; display_type := "bar" |} in
    let protected_forest_series :=
      {| abscissa := years; ordinate := protected_forest;
         series_name := "Protected forest"; display_type := "bar" |} in
    let new_chart := add_series new_chart unmanaged_forest_series in
    let new_chart := add_series new_chart total_series in
    let new_chart := add_series new_chart managed_wood_series in
    let new_chart := add_series new_chart protected_forest_series in
    let instanciated_charts := instanciated_charts ++ [new_chart] in
    (* CO2 graph *)
    let CO2_emissions_df := get_sosdisc_outputs "CO2_emissions_detail_df" in
    let! delta_reforestation :=
      column CO2_emissions_df "delta_CO2_reforestation" in
    let! reforestation := column CO2_emissions_df "CO2_reforestation" in
    let! delta_deforestation :=
      column CO2_emissions_df "delta_CO2_deforestation" in
    let! deforestation := column CO2_emissions_df "CO2_deforestation" in
    let! init_balance :=
      column CO2_emissions_df "initial_CO2_land_use_change" in
    let! delta_global := column CO2_emissions_df "delta_CO2_emitted" in
    let! global_surface :=
      column CO2_emissions_df "emitted_CO2_evol_cumulative" in
    let new_chart :=
      new_TwoAxesInstanciatedChart "years"
        "CO2 emission & capture [GtCO2 / year]"
        "Yearly forest delta CO2 emissions" true in
    let CO2_deforestation_series :=
      {| abscissa := years; ordinate := delta_deforestation;
         series_name := "Deforestation emissions";
         display_type := BAR_DISPLAY |} in
    let CO2_reforestation_series :=
      {| abscissa := years; ordinate := delta_reforestation;
         series_name := "Reforestation emissions";
         display_type := BAR_DISPLAY |} in
    let CO2_total_series :=
      {| abscissa := years; ordinate := delta_global;
         series_name := "Global CO2 balance";
         display_type := LINES_DISPLAY |} in
    let new_chart := add_series new_chart CO2_deforestation_series in
    let new_chart := add_series new_chart CO2_total_series in
    let new_chart := add_series new_chart CO2_reforestation_series in
    let instanciated_charts := instanciated_charts ++ [new_chart] in
    (* in Gt *)
    let new_chart :=
      new_TwoAxesInstanciatedChart "years" "CO2 emission & capture [GtCO2]"
        "Forest CO2 emissions" true in
    let CO2_deforestation_series :=
      {| abscissa := years; ordinate := deforestation;
         series_name := "Deforestation emissions";
         display_type := BAR_DISPLAY |} in
    let CO2_reforestation_series :=
      {| abscissa := years; ordinate := reforestation;
         series_name := "Reforestation emissions";
         display_type := BAR_DISPLAY |} in
    let CO2_total_series :=
      {| abscissa := years; ordinate := global_surface;
         series_name := "Global CO2 balance";
         display_type := LINES_DISPLAY |} in
    let CO2_init_balance_serie :=
      {| abscissa := years; ordinate := init_balance;
         series_name := "initial forest emissions";
         display_type := BAR_DISPLAY |} in
    let new_chart := add_series new_chart CO2_deforestation_series in
    let new_chart := add_series new_chart CO2_reforestation_series in
    let new_chart := add_series new_chart CO2_init_balance_serie in
    let new_chart := add_series new_chart CO2_total_series in
    let instanciated_charts := instanciated_charts ++ [new_chart] in
    (* biomass chart *)
    let biomass_dry_df := get_sosdisc_outputs "biomass_dry_detail_df" in
    (* chart biomass dry for energy production *)
    let new_chart :=
      new_TwoAxesInstanciatedChart "years" "Biomass dry [Mt]"
        "Break down of biomass dry production for energy" true in
    let! mw_residues_energy :=
      column managed_wood_df "residues_production_for_energy (Mt)" in
    let! mw_wood_energy :=
      column managed_wood_df "wood_production_for_energy (Mt)" in
    let! biomass_dry_energy :=
      column biomass_dry_df "biomass_dry_for_energy (Mt)" in
    let! deforestation_energy :=
      column biomass_dry_df "deforestation_for_energy" in
    let mn_residues_series :=
      {| abscissa := years; ordinate := mw_residues_energy;
         series_name := "Residues from managed wood";
         display_type := BAR_DISPLAY |} in
    let mn_wood_series :=
      {| abscissa := years; ordinate := mw_wood_energy;
         series_name := "Wood from managed wood";
         display_type := BAR_DISPLAY |} in
    let deforestation_series :=
      {| abscissa := years; ordinate := deforestation_energy;
         series_name := "Biomass from deforestation";
         display_type := BAR_DISPLAY |} in
    let biomass_dry_energy_series :=
      {| abscissa := years; ordinate := biomass_dry_energy;
         series_name := "Total biomass dry produced";
         display_type := LINES_DISPLAY |} in
    let new_chart := add_series new_chart mn_residues_series in
    let new_chart := add_series new_chart mn_wood_series in
    let new_chart := add_series new_chart deforestation_series in
    let new_chart := add_series new_chart biomass_dry_energy_series in
    let instanciated_charts := instanciated_charts ++ [new_chart] in
    (* chart biomass dry for energy production *)
    let new_chart :=
      new_TwoAxesInstanciatedChart "years" "Biomass dry [TWh]"
        "Break down of biomass dry production for energy" true in
    let! c := column managed_wood_df "residues_production_for_energy (Mt)" in
    let mw_residues_energy_twh := times c biomass_cal_val in
    let! c := column managed_wood_df "wood_production_for_energy (Mt)" in
    let mw_wood_energy_twh := times c biomass_cal_val in
    let! c := column biomass_dry_df "biomass_dry_for_energy (Mt)" in
    let biomass_dry_energy_twh := times c biomass_cal_val in
    let! c := column biomass_dry_df "deforestation_for_energy" in
    let deforestation_energy_twh := times c biomass_cal_val in
    let mn_residues_series :=
      {| abscissa := years; ordinate := mw_residues_energy_twh;
         series_name := "Residues from managed wood";
         display_type := BAR_DISPLAY |} in
    let mn_wood_series :=
      {| abscissa := years; ordinate := mw_wood_energy_twh;
         series_name := "Wood from managed wood";
         display_type := BAR_DISPLAY |} in
    let deforestation_series :=
      {| abscissa := years; ordinate := deforestation_energy_twh;
         series_name := "Biomass from deforestation";
         display_type := BAR_DISPLAY |} in
    let biomass_dry_energy_series :=
      {| abscissa := years; ordinate := biomass_dry_energy_twh;
         series_name := "Total biomass dry produced";
         display_type := LINES_DISPLAY |} in
    let new_chart := add_series new_chart mn_residues_series in
    let new_chart := add_series new_chart mn_wood_series in
    let new_chart := add_series new_chart deforestation_series in
    let new_chart := add_series new_chart biomass_dry_energy_series in
    let instanciated_charts := instanciated_charts ++ [new_chart] in
    (* chart total biomass dry production *)
    let new_chart :=
      new_TwoAxesInstanciatedChart "years" "Biomass dry [Mt]"
        "Break down of biomass dry production" true in
    let! residues_industry :=
      column managed_wood_df "residues_production_for_industry (Mt)" in
    let! wood_industry :=
      column managed_wood_df "wood_production_for_industry (Mt)" in
    let! deforestation_industry :=
      column biomass_dry_df "deforestation_for_industry" in
    let! s := ndarray_add residues_industry wood_industry in
    let! biomass_industry := ndarray_add_series s deforestation_industry in
    let residues_energy := mw_residues_energy in
    let wood_energy := mw_wood_energy in
    let! s := series_add residues_energy wood_energy in
    let! biomass_energy := series_add s deforestation_energy in
    let biomass_industry_series :=
      {| abscissa := years; ordinate := biomass_industry;
         series_name := "Biomass dedicated to industry";
         display_type := BAR_DISPLAY |} in
    let biomass_energy_series :=
      {| abscissa := years; ordinate := biomass_energy;
         series_name := "Biomass dedicated to energy";
         display_type := BAR_DISPLAY |} in
    let new_chart := add_series new_chart biomass_industry_series in
    let new_chart := add_series new_chart biomass_energy_series in
    let instanciated_charts := instanciated_charts ++ [new_chart] in
    (* biomassdry price per kWh *)
    let new_chart :=
      new_TwoAxesInstanciatedChart "years" "Price [$/MWh]"
        "Biomass dry price evolution" true in
    let! mw_price := column biomass_dry_df "managed_wood_price_per_MWh" in
    let! deforestation_price :=
      column biomass_dry_df "deforestation_price_per_MWh" in
    let! average_price := column biomass_dry_df "price_per_MWh" in
    let mw_price_series :=
      {| abscissa := years; ordinate := mw_price;
         series_name := "Managed wood"; display_type := LINES_DISPLAY |} in
    let average_price_series :=
      {| abscissa := years; ordinate := average_price;
         series_name := "Biomass dry"; display_type := LINES_DISPLAY |} in
    let deforestation_price_series :=
      {| abscissa := years; ordinate := deforestation_price;
         series_name := "Deforestation"; display_type := LINES_DISPLAY |} in
    let new_chart := add_series new_chart mw_price_series in
    let new_chart := add_series new_chart deforestation_price_series in
    let new_chart := add_series new_chart average_price_series in
    let instanciated_charts := instanciated_charts ++ [new_chart] in
    (* biomass dry price per ton *)
    let new_chart :=
      new_TwoAxesInstanciatedChart "years" "Price [$/ton]"
        "Biomass dry price evolution" true in
    let! mw_price := column biomass_dry_df "managed_wood_price_per_ton" in
    let! deforestation_price :=
      column biomass_dry_df "deforestation_price_per_ton" in
    let! average_price := column biomass_dry_df "price_per_ton" in
    let mw_price_series :=
      {| abscissa := years; ordinate := mw_price;
         series_name := "Managed wood"; display_type := LINES_DISPLAY |} in
    let average_price_series :=
      {| abscissa := years; ordinate := average_price;
         series_name := "Biomass dry"; display_type := LINES_DISPLAY |} in
    let deforestation_price_series :=
      {| abscissa := years; ordinate := deforestation_price;
         series_name := "Deforestation"; display_type := LINES_DISPLAY |} in
    let new_chart := add_series new_chart mw_price_series in
    let new_chart := add_series new_chart deforestation_price_series in
    let new_chart := add_series new_chart average_price_series in
    let instanciated_charts := instanciated_charts ++ [new_chart] in
    (* lost capital graph *)
    let lost_capital_df := get_sosdisc_outputs "forest_lost_capital" in
    let new_chart :=
      new_TwoAxesInstanciatedChart "years" "Capital [G$]"
        "Lost capital due to deforestation" true in
    let! lost_capital_reforestation :=
      column lost_capital_df "reforestation" in
    let! lost_capital_managed_wood :=
      column lost_capital_df "managed_wood" in
    let! lost_capital_deforestation :=
      column lost_capital_df "deforestation" in
    let lost_capital_reforestation_series :=
      {| abscissa := years; ordinate := lost_capital_reforestation;
         series_name := "Reforestation lost capital";
         display_type := BAR_DISPLAY |} in
    let lost_capital_managed_wood_series :=
      {| abscissa := years; ordinate := lost_capital_managed_wood;
         series_name := "Managed wood lost capital";
         display_type := BAR_DISPLAY |} in
    let lost_capital_deforestation :=
      {| abscissa := years; ordinate := lost_capital_deforestation;
         series_name := "Deforestation Lost Capital";
         display_type := "bar" |} in
    let new_chart := add_series new_chart lost_capital_reforestation_series in
    let new_chart := add_series new_chart lost_capital_managed_wood_series in
    let new_chart := add_series new_chart lost_capital_deforestation in
    let instanciated_charts := instanciated_charts ++ [new_chart] in
    inr instanciated_charts
  else inr instanciated_charts.

(** No filter carries the key ['charts'] (or no filter list is given). *)
Definition no_charts_filter (chart_filters : option (list ChartFilter))
    : Prop :=
  match chart_filters with
  | None => True
  | Some filters => Forall (λ f, filter_key f ≠ "charts") filters
  end.

Lemma select_chart_list_foldl_other (filters : list ChartFilter)
    (acc : option (list string)) :
  Forall (λ f, filter_key f ≠ "charts") filters →
  foldl (λ chart_list chart_filter,
           if decide (filter_key chart_filter = "charts")
           then Some (selected_values chart_filter) else chart_list)
        acc filters = acc.
Proof.
  intros Hall. revert acc.
  induction Hall as [|f filters Hf Hall IH]; intros acc; [done|].
  cbn [foldl]. rewrite decide_False by done. apply IH.
Qed.

Lemma select_chart_list_unassigned
    (chart_filters : option (list ChartFilter)) :
  no_charts_filter chart_filters → select_chart_list chart_filters = None.
Proof.
  destruct chart_filters as [filters|]; [|done]. simpl.
  apply select_chart_list_foldl_other.
Qed.

(** The last filter with the key ['charts'] decides. *)
Lemma select_chart_list_last (before after : list ChartFilter)
    (f : ChartFilter) :
  filter_key f = "charts" →
  Forall (λ g, filter_key g ≠ "charts") after →
  select_chart_list (Some (before ++ f :: after)) = Some (selected_values f).
Proof.
  intros Hf Hafter. unfold select_chart_list.
  rewrite foldl_app. cbn [foldl]. rewrite decide_True by done.
  by apply select_chart_list_foldl_other.
Qed.

(** X6.  Called without filters (the default [chart_filters=None]), or
    with filters none of which has the key ['charts'],
    [get_post_processing_list] raises UnboundLocalError: its local
    [chart_list] is read without having been assigned.  This is so
    whatever the stored frames hold. *)
Theorem post_processing_without_charts_filter_raises
    (chart_filters : option (list ChartFilter)) :
  no_charts_filter chart_filters →
  get_post_processing_list chart_filters
  = inl (UnboundLocalError "chart_list").
Proof.
  intros Hno. unfold get_post_processing_list. cbv zeta.
  by rewrite (select_chart_list_unassigned _ Hno).
Qed.

(** X7.  When the last filter with the key ['charts'] does not select
    ['Forest chart'], [get_post_processing_list] returns no chart and reads
    no column: it cannot raise a KeyError, whatever the stored frames
    hold. *)
Theorem post_processing_unselected_returns_no_chart
    (before after : list ChartFilter) (f : ChartFilter) :
  filter_key f = "charts" →
  Forall (λ g, filter_key g ≠ "charts") after →
  FOREST_CHARTS ∉ selected_values f →
  get_post_processing_list (Some (before ++ f :: after)) = inr [].
Proof.
  intros Hf Hafter Hsel. unfold get_post_processing_list. cbv zeta.
  rewrite (select_chart_list_last _ _ _ Hf Hafter). cbv beta iota.
  by rewrite decide_False.
Qed.

(** The columns [get_post_processing_list] reads when ['Forest chart'] is
    selected, each with the frame it is read from, in reading order. *)
Definition columns_read : list (list (string * list Qc) * string) :=
  let forest_surface_df := get_sosdisc_outputs FOREST_DETAIL_SURFACE_DF in
  let managed_wood_df := get_sosdisc_outputs "managed_wood_df" in
  let CO2_emissions_df := get_sosdisc_outputs "CO2_emissions_detail_df" in
  let biomass_dry_df := get_sosdisc_outputs "biomass_dry_detail_df" in
  let lost_capital_df := get_sosdisc_outputs "forest_lost_capital" in
  [ (forest_surface_df, "years");
    (forest_surface_df, "delta_reforestation_surface");
    (forest_surface_df, "reforestation_surface");
    (forest_surface_df, "delta_deforestation_surface");
    (forest_surface_df, "deforestation_surface");
    (managed_wood_df, "delta_surface");
    (managed_wood_df, "cumulative_surface");
    (forest_surface_df, "delta_global_forest_surface");
    (forest_surface_df, "global_forest_surface");
    (forest_surface_df, "unmanaged_forest");
    (forest_surface_df, "protected_forest_surface");
    (get_sosdisc_inputs "forest_investment", "forest_investment");
    (get_sosdisc_inputs "managed_wood_investment", "investment");
    (get_sosdisc_inputs "deforestation_investment", "investment");
    (CO2_emissions_df, "delta_CO2_reforestation");
    (CO2_emissions_df, "CO2_reforestation");
    (CO2_emissions_df, "delta_CO2_deforestation");
    (CO2_emissions_df, "CO2_deforestation");
    (CO2_emissions_df, "initial_CO2_land_use_change");
    (CO2_emissions_df, "delta_CO2_emitted");
    (CO2_emissions_df, "emitted_CO2_evol_cumulative");
    (managed_wood_df, "residues_production_for_energy (Mt)");
    (managed_wood_df, "wood_production_for_energy (Mt)");
    (biomass_dry_df, "biomass_dry_for_energy (Mt)");
    (biomass_dry_df, "deforestation_for_energy");
    (managed_wood_df, "residues_production_for_industry (Mt)");
    (managed_wood_df, "wood_production_for_industry (Mt)");
    (biomass_dry_df, "deforestation_for_industry");
    (biomass_dry_df, "managed_wood_price_per_MWh");
    (biomass_dry_df, "deforestation_price_per_MWh");
    (biomass_dry_df, "price_per_MWh");
    (biomass_dry_df, "managed_wood_price_per_ton");
    (biomass_dry_df, "deforestation_price_per_ton");
    (biomass_dry_df, "price_per_ton");
    (lost_capital_df, "reforestation");
    (lost_capital_df, "managed_wood");
    (lost_capital_df, "deforestation") ].

(** The two sums of the chart 'Break down of biomass dry production' are
    computed: no [+] raises on the columns it is given. *)
Definition biomass_sums_computed : Prop :=
  let managed_wood_df := get_sosdisc_outputs "managed_wood_df" in
  let biomass_dry_df := get_sosdisc_outputs "biomass_dry_detail_df" in
  ∃ ri wi di re we de s1 bi s2 be : list Qc,
    df_get managed_wood_df "residues_production_for_industry (Mt)" = Some ri
    ∧ df_get managed_wood_df "wood_production_for_industry (Mt)" = Some wi
    ∧ df_get biomass_dry_df "deforestation_for_industry" = Some di
    ∧ df_get managed_wood_df "residues_production_for_energy (Mt)" = Some re
    ∧ df_get managed_wood_df "wood_production_for_energy (Mt)" = Some we
    ∧ df_get biomass_dry_df "deforestation_for_energy" = Some de
    ∧ ndarray_add ri wi = inr s1
    ∧ ndarray_add_series s1 di = inr bi
    ∧ series_add re we = inr s2
    ∧ series_add s2 de = inr be.

Ltac missing_column_contradiction Hall :=
  rewrite Forall_forall in Hall;
  match goal with
  | E : df_get ?df ?c = None |- _ =>
      let Hin := fresh "Hin" in
      assert (c ∈ columns df) as Hin
        by (apply (Hall (df, c));
            repeat first [apply list_elem_of_here
                         |apply list_elem_of_further]);
      apply df_get_is_Some in Hin; rewrite E in Hin; by destruct Hin
  end.

Ltac read_column :=
  match goal with
  | |- context [match df_get ?df ?c with _ => _ end] =>
      destruct (df_get df c) as [?|] eqn:?; cbv beta iota;
      [|split;
         [split; [intros [? ?]; discriminate
                 |let Hall := fresh "Hall" in
                  intros [Hall _]; exfalso;
                  missing_column_contradiction Hall]
         |intros ? ?; discriminate]]
  end.

Ltac compute_sum f :=
  match goal with
  | |- context [f ?a ?b] =>
      destruct (f a b) as [?|?] eqn:?; cbv beta iota;
      [split;
         [split; [intros [? ?]; discriminate
                 |intros [_ (? & ? & ? & ? & ? & ? & ? & ? & ? & ? & ? & ?
                             & ? & ? & ? & ? & ? & ? & ? & ?)];
                  simplify_eq; congruence]
         |intros ? ?; discriminate]|]
  end.

(** X8.  When the last filter with the key ['charts'] selects
    ['Forest chart'], [get_post_processing_list] returns charts exactly when
    every column it reads is in its frame (a missing one is a KeyError) and
    the two sums of the biomass break-down chart are computed.  It then
    returns eleven charts, in this order and with these numbers of series;
    the series built for the managed-wood surface in the yearly chart and
    for the deforested and reforested surfaces in the cumulative chart are
    not among them. *)
Theorem post_processing_returns_iff_columns_present
    (before after : list ChartFilter) (f : ChartFilter) :
  filter_key f = "charts" →
  Forall (λ g, filter_key g ≠ "charts") after →
  FOREST_CHARTS ∈ selected_values f →
  ((∃ charts,
      get_post_processing_list (Some (before ++ f :: after)) = inr charts)
   ↔ Forall (λ dc, dc.2 ∈ columns dc.1) columns_read
     ∧ biomass_sums_computed)
  ∧ (∀ charts,
       get_post_processing_list (Some (before ++ f :: after)) = inr charts →
       chart_name <$> charts
       = [ "Investments in forests activities";
           "Yearly delta of forest surface evolution";
           "Global forest surface evolution";
           "Yearly forest delta CO2 emissions";
           "Forest CO2 emissions";
           "Break down of biomass dry production for energy";
           "Break down of biomass dry production for energy";
           "Break down of biomass dry production";
           "Biomass dry price evolution";
           "Biomass dry price evolution";
           "Lost capital due to deforestation" ]
       ∧ (λ chart, series_name <$> series chart) <$> charts !! 1%nat
         = Some ["Deforestation"; "Global forest surface"; "Reforestation"]
       ∧ (λ chart, series_name <$> series chart) <$> charts !! 2%nat
         = Some ["Unmanaged forest"; "Forest surface evolution";
                 "Managed wood"; "Protected forest"]
       ∧ (λ chart, length (series chart)) <$> charts
         = [3; 3; 4; 3; 4; 4; 4; 2; 3; 3; 3]%nat).
Proof.
  intros Hf Hafter Hsel. unfold get_post_processing_list. cbv zeta.
  rewrite (select_chart_list_last _ _ _ Hf Hafter). cbv beta iota.
  rewrite decide_True by done.
  unfold column.
  repeat read_column.
  compute_sum ndarray_add. compute_sum ndarray_add_series.
  compute_sum series_add. compute_sum series_add.
  repeat read_column.
  split.
  - split; [intros _|intros _; eexists; reflexivity]. split.
    + repeat (apply Forall_cons_2;
              [cbn [fst snd]; apply df_get_is_Some;
               match goal with
               | E : df_get ?df ?c = Some _ |- is_Some (df_get ?df ?c) =>
                   rewrite E; by eexists
               end|]).
      apply Forall_nil_2.
    + do 10 eexists.
      repeat (split; [first [reflexivity|eassumption]|]);
        first [reflexivity|eassumption].
  - intros charts Hcharts. injection Hcharts as <-.
    split; [reflexivity|split; [reflexivity|split; reflexivity]].
Qed.

End post_processing.

(** ** Post-processing at given frames *)

(** A frame holding the listed columns over two years. *)
Definition frame_with (cols : list string) : list (string * list Qc) :=
  (λ c : string, (c, [float 2020 1; float 2021 1])) <$> cols.

Definition example_outputs (key : string) : list (string * list Qc) :=
  if decide (key = "forest_detail_surface_df") then
    frame_with ["years"; "delta_reforestation_surface";
                "reforestation_surface"; "delta_deforestation_surface";
                "deforestation_surface"; "delta_global_forest_surface";
                "global_forest_surface"; "unmanaged_forest";
                "protected_forest_surface"]
  else if decide (key = "managed_wood_df") then
    frame_with ["years"; "delta_surface"; "cumulative_surface";
                "residues_production_for_energy (Mt)";
                "wood_production_for_energy (Mt)";
                "residues_production_for_industry (Mt)";
                "wood_production_for_industry (Mt)"]
  else if decide (key = "CO2_emissions_detail_df") then
    frame_with ["years"; "delta_CO2_reforestation"; "CO2_reforestation";
                "delta_CO2_deforestation"; "CO2_deforestation";
                "initial_CO2_land_use_change"; "delta_CO2_emitted";
                "emitted_CO2_evol_cumulative"]
  else if decide (key = "biomass_dry_detail_df") then
    frame_with ["years"; "biomass_dry_for_energy (Mt)";
                "deforestation_for_energy"; "deforestation_for_industry";
                "managed_wood_price_per_MWh"; "deforestation_price_per_MWh";
                "price_per_MWh"; "managed_wood_price_per_ton";
                "deforestation_price_per_ton"; "price_per_ton"]
  else if decide (key = "forest_lost_capital") then
    frame_with ["years"; "reforestation"; "managed_wood"; "deforestation"]
  else [].

Definition example_input_frames (key : string) : list (string * list Qc) :=
  if decide (key = "forest_investment")
  then frame_with ["years"; "forest_investment"]
  else frame_with ["years"; "investment"].

(** Entry by entry, as numpy and pandas add arrays of one length. *)
Definition entrywise_add (a b : list Qc) : exn + list Qc :=
  inr (zip_with Qcplus a b).

Lemma post_processing_without_charts_filter_raises_witness :
  get_post_processing_list "forest_detail_surface_df" example_outputs
    example_input_frames "bar" "lines" (float 336 100)
    entrywise_add entrywise_add entrywise_add None
  = inl (UnboundLocalError "chart_list").
Proof.
  apply (post_processing_without_charts_filter_raises
           "forest_detail_surface_df" example_outputs example_input_frames
           "bar" "lines" (float 336 100)
           entrywise_add entrywise_add entrywise_add None).
  exact I.
Defined.

Lemma post_processing_unselected_returns_no_chart_witness :
  get_post_processing_list "forest_detail_surface_df" (λ _, [])
    (λ _, []) "bar" "lines" (float 336 100)
    entrywise_add entrywise_add entrywise_add
    (Some [ {| cf_name := "Charts filter";
               filter_values := [FOREST_CHARTS];
               selected_values := []; filter_key := "charts" |} ])
  = inr [].
Proof.
  apply (post_processing_unselected_returns_no_chart
           "forest_detail_surface_df" (λ _, []) (λ _, []) "bar" "lines"
           (float 336 100) entrywise_add entrywise_add entrywise_add
           [] []
           {| cf_name := "Charts filter"; filter_values := [FOREST_CHARTS];
              selected_values := []; filter_key := "charts" |}).
  - reflexivity.
  - constructor.
  - apply not_elem_of_nil.
Defined.

Lemma post_processing_returns_iff_columns_present_witness :
  ∃ charts : list TwoAxesInstanciatedChart,
    get_post_processing_list "forest_detail_surface_df" example_outputs
      example_input_frames "bar" "lines" (float 336 100)
      entrywise_add entrywise_add entrywise_add (Some get_chart_filter_list)
    = inr charts
    ∧ length charts = 11%nat.
Proof.
  destruct (post_processing_returns_iff_columns_present
              "forest_detail_surface_df" example_outputs
              example_input_frames "bar" "lines" (float 336 100)
              entrywise_add entrywise_add entrywise_add [] []
              {| cf_name := "Charts filter";
                 filter_values := [FOREST_CHARTS];
                 selected_values := [FOREST_CHARTS];
                 filter_key := "charts" |}
              eq_refl (Forall_nil_2 _) (list_elem_of_here _ _))
    as [Hiff Hnames].
  destruct (proj2 Hiff) as [charts Hcharts].
  - split.
    + apply (bool_decide_unpack _). vm_compute. exact I.
    + do 10 eexists. repeat split; reflexivity.
  - exists charts. split; [exact Hcharts|].
    destruct (Hnames charts Hcharts) as (Hn & _).
    apply (f_equal length) in Hn. rewrite length_fmap in Hn. exact Hn.
Defined.

(** * The design space of the agriculture-mix study ([usecase.py]) *)

Module Usecase.

(** A bound given to the update functions: a scalar, or a list or array
    ([isinstance(lower, (list, np.ndarray))]). *)
Inductive bound :=
  | Scalar (q : Qc)
  | Array (l : list Qc).

(** The dictionary [update_dspace_dict_with] stores under a variable's
    name. *)
Record dspace_entry := {
  value : list Qc;
  lower_bnd : list Qc;
  upper_bnd : list Qc;
  enable_variable : bool;
  activated_elem : list bool
}.

(** What a design-space dictionary holds under a key: an integer (the
    counter ['dspace_size']), a list (the columns ['variable'], ['value'],
    ['lower_bnd'], ['upper_bnd'] of [update_dspace_with], whose elements
    are names or rows), or the dictionary of one variable.  The lists under
    different keys are taken to be different objects. *)
Inductive elem :=
  | Name (s : string)
  | Row (l : list Qc).

Inductive item :=
  | Int (n : Z)
  | List (l : list elem)
  | Dict (e : dspace_entry).

Abbreviation dspace := (gmap string item).

(** The result of statements run on a dictionary: the dictionary as they
    left it, and the exception if one was raised.
    [do! d ← r; k] goes on with [k] unless [r] raised. *)
Notation "'do!' d ← r ; k" :=
  (match r with
   | (d, None) => k
   | (d, Some e) => (d, Some e)
   end)
  (at level 200, d name, r at level 100, k at level 200,
   format "'[v' 'do!'  d  ←  r ; '/' k ']'").

(** [[b] * n] unless [b] is a list or an array already. *)
Definition as_list (b : bound) (n : nat) : list Qc :=
  match b with
  | Scalar q => replicate n q
  | Array l => l
  end.

(** [dspace_dict[key].append(x)] *)
Definition append_to (dspace_dict : dspace) (key : string) (x : elem)
    : dspace * option exn :=
  match dspace_dict !! key with
  | None => (dspace_dict, Some (KeyError key))
  | Some (List l) => (<[key := List (l ++ [x])]> dspace_dict, None)
  | Some _ => (dspace_dict, Some AttributeError)
  end.

(** [dspace_dict['dspace_size'] += n] *)
Definition add_to_size (dspace_dict : dspace) (n : nat)
    : dspace * option exn :=
  match dspace_dict !! "dspace_size" with
  | None => (dspace_dict, Some (KeyError "dspace_size"))
  | Some (Int z) =>
      (<["dspace_size" := Int (z + Z.of_nat n)]> dspace_dict, None)
  | Some _ => (dspace_dict, Some TypeError)
  end.

(** [update_dspace_with] *)
Definition update_dspace_with (dspace_dict : dspace) (name : string)
    (value : list Qc) (lower upper : bound) : dspace * option exn :=
  let lower := as_list lower (length value) in
  let upper := as_list upper (length value) in
  do! dspace_dict ← append_to dspace_dict "variable" (Name name);
  do! dspace_dict ← append_to dspace_dict "value" (Row value);
  do! dspace_dict ← append_to dspace_dict "lower_bnd" (Row lower);
  do! dspace_dict ← append_to dspace_dict "upper_bnd" (Row upper);
  add_to_size dspace_dict (length value).

(** [update_dspace_dict_with] *)
Definition update_dspace_dict_with (dspace_dict : dspace) (name : string)
    (value : list Qc) (lower upper : bound)
    (activated_elem : option (list bool)) (enable_variable : bool)
    : dspace * option exn :=
  let lower := as_list lower (length value) in
  let upper := as_list upper (length value) in
  let activated_elem :=
    match activated_elem with
    | None => replicate (length value) true
    | Some l => l
    end in
  let dspace_dict :=
    <[name := Dict {| value := value; lower_bnd := lower;
                      upper_bnd := upper;
                      enable_variable := enable_variable;
                      activated_elem := activated_elem |}]> dspace_dict in
  add_to_size dspace_dict (length value).

(** The number of design variables the entries of a dictionary hold:
    the sum of [len(entry['value'])]. *)
Definition entry_size (i : item) : Z :=
  match i with
  | Dict e => Z.of_nat (length (value e))
  | _ => 0
  end.

Definition total_size (d : dspace) : Z :=
  map_fold (λ (_ : string) (i : item) (acc : Z), entry_size i + acc)%Z 0%Z d.

Lemma total_size_insert_fresh (d : dspace) (k : string) (i : item) :
  d !! k = None → total_size (<[k := i]> d) = (entry_size i + total_size d)%Z.
Proof.
  intros Hk. unfold total_size.
  rewrite map_fold_insert_L; [done| |done]. intros. lia.
Qed.

Lemma total_size_delete (d : dspace) (k : string) (i : item) :
  d !! k = Some i →
  total_size d = (entry_size i + total_size (delete k d))%Z.
Proof.
  intros Hk. unfold total_size.
  rewrite (map_fold_delete_L _ _ k i d); [done| |done]. intros. lia.
Qed.

Lemma total_size_insert (d : dspace) (k : string) (i : item) :
  total_size (<[k := i]> d)
  = (total_size d - from_option entry_size 0 (d !! k) + entry_size i)%Z.
Proof.
  destruct (d !! k) as [old|] eqn:Hk; simpl.
  - rewrite <- (insert_delete_eq d k i).
    rewrite total_size_insert_fresh by apply lookup_delete_eq.
    rewrite (total_size_delete d k old Hk). lia.
  - rewrite total_size_insert_fresh by done. lia.
Qed.

(** X9.  On a dictionary whose ['dspace_size'] is an integer, and for a
    name other than ['dspace_size'], [update_dspace_dict_with] raises
    nothing; it stores the variable's dictionary under the name (scalar
    bounds repeated [len(value)] times, [activated_elem] all [True] when not
    given), leaves every other key alone, and adds [len(value)] to
    ['dspace_size'].  The sum of the sizes of the stored variables grows by
    [len(value)] less the size of the variable the name held before: when
    a name is used again the entry is replaced but the counter still
    counts both. *)
Theorem update_dspace_dict_with_counts (dspace_dict : dspace)
    (name : string) (value : list Qc) (lower upper : bound)
    (activated_elem : option (list bool)) (enable_variable : bool) (n : Z) :
  dspace_dict !! "dspace_size" = Some (Int n) →
  name ≠ "dspace_size" →
  ∃ d' : dspace,
    update_dspace_dict_with dspace_dict name value lower upper
      activated_elem enable_variable = (d', None)
    ∧ d' !! "dspace_size" = Some (Int (n + Z.of_nat (length value)))
    ∧ d' !! name
      = Some (Dict {| Usecase.value := value;
                      lower_bnd := as_list lower (length value);
                      upper_bnd := as_list upper (length value);
                      Usecase.enable_variable := enable_variable;
                      Usecase.activated_elem :=
                        default (replicate (length value) true)
                                activated_elem |})
    ∧ (∀ k, k ≠ name → k ≠ "dspace_size" → d' !! k = dspace_dict !! k)
    ∧ total_size d'
      = (total_size dspace_dict
         - from_option entry_size 0 (dspace_dict !! name)
         + Z.of_nat (length value))%Z.
Proof.
  intros Hsize Hname. unfold update_dspace_dict_with, add_to_size. cbv zeta.
  rewrite lookup_insert_ne by done. rewrite Hsize.
  eexists. split; [reflexivity|]. split; [|split; [|split]].
  - by rewrite lookup_insert_eq.
  - rewrite lookup_insert_ne by done. rewrite lookup_insert_eq.
    by destruct activated_elem.
  - intros k Hk1 Hk2. by rewrite !lookup_insert_ne by done.
  - rewrite !total_size_insert. rewrite lookup_insert_ne by done.
    rewrite Hsize. simpl. lia.
Qed.

Lemma update_dspace_dict_with_counts_witness :
  ∃ d' : dspace,
    update_dspace_dict_with
      (<["dspace_size" := Int 3]>
         (<["x" := Dict {| value := [0; 0; 0]; lower_bnd := [];
                           upper_bnd := []; enable_variable := true;
                           activated_elem := [] |}]> ∅))
      "x" [float 1 1; float 2 1] (Scalar 0) (Scalar (float 5 1)) None true
    = (d', None)
    ∧ d' !! "dspace_size" = Some (Int 5)
    ∧ total_size d' = 2%Z.
Proof.
  edestruct (update_dspace_dict_with_counts
               (<["dspace_size" := Int 3]>
                  (<["x" := Dict {| value := [0; 0; 0]; lower_bnd := [];
                                    upper_bnd := [];
                                    enable_variable := true;
                                    activated_elem := [] |}]> ∅))
               "x" [float 1 1; float 2 1] (Scalar 0) (Scalar (float 5 1))
               None true 3)
    as (d' & Hrun & Hsize & _ & _ & Htotal).
  - reflexivity.
  - discriminate.
  - exists d'. split; [exact Hrun|]. split; [exact Hsize|].
    rewrite Htotal. reflexivity.
Defined.


(** The four columns of a design-space dictionary in the layout of
    [update_dspace_with] are lists of one length, and the counter is an
    integer. *)
Definition aligned (d : dspace) (len : nat) : Prop :=
  ∃ (names values lowers uppers : list elem) (n : Z),
    d !! "variable" = Some (List names)
    ∧ d !! "value" = Some (List values)
    ∧ d !! "lower_bnd" = Some (List lowers)
    ∧ d !! "upper_bnd" = Some (List uppers)
    ∧ d !! "dspace_size" = Some (Int n)
    ∧ length names = len ∧ length values = len
    ∧ length lowers = len ∧ length uppers = len.

(** X11.  On a dictionary whose ['variable'], ['value'], ['lower_bnd'] and
    ['upper_bnd'] are lists and whose ['dspace_size'] is an integer,
    [update_dspace_with] raises nothing: it appends one element to each of
    the four lists (the name, the values, and the bounds, a scalar bound
    being repeated [len(value)] times and a list being stored as it is,
    whatever its length) and adds [len(value)] to ['dspace_size'].  Lists
    of one length stay of one length. *)
Theorem update_dspace_with_appends (dspace_dict : dspace) (name : string)
    (value : list Qc) (lower upper : bound)
    (names values lowers uppers : list elem) (n : Z) :
  dspace_dict !! "variable" = Some (List names) →
  dspace_dict !! "value" = Some (List values) →
  dspace_dict !! "lower_bnd" = Some (List lowers) →
  dspace_dict !! "upper_bnd" = Some (List uppers) →
  dspace_dict !! "dspace_size" = Some (Int n) →
  ∃ d' : dspace,
    update_dspace_with dspace_dict name value lower upper = (d', None)
    ∧ d' !! "variable" = Some (List (names ++ [Name name]))
    ∧ d' !! "value" = Some (List (values ++ [Row value]))
    ∧ d' !! "lower_bnd"
      = Some (List (lowers ++ [Row (as_list lower (length value))]))
    ∧ d' !! "upper_bnd"
      = Some (List (uppers ++ [Row (as_list upper (length value))]))
    ∧ d' !! "dspace_size" = Some (Int (n + Z.of_nat (length value)))
    ∧ (∀ len, aligned dspace_dict len → aligned d' (S len))
    ∧ (∀ q, length (as_list (Scalar q) (length value)) = length value)
    ∧ (∀ l, as_list (Array l) (length value) = l).
Proof.
  intros Hn Hv Hl Hu Hs.
  unfold update_dspace_with, append_to, add_to_size. cbv zeta.
  rewrite Hn. rewrite lookup_insert_ne by done. rewrite Hv.
  rewrite !lookup_insert_ne by done. rewrite Hl.
  rewrite !lookup_insert_ne by done. rewrite Hu.
  rewrite !lookup_insert_ne by done. rewrite Hs.
  eexists. split; [reflexivity|].
  assert (∀ (A : Type) (l : list A) (x : A),
            length (l ++ [x]) = S (length l)) as Hlen
    by (intros; rewrite length_app; simpl; lia).
  repeat split.
  - rewrite !lookup_insert_ne by done. by rewrite lookup_insert_eq.
  - rewrite !lookup_insert_ne by done. by rewrite lookup_insert_eq.
  - rewrite !lookup_insert_ne by done. by rewrite lookup_insert_eq.
  - rewrite !lookup_insert_ne by done. by rewrite lookup_insert_eq.
  - by rewrite lookup_insert_eq.
  - intros len (ns & vs & ls & us & m & H1 & H2 & H3 & H4 & H5
                & L1 & L2 & L3 & L4).
    rewrite Hn in H1. injection H1 as <-.
    rewrite Hv in H2. injection H2 as <-.
    rewrite Hl in H3. injection H3 as <-.
    rewrite Hu in H4. injection H4 as <-.
    exists (names ++ [Name name]), (values ++ [Row value]),
      (lowers ++ [Row (as_list lower (length value))]),
      (uppers ++ [Row (as_list upper (length value))]),
      (n + Z.of_nat (length value))%Z.
    rewrite !Hlen.
    repeat split; try congruence;
      rewrite ?lookup_insert_eq, ?lookup_insert_ne by done;
      rewrite ?lookup_insert_eq, ?lookup_insert_ne by done;
      rewrite ?lookup_insert_eq, ?lookup_insert_ne by done;
      rewrite ?lookup_insert_eq, ?lookup_insert_ne by done;
      rewrite ?lookup_insert_eq; done.
  - intros q. simpl. apply length_replicate.
Qed.

(** An empty design space in the layout of [update_dspace_with]. *)
Definition empty_columns : dspace :=
  <["variable" := List []]>
    (<["value" := List []]>
       (<["lower_bnd" := List []]>
          (<["upper_bnd" := List []]>
             (<["dspace_size" := Int 0]> ∅)))).

Lemma update_dspace_with_appends_witness :
  ∃ d' : dspace,
    update_dspace_with empty_columns "x" [float 1 1; float 2 1]
      (Scalar 0) (Array [float 5 1; float 5 1; float 5 1]) = (d', None)
    ∧ d' !! "lower_bnd" = Some (List [Row [0; 0]])
    ∧ d' !! "upper_bnd"
      = Some (List [Row [float 5 1; float 5 1; float 5 1]])
    ∧ d' !! "dspace_size" = Some (Int 2)
    ∧ aligned d' 1.
Proof.
  edestruct (update_dspace_with_appends empty_columns "x"
               [float 1 1; float 2 1] (Scalar 0)
               (Array [float 5 1; float 5 1; float 5 1]) [] [] [] [] 0)
    as (d' & Hrun & _ & _ & Hl & Hu & Hs & Hal & _);
    [reflexivity..|].
  exists d'. split; [exact Hrun|]. split; [exact Hl|]. split; [exact Hu|].
  split; [exact Hs|]. apply Hal.
  exists [], [], [], [], 0%Z. repeat split; reflexivity.
Defined.

(** X12.  [update_dspace_with] on a dictionary that lacks a key.  The keys
    are used in the order ['variable'], ['value'], ['lower_bnd'],
    ['upper_bnd'], ['dspace_size']: the call raises KeyError for the first
    of them that is missing, the lists of the keys before it have been
    appended to already, and the rest of the dictionary, the keys after it
    included, is as it was. *)
Theorem update_dspace_with_partial_update (dspace_dict : dspace)
    (name : string) (value : list Qc) (lower upper : bound) :
  (dspace_dict !! "variable" = None →
   update_dspace_with dspace_dict name value lower upper
   = (dspace_dict, Some (KeyError "variable")))
  ∧ (∀ names : list elem,
       dspace_dict !! "variable" = Some (List names) →
       dspace_dict !! "value" = None →
       update_dspace_with dspace_dict name value lower upper
       = (<["variable" := List (names ++ [Name name])]> dspace_dict,
          Some (KeyError "value")))
  ∧ (∀ names values : list elem,
       dspace_dict !! "variable" = Some (List names) →
       dspace_dict !! "value" = Some (List values) →
       dspace_dict !! "lower_bnd" = None →
       update_dspace_with dspace_dict name value lower upper
       = (<["value" := List (values ++ [Row value])]>
            (<["variable" := List (names ++ [Name name])]> dspace_dict),
          Some (KeyError "lower_bnd")))
  ∧ (∀ names values lowers : list elem,
       dspace_dict !! "variable" = Some (List names) →
       dspace_dict !! "value" = Some (List values) →
       dspace_dict !! "lower_bnd" = Some (List lowers) →
       dspace_dict !! "upper_bnd" = None →
       update_dspace_with dspace_dict name value lower upper
       = (<["lower_bnd" :=
              List (lowers ++ [Row (as_list lower (length value))])]>
            (<["value" := List (values ++ [Row value])]>
               (<["variable" := List (names ++ [Name name])]> dspace_dict)),
          Some (KeyError "upper_bnd")))
  ∧ (∀ names values lowers uppers : list elem,
       dspace_dict !! "variable" = Some (List names) →
       dspace_dict !! "value" = Some (List values) →
       dspace_dict !! "lower_bnd" = Some (List lowers) →
       dspace_dict !! "upper_bnd" = Some (List uppers) →
       dspace_dict !! "dspace_size" = None →
       update_dspace_with dspace_dict name value lower upper
       = (<["upper_bnd" :=
              List (uppers ++ [Row (as_list upper (length value))])]>
            (<["lower_bnd" :=
                 List (lowers ++ [Row (as_list lower (length value))])]>
               (<["value" := List (values ++ [Row value])]>
                  (<["variable" := List (names ++ [Name name])]>
                     dspace_dict))),
          Some (KeyError "dspace_size"))).
Proof.
  unfold update_dspace_with, append_to, add_to_size. cbv zeta.
  split; [|split; [|split; [|split]]].
  - by intros ->.
  - intros names Hn Hv. rewrite Hn.
    rewrite lookup_insert_ne by done. by rewrite Hv.
  - intros names values Hn Hv Hl. rewrite Hn.
    rewrite lookup_insert_ne by done. rewrite Hv.
    rewrite !lookup_insert_ne by done. by rewrite Hl.
  - intros names values lowers Hn Hv Hl Hu. rewrite Hn.
    rewrite lookup_insert_ne by done. rewrite Hv.
    rewrite !lookup_insert_ne by done. rewrite Hl.
    rewrite !lookup_insert_ne by done. by rewrite Hu.
  - intros names values lowers uppers Hn Hv Hl Hu Hs. rewrite Hn.
    rewrite lookup_insert_ne by done. rewrite Hv.
    rewrite !lookup_insert_ne by done. rewrite Hl.
    rewrite !lookup_insert_ne by done. rewrite Hu.
    rewrite !lookup_insert_ne by done. by rewrite Hs.
Qed.

(** A dictionary with every list but ['lower_bnd']: the name and the
    values are appended, ['upper_bnd'] is not touched. *)
Lemma update_dspace_with_partial_update_witness :
  update_dspace_with
    (<["variable" := List []]>
       (<["value" := List []]> (<["upper_bnd" := List []]> ∅)))
    "x" [float 1 1] (Scalar 0) (Scalar (float 5 1))
  = (<["value" := List [Row [float 1 1]]]>
       (<["variable" := List [Name "x"]]>
          (<["variable" := List []]>
             (<["value" := List []]> (<["upper_bnd" := List []]> ∅)))),
     Some (KeyError "lower_bnd")).
Proof.
  refine (proj1 (proj2 (proj2 (update_dspace_with_partial_update
                   (<["variable" := List []]>
                      (<["value" := List []]>
                         (<["upper_bnd" := List []]> ∅)))
                   "x" [float 1 1] (Scalar 0) (Scalar (float 5 1)))))
                [] [] _ _ _);
    reflexivity.
Defined.

(** ** The study *)

(** [np.linspace(start, stop, num)], in exact arithmetic. *)
Definition linspace (start stop : Qc) (num : nat) : list Qc :=
  match num with
  | 0%nat => []
  | 1%nat => [start]
  | _ =>
      (λ i : nat,
         start + Qc_of_Z (Z.of_nat i)
                 * ((stop - start) / Qc_of_Z (Z.of_nat (num - 1))))
        <$> seq 0 num
  end.

Definition AGRI_MIX_MODEL_LIST : list string := ["Crop"; "Forest"].
Definition AGRI_MIX_TECHNOLOGIES_LIST_FOR_OPT : list string :=
  ["ManagedWood"; "CropEnergy"].

(** The attributes of [Study] that the design space depends on;
    [design_space_ctrl] and [dspace] are set by [setup_usecase] ([None]:
    the attribute does not exist yet). *)
Record Study := {
  year_start : Z;
  year_end : Z;
  techno_list : list string;
  model_list : list string;
  nb_poles : nat;
  design_space_ctrl : option (list (string * list Qc));
  study_dspace : option dspace
}.

(** [Study.__init__] *)
Definition init (year_start year_end : Z)
    (agri_techno_list model_list : list string) : Study :=
  {| Usecase.year_start := year_start; Usecase.year_end := year_end;
     techno_list := agri_techno_list; Usecase.model_list := model_list;
     nb_poles := 8; design_space_ctrl := None; study_dspace := None |}.

(** A call that raises what the callee raised. *)
Definition call (r : dspace * option exn) : exn + dspace :=
  match r with
  | (d, None) => inr d
  | (_, Some e) => inl e
  end.

(** [Study.setup_design_space_ctrl_new] *)
Definition setup_design_space_ctrl_new (self : Study) : exn + dspace :=
  let ddict : dspace := <["dspace_size" := Int 0]> ∅ in
  let poles (q : Qc) := Array (replicate (nb_poles self) q) in
  let activated := Some (replicate (nb_poles self) true) in
  let! design_space_ctrl :=
    match design_space_ctrl self with
    | Some df => inr df
    | None => inl AttributeError
    end in
  let! v := column design_space_ctrl "red_meat_calories_per_day_ctrl" in
  let! ddict :=
    call (update_dspace_dict_with ddict "red_meat_calories_per_day_ctrl" v
            (poles (float 1 1)) (poles (float 1000 1)) activated true) in
  let! v := column design_space_ctrl "white_meat_calories_per_day_ctrl" in
  let! ddict :=
    call (update_dspace_dict_with ddict "white_meat_calories_per_day_ctrl" v
            (poles (float 5 1)) (poles (float 2000 1)) activated true) in
  let! v :=
    column design_space_ctrl "vegetables_and_carbs_calories_per_day_ctrl" in
  let! ddict :=
    call (update_dspace_dict_with ddict
            "vegetables_and_carbs_calories_per_day_ctrl" v
            (poles (float 5 1)) (poles (float 2000 1)) activated true) in
  let! v := column design_space_ctrl "milk_and_eggs_calories_per_day_ctrl" in
  let! ddict :=
    call (update_dspace_dict_with ddict
            "milk_and_eggs_calories_per_day_ctrl" v
            (poles (float 5 1)) (poles (float 2000 1)) activated true) in
  let! v := column design_space_ctrl "deforestation_investment_ctrl" in
  let! ddict :=
    call (update_dspace_dict_with ddict "deforestation_investment_ctrl" v
            (poles 0) (poles (float 100 1)) activated true) in
  let! v := column design_space_ctrl "forest_investment_array_mix" in
  let! ddict :=
    call (update_dspace_dict_with ddict "forest_investment_array_mix" v
            (poles (float 1 1000000)) (poles (float 3000 1)) activated
            true) in
  let! ddict :=
    if decide ("CropEnergy" ∈ techno_list self) then
      let! v := column design_space_ctrl "crop_investment_array_mix" in
      call (update_dspace_dict_with ddict "crop_investment_array_mix" v
              (poles (float 1 1000000)) (poles (float 3000 1)) activated
              false)
    else inr ddict in
  let! ddict :=
    if decide ("ManagedWood" ∈ techno_list self) then
      let! v :=
        column design_space_ctrl "managed_wood_investment_array_mix" in
      call (update_dspace_dict_with ddict
              "managed_wood_investment_array_mix" v
              (poles (float 1 1000000)) (poles (float 3000 1)) activated
              false)
    else inr ddict in
  inr ddict.

Section glossary.
(** [GlossaryCore.FishDailyCal] and [GlossaryCore.OtherDailyCal], which
    the sources at hand do not give. *)
Variables FishDailyCal OtherDailyCal : string.

(** The part of [Study.setup_usecase] that builds [design_space_ctrl]
    (the control vectors, one column each, in the order they are put in
    the dictionary) and [dspace]; the frames of [values_dict], which it
    does not depend on, are left out. *)
Definition setup_usecase_design_space (self : Study) : exn + Study :=
  let red_meat_percentage_ctrl := linspace (float 600 1) (float 900 1)
                                    (nb_poles self) in
  let white_meat_percentage_ctrl := linspace (float 700 1) (float 900 1)
                                      (nb_poles self) in
  let vegetables_and_carbs_calories_per_day_ctrl :=
    linspace (float 900 1) (float 900 1) (nb_poles self) in
  let milk_and_eggs_calories_per_day_ctrl :=
    linspace (float 900 1) (float 900 1) (nb_poles self) in
  let fish_calories_per_day_ctrl :=
    linspace (float 900 1) (float 900 1) (nb_poles self) in
  let other_calories_per_day_ctrl :=
    linspace (float 900 1) (float 900 1) (nb_poles self) in
  let deforestation_investment_ctrl :=
    linspace (float 10 1) (float 5 1) (nb_poles self) in
  let forest_investment_array_mix :=
    linspace (float 5 1) (float 8 1) (nb_poles self) in
  let crop_investment_array_mix :=
    linspace (float 1 1) (float 15 10) (nb_poles self) in
  let managed_wood_investment_array_mix :=
    linspace (float 2 1) (float 3 1) (nb_poles self) in
  let d : list (string * list Qc) := [] in
  let d := df_set d "red_meat_calories_per_day_ctrl"
             red_meat_percentage_ctrl in
  let d := df_set d "white_meat_calories_per_day_ctrl"
             white_meat_percentage_ctrl in
  let d := df_set d (FishDailyCal +:+ "_ctrl") fish_calories_per_day_ctrl in
  let d := df_set d (OtherDailyCal +:+ "_ctrl")
             other_calories_per_day_ctrl in
  let d := df_set d "vegetables_and_carbs_calories_per_day_ctrl"
             vegetables_and_carbs_calories_per_day_ctrl in
  let d := df_set d "milk_and_eggs_calories_per_day_ctrl"
             milk_and_eggs_calories_per_day_ctrl in
  let d := df_set d "deforestation_investment_ctrl"
             deforestation_investment_ctrl in
  let d := df_set d "forest_investment_array_mix"
             forest_investment_array_mix in
  let d := if decide ("CropEnergy" ∈ techno_list self)
           then df_set d "crop_investment_array_mix"
                  crop_investment_array_mix
           else d in
  let d := if decide ("ManagedWood" ∈ techno_list self)
           then df_set d "managed_wood_investment_array_mix"
                  managed_wood_investment_array_mix
           else d in
  let self :=
    {| Usecase.year_start := year_start self;
       Usecase.year_end := year_end self;
       techno_list := techno_list self; model_list := model_list self;
       nb_poles := nb_poles self; design_space_ctrl := Some d;
       study_dspace := study_dspace self |} in
  let! ddict := setup_design_space_ctrl_new self in
  inr {| Usecase.year_start := year_start self;
         Usecase.year_end := year_end self;
         techno_list := techno_list self; model_list := model_list self;
         nb_poles := nb_poles self;
         design_space_ctrl := design_space_ctrl self;
         study_dspace := Some ddict |}.
End glossary.

Lemma linspace_length (start stop : Qc) (num : nat) :
  length (linspace start stop num) = num.
Proof.
  destruct num as [|[|num]]; [done|done|].
  unfold linspace. by rewrite length_fmap, length_seq.
Qed.

(** A point of the segment from [a] to [b] lies between any bounds of
    [a] and [b]. *)
Lemma between_convex (lo hi a b t : Qc) :
  lo ≤ a → a ≤ hi → lo ≤ b → b ≤ hi → 0 ≤ t → t ≤ 1 →
  lo ≤ a + t * (b - a) ∧ a + t * (b - a) ≤ hi.
Proof.
  intros Hla Hah Hlb Hbh Ht0 Ht1.
  assert (0 ≤ 1 - t) as Ht'.
  { apply Qcle_minus_iff in Ht1. by replace (1 - t) with (1 + - t) by ring. }
  replace (a + t * (b - a)) with ((1 - t) * a + t * b) by ring.
  split.
  - replace lo with ((1 - t) * lo + t * lo) by ring.
    apply Qcplus_le_compat; by apply Qcmult_le_mono_nonneg_l.
  - replace hi with ((1 - t) * hi + t * hi) by ring.
    apply Qcplus_le_compat; by apply Qcmult_le_mono_nonneg_l.
Qed.

Lemma step_fraction (a b x n : Qc) :
  a + x * ((b - a) / n) = a + (x / n) * (b - a).
Proof. unfold Qcdiv. ring. Qed.

(** Every point of [linspace start stop num] lies between any bounds of
    [start] and [stop]. *)
Lemma linspace_between (lo hi start stop : Qc) (num : nat) :
  lo ≤ start → start ≤ hi → lo ≤ stop → stop ≤ hi →
  Forall (λ x, lo ≤ x ∧ x ≤ hi) (linspace start stop num).
Proof.
  intros Hls Hsh Hlt Hth.
  destruct num as [|[|num]]; [constructor|by repeat constructor|].
  unfold linspace. apply Forall_fmap, Forall_forall. intros i Hi.
  apply elem_of_seq in Hi. simpl.
  rewrite step_fraction.
  assert (0 < Qc_of_Z (Z.of_nat (S num))) as Hn.
  { rewrite <- Z2Qc_inj_0. apply (proj1 (Z2Qc_inj_lt _ _)). lia. }
  assert (Qc_of_Z (Z.of_nat i) ≤ Qc_of_Z (Z.of_nat (S num))) as Hi'.
  { apply (proj1 (Z2Qc_inj_le _ _)). lia. }
  assert (0 ≤ Qc_of_Z (Z.of_nat i)) as Hi0.
  { rewrite <- Z2Qc_inj_0. apply (proj1 (Z2Qc_inj_le _ _)). lia. }
  generalize dependent (Qc_of_Z (Z.of_nat (S num))).
  generalize dependent (Qc_of_Z (Z.of_nat i)).
  intros x Hx0 n Hn Hxn.
  apply between_convex; [assumption..| |].
  - apply Qcmult_nonneg_nonneg; [assumption|].
    apply Qclt_le_weak. by apply Qcinv_pos.
  - unfold Qcdiv.
    rewrite <- (Qcmult_inv_r n)
      by (intros Hz; rewrite Hz in Hn; by apply Qclt_not_eq in Hn).
    apply Qcmult_le_mono_nonneg_r; [|assumption].
    apply Qclt_le_weak. by apply Qcinv_pos.
Qed.

(** ** The design variables of the study *)

(** One call of [update_dspace_dict_with] in
    [setup_design_space_ctrl_new]: the name of the variable, which is also
    the column of [design_space_ctrl] read, the bounds that are repeated
    [nb_poles] times, and [enable_variable]. *)
Record design_variable := {
  dv_name : string;
  dv_lower : Qc;
  dv_upper : Qc;
  dv_enable : bool
}.

(** The calls [setup_design_space_ctrl_new] makes, in order. *)
Definition design_variables (self : Study) : list design_variable :=
  [ {| dv_name := "red_meat_calories_per_day_ctrl";
       dv_lower := float 1 1; dv_upper := float 1000 1; dv_enable := true |};
    {| dv_name := "white_meat_calories_per_day_ctrl";
       dv_lower := float 5 1; dv_upper := float 2000 1; dv_enable := true |};
    {| dv_name := "vegetables_and_carbs_calories_per_day_ctrl";
       dv_lower := float 5 1; dv_upper := float 2000 1; dv_enable := true |};
    {| dv_name := "milk_and_eggs_calories_per_day_ctrl";
       dv_lower := float 5 1; dv_upper := float 2000 1; dv_enable := true |};
    {| dv_name := "deforestation_investment_ctrl";
       dv_lower := 0; dv_upper := float 100 1; dv_enable := true |};
    {| dv_name := "forest_investment_array_mix";
       dv_lower := float 1 1000000; dv_upper := float 3000 1;
       dv_enable := true |} ]
  ++ (if decide ("CropEnergy" ∈ techno_list self)
      then [ {| dv_name := "crop_investment_array_mix";
                dv_lower := float 1 1000000; dv_upper := float 3000 1;
                dv_enable := false |} ]
      else [])
  ++ (if decide ("ManagedWood" ∈ techno_list self)
      then [ {| dv_name := "managed_wood_investment_array_mix";
                dv_lower := float 1 1000000; dv_upper := float 3000 1;
                dv_enable := false |} ]
      else []).

(** What is stored for a design variable whose column holds [v]. *)
Definition registered_entry (nb_poles : nat) (x : design_variable)
    (v : list Qc) : dspace_entry :=
  {| value := v;
     lower_bnd := replicate nb_poles (dv_lower x);
     upper_bnd := replicate nb_poles (dv_upper x);
     enable_variable := dv_enable x;
     activated_elem := replicate nb_poles true |}.

(** One call, on the dictionary built so far. *)
Definition register (nb_poles : nat) (df : list (string * list Qc))
    (acc : exn + dspace) (x : design_variable) : exn + dspace :=
  let! ddict := acc in
  let! v := column df (dv_name x) in
  call (update_dspace_dict_with ddict (dv_name x) v
          (Array (replicate nb_poles (dv_lower x)))
          (Array (replicate nb_poles (dv_upper x)))
          (Some (replicate nb_poles true)) (dv_enable x)).

Lemma setup_design_space_ctrl_new_unset (self : Study) :
  design_space_ctrl self = None →
  setup_design_space_ctrl_new self = inl AttributeError.
Proof. intros Hdf. unfold setup_design_space_ctrl_new. by rewrite Hdf. Qed.

Lemma setup_design_space_ctrl_new_foldl (self : Study)
    (df : list (string * list Qc)) :
  design_space_ctrl self = Some df →
  setup_design_space_ctrl_new self
  = foldl (register (nb_poles self) df)
      (inr (<["dspace_size" := Int 0]> ∅)) (design_variables self).
Proof.
  intros Hdf. unfold setup_design_space_ctrl_new, design_variables.
  rewrite Hdf. cbv zeta. cbv beta iota.
  rewrite !foldl_app. cbn [foldl]. unfold register.
  cbn [dv_name dv_lower dv_upper dv_enable].
  repeat first
    [ reflexivity
    | case_decide; cbn [foldl dv_name dv_lower dv_upper dv_enable];
      cbv beta iota
    | match goal with
      | |- context [column df ?c] =>
          destruct (column df c) as [?|?]; cbv beta iota
      | |- context [call ?c] => destruct (call c) as [?|?]; cbv beta iota
      end ].
Qed.

Lemma call_update_dspace_dict_with (d : dspace) (name : string)
    (v : list Qc) (lower upper : bound) (activated : option (list bool))
    (enable : bool) (n : Z) :
  d !! "dspace_size" = Some (Int n) → name ≠ "dspace_size" →
  call (update_dspace_dict_with d name v lower upper activated enable)
  = inr (<["dspace_size" := Int (n + Z.of_nat (length v))]>
           (<[name := Dict {| value := v;
                              lower_bnd := as_list lower (length v);
                              upper_bnd := as_list upper (length v);
                              enable_variable := enable;
                              activated_elem :=
                                default (replicate (length v) true)
                                        activated |}]> d)).
Proof.
  intros Hsize Hname. unfold update_dspace_dict_with, add_to_size. cbv zeta.
  rewrite lookup_insert_ne by done. rewrite Hsize.
  by destruct activated.
Qed.

Lemma foldl_register_raised (nb_poles : nat) (df : list (string * list Qc))
    (e : exn) (l : list design_variable) :
  foldl (register nb_poles df) (inl e) l = inl e.
Proof. induction l as [|x l IH]; [done|]. simpl. exact IH. Qed.

(** The number of values in the columns of the design variables [l]. *)
Definition columns_size (df : list (string * list Qc))
    (l : list design_variable) : nat :=
  sum_list_with (λ x, length (default [] (df_get df (dv_name x)))) l.

(** The calls for design variables of different names, none of them
    ['dspace_size'] or in the dictionary yet. *)
Lemma foldl_register (nb_poles : nat) (df : list (string * list Qc))
    (l : list design_variable) (d : dspace) (n : Z) :
  d !! "dspace_size" = Some (Int n) →
  NoDup (dv_name <$> l) →
  Forall (λ x, dv_name x ≠ "dspace_size" ∧ d !! (dv_name x) = None) l →
  match foldl (register nb_poles df) (inr d) l with
  | inl e =>
      ∃ x, x ∈ l ∧ ¬ (dv_name x ∈ columns df) ∧ e = KeyError (dv_name x)
  | inr d' =>
      Forall (λ x, dv_name x ∈ columns df) l
      ∧ d' !! "dspace_size" = Some (Int (n + Z.of_nat (columns_size df l)))
      ∧ total_size d' = (total_size d + Z.of_nat (columns_size df l))%Z
      ∧ dom d' = dom d ∪ list_to_set (dv_name <$> l)
      ∧ (∀ k, k ∉ dv_name <$> l → k ≠ "dspace_size" → d' !! k = d !! k)
      ∧ ∀ x, x ∈ l →
          ∃ v, df_get df (dv_name x) = Some v
               ∧ d' !! (dv_name x)
                 = Some (Dict (registered_entry nb_poles x v))
  end.
Proof.
  revert d n. induction l as [|x l IH]; intros d n Hsize Hnames Hfresh.
  - simpl. split; [constructor|]. rewrite Z.add_0_r.
    split; [done|]. split; [lia|]. split; [set_solver|]. split; [done|].
    intros x Hx. by apply elem_of_nil in Hx.
  - rewrite fmap_cons in Hnames. apply NoDup_cons in Hnames as [Hx Hnames].
    apply Forall_cons_1 in Hfresh as [[Hxs Hxd] Hfresh].
    cbn [foldl]. unfold register at 2. cbv beta iota. unfold column.
    destruct (df_get df (dv_name x)) as [v|] eqn:Hv.
    + rewrite (call_update_dspace_dict_with _ _ _ _ _ _ _ n Hsize Hxs).
      cbn [as_list default].
      set (d1 := <["dspace_size" := _]> _).
      assert (∀ k, k ≠ dv_name x → k ≠ "dspace_size" → d1 !! k = d !! k)
        as Hother.
      { intros k Hk1 Hk2. subst d1. by rewrite !lookup_insert_ne by done. }
      assert (d1 !! (dv_name x)
              = Some (Dict (registered_entry nb_poles x v))) as Hentry.
      { subst d1. rewrite lookup_insert_ne by done.
        by rewrite lookup_insert_eq. }
      assert (total_size d1 = (total_size d + Z.of_nat (length v))%Z)
        as Htotal.
      { subst d1. rewrite !total_size_insert.
        rewrite lookup_insert_ne by done. rewrite Hsize, Hxd. simpl. lia. }
      assert (∀ y, y ∈ l → dv_name y ≠ dv_name x) as Hne.
      { intros y Hy Heq. apply Hx. rewrite <- Heq.
        by apply list_elem_of_fmap_2. }
      assert (d1 !! "dspace_size"
              = Some (Int (n + Z.of_nat (length v)))) as Hsize1.
      { subst d1. by rewrite lookup_insert_eq. }
      assert (Forall (λ y, dv_name y ≠ "dspace_size"
                           ∧ d1 !! (dv_name y) = None) l) as Hfresh1.
      { apply Forall_forall. intros y Hy.
        apply (proj1 (Forall_forall _ _) Hfresh) in Hy as Hy'.
        destruct Hy' as [Hy1 Hy2]. split; [done|].
        rewrite <- Hy2. apply Hother; [by apply Hne|done]. }
      specialize (IH d1 _ Hsize1 Hnames Hfresh1).
      destruct (foldl (register nb_poles df) (inr d1) l) as [e|d'].
      * destruct IH as (y & Hy & Hcol & ->).
        exists y. split; [by apply elem_of_cons; right|done].
      * destruct IH as (Hcols & Hsize' & Htotal' & Hdom & Hkeep & Hentries).
        assert (columns_size df (x :: l)
                = (length v + columns_size df l)%nat) as Hsum.
        { unfold columns_size. simpl. by rewrite Hv. }
        rewrite Hsum. split; [|split; [|split; [|split; [|split]]]].
        -- apply Forall_cons_2; [|done].
           apply df_get_is_Some. by rewrite Hv.
        -- rewrite Hsize'. do 2 f_equal. lia.
        -- rewrite Htotal', Htotal. lia.
        -- rewrite Hdom. subst d1. rewrite !dom_insert_L, fmap_cons.
           simpl. apply elem_of_dom_2 in Hsize. set_solver.
        -- intros k Hk1 Hk2. rewrite fmap_cons in Hk1.
           apply not_elem_of_cons in Hk1 as [Hk1 Hk3].
           rewrite Hkeep by done. by apply Hother.
        -- intros y [->|Hy]%elem_of_cons; [|by apply Hentries].
           exists v. split; [done|]. by rewrite Hkeep.
    + rewrite foldl_register_raised.
      exists x. split; [apply elem_of_cons; by left|]. split; [|done].
      rewrite <- df_get_is_Some, Hv. by intros [? ?].
Qed.

Lemma design_variables_names (self : Study) :
  NoDup (dv_name <$> design_variables self)
  ∧ Forall (λ x, dv_name x ≠ "dspace_size"
                 ∧ (<["dspace_size" := Int 0]> ∅ : dspace) !! (dv_name x)
                   = None)
      (design_variables self).
Proof.
  unfold design_variables. split.
  - repeat case_decide; apply (bool_decide_unpack _); vm_compute; exact I.
  - repeat case_decide; repeat apply Forall_cons_2; try apply Forall_nil_2;
      (split; [done|by rewrite lookup_insert_ne, lookup_empty]).
Qed.

(** X13.  [setup_design_space_ctrl_new] raises AttributeError when
    [design_space_ctrl] is not set.  Otherwise it reads the columns of the
    six control vectors it always registers, then
    ['crop_investment_array_mix'] if 'CropEnergy' is a technology and
    ['managed_wood_investment_array_mix'] if 'ManagedWood' is one, and
    raises KeyError for a column that is missing.  When it returns, all
    these columns exist; the dictionary has the key ['dspace_size'] and the
    names of these variables and no other key; every variable holds its
    column as value, its two bounds and [True] repeated [nb_poles] times
    (whatever the length of the column), and [enable_variable] as given
    ([False] for the last two); and ['dspace_size'] is the number of values
    of the stored variables. *)
Theorem setup_design_space_ctrl_new_registers (self : Study) :
  match design_space_ctrl self with
  | None => setup_design_space_ctrl_new self = inl AttributeError
  | Some df =>
      match setup_design_space_ctrl_new self with
      | inl e =>
          ∃ x, x ∈ design_variables self
               ∧ ¬ (dv_name x ∈ columns df) ∧ e = KeyError (dv_name x)
      | inr d =>
          Forall (λ x, dv_name x ∈ columns df) (design_variables self)
          ∧ dom d = {["dspace_size"]}
                    ∪ list_to_set (dv_name <$> design_variables self)
          ∧ d !! "dspace_size" = Some (Int (total_size d))
          ∧ ∀ x, x ∈ design_variables self →
              ∃ v, df_get df (dv_name x) = Some v
                   ∧ d !! (dv_name x)
                     = Some (Dict {| value := v;
                                     lower_bnd :=
                                       replicate (nb_poles self) (dv_lower x);
                                     upper_bnd :=
                                       replicate (nb_poles self) (dv_upper x);
                                     enable_variable := dv_enable x;
                                     activated_elem :=
                                       replicate (nb_poles self) true |})
      end
  end.
Proof.
  destruct (design_space_ctrl self) as [df|] eqn:Hdf;
    [|by apply setup_design_space_ctrl_new_unset].
  rewrite (setup_design_space_ctrl_new_foldl self df Hdf).
  destruct (design_variables_names self) as [Hnames Hfresh].
  pose proof (foldl_register (nb_poles self) df (design_variables self)
                (<["dspace_size" := Int 0]> ∅) 0 (lookup_insert_eq _ _ _)
                Hnames Hfresh) as Hfold.
  destruct (foldl _ _ _) as [e|d]; [exact Hfold|].
  destruct Hfold as (Hcols & Hsize & Htotal & Hdom & _ & Hentries).
  split; [exact Hcols|]. split; [|split; [|exact Hentries]].
  - rewrite Hdom, dom_insert_L, dom_empty_L. set_solver.
  - rewrite Hsize, Htotal. reflexivity.
Qed.

Lemma df_get_set (df : list (string * list Qc)) (c c' : string)
    (v : list Qc) :
  df_get (df_set df c v) c'
  = if decide (c = c') then Some v else df_get df c'.
Proof.
  case_decide as Hc; [subst; apply df_get_set_eq|by apply df_get_set_ne].
Qed.

Lemma columns_size_constant (df : list (string * list Qc))
    (l : list design_variable) (n : nat) :
  (∀ x, x ∈ l → ∃ v, df_get df (dv_name x) = Some v ∧ length v = n) →
  columns_size df l = (n * length l)%nat.
Proof.
  unfold columns_size. induction l as [|x l IH]; intros Hl; simpl; [lia|].
  destruct (Hl x) as (v & Hv & Hlen); [apply elem_of_cons; by left|].
  rewrite Hv, IH; [simpl; lia|].
  intros y Hy. apply Hl. apply elem_of_cons. by right.
Qed.

(** Reads a column of a frame built by assignments of [linspace] vectors,
    the last assignment first, and checks the vector found. *)
Ltac read_control_vector :=
  repeat (rewrite df_get_set;
          let Heq := fresh "Heq" in
          case_decide as Heq;
          [ first [ discriminate Heq
                  | eexists; split; [reflexivity|];
                    split; [apply linspace_length|];
                    apply linspace_between; by vm_compute ]
          | try done ]).

(** X14.  The design space [setup_usecase] builds.  Whatever [nb_poles],
    the technologies and the names of the two glossary columns, the call
    of [setup_design_space_ctrl_new] raises nothing; ['dspace_size'] is
    [nb_poles] times the number of registered variables; and every
    variable stored has [nb_poles] values, each between its lower and its
    upper bound. *)
Theorem setup_usecase_control_vectors_within_bounds
    (FishDailyCal OtherDailyCal : string) (self : Study) :
  ∃ (df : list (string * list Qc)) (d : dspace),
    setup_usecase_design_space FishDailyCal OtherDailyCal self
    = inr {| year_start := year_start self; year_end := year_end self;
             techno_list := techno_list self; model_list := model_list self;
             nb_poles := nb_poles self; design_space_ctrl := Some df;
             study_dspace := Some d |}
    ∧ d !! "dspace_size"
      = Some (Int (Z.of_nat
                     (nb_poles self * length (design_variables self))))
    ∧ ∀ (name : string) (e : dspace_entry),
        d !! name = Some (Dict e) →
        length (value e) = nb_poles self
        ∧ Forall2 Qcle (lower_bnd e) (value e)
        ∧ Forall2 Qcle (value e) (upper_bnd e)
        ∧ length (activated_elem e) = nb_poles self.
Proof.
  unfold setup_usecase_design_space. cbv zeta.
  match goal with
  | |- context [setup_design_space_ctrl_new ?s] => set (self' := s)
  end.
  match goal with
  | self' := {| design_space_ctrl := Some ?t |} |- _ => set (df := t) in *
  end.
  assert (∀ x, x ∈ design_variables self →
            ∃ v, df_get df (dv_name x) = Some v
                 ∧ length v = nb_poles self
                 ∧ Forall (λ q, dv_lower x ≤ q ∧ q ≤ dv_upper x) v) as Hdf.
  { intros x Hx. subst df. clear self'. unfold design_variables in Hx.
    repeat case_decide; simpl in Hx;
      repeat (apply elem_of_cons in Hx as [->|Hx]);
      try (by apply elem_of_nil in Hx);
      cbn [dv_name dv_lower dv_upper]; read_control_vector. }
  rewrite (setup_design_space_ctrl_new_foldl self' df eq_refl).
  change (design_variables self') with (design_variables self).
  change (nb_poles self') with (nb_poles self).
  destruct (design_variables_names self) as [Hnames Hfresh].
  pose proof (foldl_register (nb_poles self) df (design_variables self)
                (<["dspace_size" := Int 0]> ∅) 0 (lookup_insert_eq _ _ _)
                Hnames Hfresh) as Hfold.
  destruct (foldl _ _ _) as [e|d].
  { destruct Hfold as (x & Hx & Hcol & _). destruct Hcol.
    apply df_get_is_Some. destruct (Hdf x Hx) as (v & -> & _). eauto. }
  destruct Hfold as (_ & Hsize & _ & Hdom & _ & Hentries).
  exists df, d. split; [reflexivity|]. split.
  - rewrite Hsize. do 2 f_equal. rewrite Z.add_0_l. f_equal.
    apply columns_size_constant. intros x Hx.
    destruct (Hdf x Hx) as (v & Hv & Hlen & _). eauto.
  - intros name e He. apply elem_of_dom_2 in He as Hin.
    rewrite Hdom, dom_insert_L, dom_empty_L in Hin.
    apply elem_of_union in Hin as [Hin|Hin].
    { assert (name = "dspace_size") as -> by set_solver. congruence. }
    apply elem_of_list_to_set, list_elem_of_fmap in Hin as (x & -> & Hx).
    destruct (Hentries x Hx) as (v & Hv & Hd).
    destruct (Hdf x Hx) as (v' & Hv' & Hlen & Hbounds).
    assert (v' = v) as -> by congruence.
    assert (e = registered_entry (nb_poles self) x v) as -> by congruence.
    simpl. split; [done|]. split; [|split].
    + apply Forall2_replicate_l; [done|].
      eapply Forall_impl; [exact Hbounds|]. by intros q [? ?].
    + apply Forall2_replicate_r; [done|].
      eapply Forall_impl; [exact Hbounds|]. by intros q [? ?].
    + apply length_replicate.
Qed.

End Usecase.
